(** * SimpleReg: wrappers around ITK's registration pipeline and NiftyReg

    A shallow embedding of the three Python modules of the repository

      - [registrationtools/WrapperRegistration.py]
      - [registrationtools/WrapItkRegistration.py]
      - [simplereg/niftyreg.py]

    Python methods become computations in a state-and-exception monad whose
    state holds the instance ([self]) together with the part of the outside
    world the method touches (temporary files, the external NiftyReg
    binaries, the ITK pipeline that gets executed, standard output). *)

From Stdlib Require Import ZArith Ring Ascii String.
From stdpp Require Import base option list gmap strings pretty.

Local Open Scope Z_scope.
Local Open Scope string_scope.

(** ** Python exceptions and the monad of methods *)

Inductive exn : Type :=
| ValueError (msg : string)
| UnboundLocalError (msg : string)
| AttributeError (msg : string)
| IndexError (msg : string)
| TypeError (msg : string)
| IOError (msg : string)
| RuntimeError (msg : string).

Inductive result (A : Type) : Type :=
| Ok (a : A)
| Raise (e : exn).
Arguments Ok {A} a.
Arguments Raise {A} e.

(** An instance attribute: unbound until an assignment binds it.  (A bound
    attribute may still hold Python's [None]; that is an [option] value.) *)
Inductive attribute (A : Type) : Type :=
| unbound
| bound (a : A).
Arguments unbound {A}.
Arguments bound {A} a.

(** A method over state [S]: it returns or raises, and its side effects
    persist in both cases. *)
Definition py (S A : Type) : Type := S → result A * S.

Definition py_ret {S A} (a : A) : py S A := λ s, (Ok a, s).
Definition py_bind {S A B} (f : A → py S B) (m : py S A) : py S B :=
  λ s, match m s with
       | (Ok a, s') => f a s'
       | (Raise e, s') => (Raise e, s')
       end.
Definition raise {S A} (e : exn) : py S A := λ s, (Raise e, s).
Definition get {S} : py S S := λ s, (Ok s, s).
Definition gets {S A} (f : S → A) : py S A := λ s, (Ok (f s), s).
Definition modify {S} (f : S → S) : py S unit := λ s, (Ok tt, f s).
(** A pure computation that may raise, run inside a method. *)
Definition lift {S A} (r : result A) : py S A := λ s, (r, s).
(** Python's [if c: body] with no [else]. *)
Definition when {S} (c : bool) (body : py S unit) : py S unit :=
  if c then body else py_ret tt.

(** [m], started in [s], ends with a result and a state that satisfy [Q]. *)
Definition wp {S A} (m : py S A) (Q : result A → S → Prop) (s : S) : Prop :=
  Q (m s).1 (m s).2.

#[global] Instance py_mret {S} : MRet (py S) := @py_ret S.
#[global] Instance py_mbind {S} : MBind (py S) := @py_bind S.

#[global] Instance result_mret : MRet result := @Ok.
#[global] Instance result_mbind : MBind result := λ A B f r,
  match r with Ok a => f a | Raise e => Raise e end.

(** ** The fragment of numpy used by [RegAladin._convert_to_sitk_transform]

    Matrix entries range over a type [F] with ring operations; a 2-D array is
    the list of its rows. *)

Class Scalar (F : Type) : Type := {
  f0 : F;
  f1 : F;
  fadd : F → F → F;
  fmul : F → F → F;
  fsub : F → F → F;
  fopp : F → F
}.

#[global] Instance Z_scalar : Scalar Z :=
  {| f0 := 0; f1 := 1; fadd := Z.add; fmul := Z.mul; fsub := Z.sub;
     fopp := Z.opp |}.

Module np.
Section Numpy.
Context {F : Type} `{Scalar F}.

Definition ncols (M : list (list F)) : nat :=
  match M with [] => 0%nat | row :: _ => length row end.

(** [np.eye(d)] *)
Definition eye (d : nat) : list (list F) :=
  (λ i, (λ j, if Nat.eqb i j then f1 else f0) <$> seq 0 d) <$> seq 0 d.

(** [M[i, j] = v]; numpy raises IndexError out of range. *)
Definition setitem (M : list (list F)) (i j : nat) (v : F)
  : result (list (list F)) :=
  match M !! i with
  | Some row =>
      if Nat.ltb j (length row) then Ok (<[i := <[j := v]> row]> M)
      else Raise (IndexError "index is out of bounds for axis 1")
  | None => Raise (IndexError "index is out of bounds for axis 0")
  end.

(** [M[0:d, 0:d]]; slices clip silently. *)
Definition block (d : nat) (M : list (list F)) : list (list F) :=
  take d <$> take d M.

(** [row[-1]] *)
Definition item_last (row : list F) : result F :=
  match last row with
  | Some x => Ok x
  | None => Raise (IndexError "index -1 is out of bounds for axis 1")
  end.

(** [M[0:d, -1]] *)
Fixpoint last_col (rows : list (list F)) : result (list F) :=
  match rows with
  | [] => Ok []
  | row :: rest =>
      x ← item_last row; xs ← last_col rest; Ok (x :: xs)
  end.
Definition last_column (d : nat) (M : list (list F)) : result (list F) :=
  last_col (take d M).

(** inner product of two equally long vectors *)
Definition vdot (u v : list F) : F :=
  foldr fadd f0 (zip_with fmul u v).

Definition col (j : nat) (M : list (list F)) : list F :=
  (λ row, nth j row f0) <$> M.

(** [A.dot(B)] for 2-D [A] and [B] *)
Definition dot (A B : list (list F)) : result (list (list F)) :=
  if Nat.eqb (ncols A) (length B)
  then Ok ((λ row, (λ j, vdot row (col j B)) <$> seq 0 (ncols B)) <$> A)
  else Raise (ValueError "shapes not aligned").

(** [A.dot(v)] for 2-D [A] and 1-D [v] *)
Definition dotv (A : list (list F)) (v : list F) : result (list F) :=
  if Nat.eqb (ncols A) (length v)
  then Ok ((λ row, vdot row v) <$> A)
  else Raise (ValueError "shapes not aligned").

(** [A.flatten()], row-major *)
Definition flatten (A : list (list F)) : list F := concat A.
End Numpy.
End np.

(** ** Paths: [os.path.join] with two arguments (posixpath) *)

(** [s.endswith(c)] for a one-character [c] *)
Fixpoint endswith (s : string) (c : Ascii.ascii) : bool :=
  match s with
  | EmptyString => false
  | String c' EmptyString => bool_decide (c' = c)
  | String _ rest => endswith rest c
  end.

Definition os_path_join (a b : string) : string :=
  if String.prefix "/" b then b
  else if bool_decide (a = "") || endswith a "/"%char then a +:+ b
  else a +:+ "/" +:+ b.

(** [path] lies below directory [dir]. *)
Definition in_dir (dir path : string) : bool :=
  String.prefix (os_path_join dir "") path.

(** ** [registrationtools/WrapperRegistration.py]

    [SimpleItkRegistrationBase] is not among the sources.  Its constructor
    receives the four images by keyword; the subclasses read them back as
    [self._fixed_sitk], [self._moving_sitk], [self._fixed_sitk_mask] and
    [self._moving_sitk_mask], so these are the attributes it binds.  Every
    one of them may be Python's [None]. *)

Record sitk_image : Type := SitkImage {
  GetDimension : nat;
  GetPixelIDValue : Z;
  voxels : N
}.

Module WrapperRegistration.
Record t : Type := Build {
  _fixed_sitk : option sitk_image;
  _moving_sitk : option sitk_image;
  _fixed_sitk_mask : option sitk_image;
  _moving_sitk_mask : option sitk_image;
  _options : string
}.

Definition __init__ (fixed_sitk moving_sitk fixed_sitk_mask
    moving_sitk_mask : option sitk_image) (options : string) : t :=
  {| _fixed_sitk := fixed_sitk;
     _moving_sitk := moving_sitk;
     _fixed_sitk_mask := fixed_sitk_mask;
     _moving_sitk_mask := moving_sitk_mask;
     _options := options |}.

Definition set_options (options : string) : py t unit :=
  modify (λ self,
    {| _fixed_sitk := _fixed_sitk self;
       _moving_sitk := _moving_sitk self;
       _fixed_sitk_mask := _fixed_sitk_mask self;
       _moving_sitk_mask := _moving_sitk_mask self;
       _options := options |}).

Definition get_options : py t string := gets _options.
End WrapperRegistration.

(** ** [simplereg/niftyreg.py]

    [NiftyReg] derives from [simplereg.wrapper_registration.WrapperRegistration],
    which is not among the sources; the class of that name above, with the
    same constructor, stands for it.  The methods that resample a mask
    ([_get_warped_moving_sitk_mask], [get_deformed_image_sitk]) need more of
    the outside world and come after the two classes. *)

(** What a registration leaves in [self._registration_transform_sitk]:
    [sitk.AffineTransform(matrix, translation)] for RegAladin, the image of
    the control point grid for RegF3D. *)
Inductive sitk_transform (F : Type) : Type :=
| AffineTransform (matrix : list F) (translation : list F)
| ControlPointGrid (image : sitk_image).
Arguments AffineTransform {F} matrix translation.
Arguments ControlPointGrid {F} image.

(** Files below the temporary directory: NIfTI images and the text file
    with the affine matrix. *)
Inductive file (F : Type) : Type :=
| Nifti (image : sitk_image)
| Text (rows : list (list F)).
Arguments Nifti {F} image.
Arguments Text {F} rows.

(** [nipype.interfaces.niftyreg.RegAladin()] and [RegF3D()]: every input is
    undefined until it is assigned. *)
Inductive nreg_tool : Type := reg_aladin | reg_f3d.

Record nreg_interface : Type := NregInterface {
  tool : nreg_tool;
  ref_file : option string;
  flo_file : option string;
  res_file : option string;
  aff_file : option string;
  cpp_file : option string;
  omp_core_val : option Z;
  args : option string;
  rmask_file : option string;
  fmask_file : option string
}.

Definition nreg_new (t : nreg_tool) : nreg_interface :=
  NregInterface t None None None None None None None None None.

Definition set_rmask_file (v : string) (n : nreg_interface) : nreg_interface :=
  NregInterface (tool n) (ref_file n) (flo_file n) (res_file n) (aff_file n)
    (cpp_file n) (omp_core_val n) (args n) (Some v) (fmask_file n).

Definition set_fmask_file (v : string) (n : nreg_interface) : nreg_interface :=
  NregInterface (tool n) (ref_file n) (flo_file n) (res_file n) (aff_file n)
    (cpp_file n) (omp_core_val n) (args n) (rmask_file n) (Some v).

(** Calls that leave the Python process, in the order they happen. *)
Inductive event : Type :=
| create_directory (directory : string) (delete_files : bool)
| WriteImage (image : sitk_image) (path : string)
| ReadImage (path : string)
| loadtxt (path : string)
| print (text : string)
| nreg_run (nreg : nreg_interface).

(** An instance of [RegAladin] or [RegF3D].  The attributes of the base
    classes are bound by every constructor; the two output paths are bound
    by one subclass each, and the two results only by [_run]. *)
Record NiftyRegObject (F : Type) : Type := Build_NiftyReg {
  super : WrapperRegistration.t;
  _dir_tmp : string;
  _fixed_str : string;
  _moving_str : string;
  _warped_moving_str : string;
  _fixed_mask_str : string;
  _moving_mask_str : string;
  _warped_moving_mask_str : string;
  _omp_cores : Z;
  _registration_transform_str : attribute string;
  _registration_control_point_grid_str : attribute string;
  _warped_moving_sitk : attribute sitk_image;
  _registration_transform_sitk : attribute (sitk_transform F)
}.
Arguments Build_NiftyReg {F}.
Arguments super {F}.
Arguments _dir_tmp {F}.
Arguments _fixed_str {F}.
Arguments _moving_str {F}.
Arguments _warped_moving_str {F}.
Arguments _fixed_mask_str {F}.
Arguments _moving_mask_str {F}.
Arguments _warped_moving_mask_str {F}.
Arguments _omp_cores {F}.
Arguments _registration_transform_str {F}.
Arguments _registration_control_point_grid_str {F}.
Arguments _warped_moving_sitk {F}.
Arguments _registration_transform_sitk {F}.

(** The imports of the module that are not among the sources: the constant
    [DIR_TMP] of [simplereg.definitions], the NiftyReg binaries behind
    nipype, [sitkh.get_transformed_sitk_image] of pysitk, and the accessor
    [get_registration_transform_sitk] inherited from
    [SimpleItkRegistrationBase]. *)
Class Imports (F : Type) : Type := {
  DIR_TMP : string;
  (** running a binary on the files on disk: the files afterwards, or the
      error nipype raises *)
  niftyreg : nreg_interface → gmap string (file F)
             → result (gmap string (file F));
  cmdline : nreg_interface → string;
  get_transformed_sitk_image :
    option sitk_image → sitk_transform F → result sitk_image;
  get_registration_transform_sitk :
    NiftyRegObject F → result (sitk_transform F)
}.

(** The state a method runs in: the instance, the files on disk and the
    calls made so far. *)
Record state (F : Type) : Type := State {
  self : NiftyRegObject F;
  files : gmap string (file F);
  trace : list event
}.
Arguments State {F}.
Arguments self {F}.
Arguments files {F}.
Arguments trace {F}.

Section Effects.
Context {F : Type}.

Definition emit (e : event) : py (state F) unit :=
  modify (λ s, State (self s) (files s) (trace s ++ [e])).

Definition set_files (fs : gmap string (file F)) : py (state F) unit :=
  modify (λ s, State (self s) fs (trace s)).

Definition set_self (o : NiftyRegObject F) : py (state F) unit :=
  modify (λ s, State o (files s) (trace s)).

(** Reading an attribute that may not have been bound yet. *)
Definition getattr {A} (name : string)
    (f : NiftyRegObject F → attribute A) : py (state F) A :=
  o ← gets self;
  match f o with
  | bound a => mret a
  | unbound =>
      raise (AttributeError ("object has no attribute '" +:+ name +:+ "'"))
  end.

(** [ph.create_directory(directory, delete_files)] of pysitk: make sure
    the directory exists and, on request, remove what is in it. *)
Definition ph_create_directory (directory : string) (delete_files : bool)
  : py (state F) unit :=
  emit (create_directory directory delete_files);;
  when delete_files
    (fs ← gets files;
     set_files (filter (λ kv, ¬ in_dir directory kv.1) fs)).

(** [sitk.WriteImage(image, path)]; [None] is not an image. *)
Definition sitk_WriteImage (image : option sitk_image) (path : string)
  : py (state F) unit :=
  match image with
  | None => raise (TypeError "WriteImage: wrong argument type")
  | Some img =>
      emit (WriteImage img path);;
      fs ← gets files;
      set_files (<[path := Nifti img]> fs)
  end.

(** [sitk.ReadImage(path)] *)
Definition sitk_ReadImage (path : string) : py (state F) sitk_image :=
  emit (ReadImage path);;
  fs ← gets files;
  match fs !! path with
  | Some (Nifti img) => mret img
  | _ => raise (RuntimeError "ReadImage: unable to read the file")
  end.

(** [np.loadtxt(path)] *)
Definition np_loadtxt (path : string) : py (state F) (list (list F)) :=
  emit (loadtxt path);;
  fs ← gets files;
  match fs !! path with
  | Some (Text rows) => mret rows
  | Some (Nifti _) => raise (ValueError "could not convert string to float")
  | None => raise (IOError "file not found")
  end.

(** [nreg.run()] *)
Definition nipype_run `{Imports F} (nreg : nreg_interface)
  : py (state F) unit :=
  emit (nreg_run nreg);;
  fs ← gets files;
  fs' ← lift (niftyreg nreg fs);
  set_files fs'.
End Effects.

Definition is_not_None {A} (x : option A) : bool :=
  match x with Some _ => true | None => false end.

Module NiftyReg.
Section NiftyReg.
Context {F : Type} `{Imports F}.

Definition __init__ (fixed_sitk moving_sitk fixed_sitk_mask
    moving_sitk_mask : option sitk_image) (options : string)
    (omp_cores : Z) (subfolder : string) : NiftyRegObject F :=
  let base := WrapperRegistration.__init__ fixed_sitk moving_sitk
                fixed_sitk_mask moving_sitk_mask options in
  (* Subfolder within DIR_TMP where results will be stored temporarily *)
  let dir_tmp := os_path_join DIR_TMP subfolder in
  {| super := base;
     _dir_tmp := dir_tmp;
     _fixed_str := os_path_join dir_tmp "fixed.nii.gz";
     _moving_str := os_path_join dir_tmp "moving.nii.gz";
     _warped_moving_str := os_path_join dir_tmp "warped_moving.nii.gz";
     _fixed_mask_str := os_path_join dir_tmp "fixed_mask.nii.gz";
     _moving_mask_str := os_path_join dir_tmp "moving_mask.nii.gz";
     _warped_moving_mask_str := os_path_join dir_tmp "warped_mask.nii.gz";
     _omp_cores := omp_cores;
     _registration_transform_str := unbound;
     _registration_control_point_grid_str := unbound;
     _warped_moving_sitk := unbound;
     _registration_transform_sitk := unbound |}.

Definition _run : py (state F) unit :=
  o ← gets self;
  (* Create and delete all possibly existing files in the directory *)
  ph_create_directory (_dir_tmp o) true;;
  sitk_WriteImage (WrapperRegistration._fixed_sitk (super o))
    (_fixed_str o);;
  sitk_WriteImage (WrapperRegistration._moving_sitk (super o))
    (_moving_str o);;
  when (is_not_None (WrapperRegistration._fixed_sitk_mask (super o)))
    (sitk_WriteImage (WrapperRegistration._fixed_sitk_mask (super o))
       (_fixed_mask_str o));;
  when (is_not_None (WrapperRegistration._moving_sitk_mask (super o)))
    (sitk_WriteImage (WrapperRegistration._moving_sitk_mask (super o))
       (_moving_mask_str o)).

(** [self._warped_moving_sitk = image] *)
Definition bind_warped_moving_sitk (image : sitk_image)
  : py (state F) unit :=
  o ← gets self;
  set_self
    (Build_NiftyReg (super o) (_dir_tmp o) (_fixed_str o) (_moving_str o)
       (_warped_moving_str o) (_fixed_mask_str o) (_moving_mask_str o)
       (_warped_moving_mask_str o) (_omp_cores o)
       (_registration_transform_str o)
       (_registration_control_point_grid_str o)
       (bound image) (_registration_transform_sitk o)).

(** [self._registration_transform_sitk = transform] *)
Definition bind_registration_transform_sitk (transform : sitk_transform F)
  : py (state F) unit :=
  o ← gets self;
  set_self
    (Build_NiftyReg (super o) (_dir_tmp o) (_fixed_str o) (_moving_str o)
       (_warped_moving_str o) (_fixed_mask_str o) (_moving_mask_str o)
       (_warped_moving_mask_str o) (_omp_cores o)
       (_registration_transform_str o)
       (_registration_control_point_grid_str o)
       (_warped_moving_sitk o) (bound transform)).

(** The two assignments [nreg.inputs.rmask_file = ...] and
    [nreg.inputs.fmask_file = ...], each under its [is not None] test. *)
Definition mask_inputs (o : NiftyRegObject F) (nreg : nreg_interface)
  : nreg_interface :=
  let nreg :=
    if is_not_None (WrapperRegistration._fixed_sitk_mask (super o))
    then set_rmask_file (_fixed_mask_str o) nreg else nreg in
  if is_not_None (WrapperRegistration._moving_sitk_mask (super o))
  then set_fmask_file (_moving_mask_str o) nreg else nreg.
End NiftyReg.
End NiftyReg.

Module RegAladin.
Section RegAladin.
Context {F : Type} `{Scalar F} `{Imports F}.

Definition __init__ (fixed_sitk moving_sitk fixed_sitk_mask
    moving_sitk_mask : option sitk_image) (options : string)
    (subfolder : string) (omp_cores : Z) : NiftyRegObject F :=
  let o := NiftyReg.__init__ fixed_sitk moving_sitk fixed_sitk_mask
             moving_sitk_mask options omp_cores subfolder in
  Build_NiftyReg (super o) (_dir_tmp o) (_fixed_str o) (_moving_str o)
    (_warped_moving_str o) (_fixed_mask_str o) (_moving_mask_str o)
    (_warped_moving_mask_str o) (_omp_cores o)
    (bound (os_path_join (_dir_tmp o) "registration_transform.txt"))
    (_registration_control_point_grid_str o)
    (_warped_moving_sitk o) (_registration_transform_sitk o).

(** The arithmetic of [_convert_to_sitk_transform]: from the matrix that
    [np.loadtxt] returned to the transform that is returned. *)
Definition to_sitk_physical (dimension : nat) (matrix : list (list F))
  : result (sitk_transform F) :=
  let A := np.block dimension matrix in
  t ← np.last_column dimension matrix;
  (* Convert to SimpleITK physical coordinate system *)
  let R := np.eye dimension in
  R ← np.setitem R 0 0 (fopp f1);
  R ← np.setitem R 1 1 (fopp f1);
  RA ← np.dot R A;
  A ← np.dot RA R;
  t ← np.dotv R t;
  mret (AffineTransform (np.flatten A) t).

(** Convert RegAladin transform to sitk object *)
Definition _convert_to_sitk_transform : py (state F) (sitk_transform F) :=
  o ← gets self;
  dimension ←
    match WrapperRegistration._fixed_sitk (super o) with
    | Some fixed => mret (GetDimension fixed)
    | None =>
        raise (AttributeError
                 "'NoneType' object has no attribute 'GetDimension'")
    end;
  (* Read trafo and invert such that format fits within SimpleITK
     structure *)
  path ← getattr "_registration_transform_str" _registration_transform_str;
  matrix ← np_loadtxt path;
  lift (to_sitk_physical dimension matrix).

Definition _run (debug : Z) : py (state F) unit :=
  NiftyReg._run;;
  o ← gets self;
  aff ← getattr "_registration_transform_str" _registration_transform_str;
  let nreg := nreg_new reg_aladin in
  let nreg :=
    NregInterface (tool nreg)
      (Some (_fixed_str o)) (Some (_moving_str o))
      (Some (_warped_moving_str o)) (Some aff) (cpp_file nreg)
      (Some (_omp_cores o))
      (Some (WrapperRegistration._options (super o)))
      (rmask_file nreg) (fmask_file nreg) in
  let nreg := NiftyReg.mask_inputs o nreg in
  (* Execute registration *)
  when (negb (Z.eqb debug 0)) (emit (print (cmdline nreg)));;
  nipype_run nreg;;
  (* Read warped image *)
  warped ← sitk_ReadImage (_warped_moving_str o);
  NiftyReg.bind_warped_moving_sitk warped;;
  (* Convert to sitk affine transform *)
  transform ← _convert_to_sitk_transform;
  NiftyReg.bind_registration_transform_sitk transform.

Definition _get_transformed_fixed_sitk : py (state F) sitk_image :=
  o ← gets self;
  transform ← lift (get_registration_transform_sitk o);
  lift (get_transformed_sitk_image
          (WrapperRegistration._fixed_sitk (super o)) transform).

Definition _get_transformed_fixed_sitk_mask : py (state F) sitk_image :=
  o ← gets self;
  transform ← lift (get_registration_transform_sitk o);
  lift (get_transformed_sitk_image
          (WrapperRegistration._fixed_sitk_mask (super o)) transform).

Definition _get_warped_moving_sitk : py (state F) sitk_image :=
  getattr "_warped_moving_sitk" _warped_moving_sitk.
End RegAladin.
End RegAladin.

Module RegF3D.
Section RegF3D.
Context {F : Type} `{Imports F}.

Definition __init__ (fixed_sitk moving_sitk fixed_sitk_mask
    moving_sitk_mask : option sitk_image) (options : string)
    (subfolder : string) (omp_cores : Z) : NiftyRegObject F :=
  let o := NiftyReg.__init__ fixed_sitk moving_sitk fixed_sitk_mask
             moving_sitk_mask options omp_cores subfolder in
  Build_NiftyReg (super o) (_dir_tmp o) (_fixed_str o) (_moving_str o)
    (_warped_moving_str o) (_fixed_mask_str o) (_moving_mask_str o)
    (_warped_moving_mask_str o) (_omp_cores o)
    (_registration_transform_str o)
    (bound (os_path_join (_dir_tmp o) "registration_cpp.nii.gz"))
    (_warped_moving_sitk o) (_registration_transform_sitk o).

Definition _run (debug : Z) : py (state F) unit :=
  NiftyReg._run;;
  o ← gets self;
  cpp ← getattr "_registration_control_point_grid_str"
          _registration_control_point_grid_str;
  let nreg := nreg_new reg_f3d in
  let nreg :=
    NregInterface (tool nreg)
      (Some (_fixed_str o)) (Some (_moving_str o))
      (Some (_warped_moving_str o)) (aff_file nreg) (Some cpp)
      (Some (_omp_cores o))
      (Some (WrapperRegistration._options (super o)))
      (rmask_file nreg) (fmask_file nreg) in
  let nreg := NiftyReg.mask_inputs o nreg in
  (* Execute registration *)
  when (negb (Z.eqb debug 0)) (emit (print (cmdline nreg)));;
  nipype_run nreg;;
  (* Read warped image *)
  warped ← sitk_ReadImage (_warped_moving_str o);
  NiftyReg.bind_warped_moving_sitk warped;;
  (* Has not been used. Thus, not tested! *)
  grid ← sitk_ReadImage cpp;
  NiftyReg.bind_registration_transform_sitk (ControlPointGrid grid).

Definition _get_transformed_fixed_sitk : py (state F) sitk_image :=
  raise (UnboundLocalError "Not implemented for RegF3D").

Definition _get_transformed_fixed_sitk_mask : py (state F) sitk_image :=
  raise (UnboundLocalError "Not implemented for RegF3D").

Definition _get_warped_moving_sitk : py (state F) sitk_image :=
  getattr "_warped_moving_sitk" _warped_moving_sitk.
End RegF3D.
End RegF3D.

(** ** [registrationtools/WrapItkRegistration.py]

    The ITK object graph is kept symbolically: a class of the wrapping is a
    template name with its arguments, an object is the record of what its
    setters received.  Looking a class up and making an object of it are
    taken to succeed; what ITK computes is an import (see [ItkImports]).
    [run] calls [_run_v3] only; [_run_v4] has a module of its own further
    down. *)

Module itk.
(** [itk.Image[pixel_type, dimension]] *)
Record image_type : Type := Image { pixel : string; dim : Z }.

#[global] Instance image_type_eq_dec : EqDecision image_type.
Proof. solve_decision. Defined.

Inductive class : Type :=
| Template (name : string) (args : list template_arg)
with template_arg : Type :=
| of_pixel (p : string)
| of_dim (d : Z)
| of_image (t : image_type)
| of_class (c : class).

(** The values the constructor receives for images and masks. *)
Inductive value : Type :=
| None_
| image (t : image_type) (buffer : N)
| object (class_name : string).

Definition isinstance (v : value) (t : image_type) : bool :=
  match v with
  | image t' _ => bool_decide (t' = t)
  | _ => false
  end.

Definition is_None (v : value) : bool :=
  match v with None_ => true | _ => false end.

(** A floating point literal [m]e[e] of the source. *)
Record float_literal : Type := Float { mantissa : Z; exponent : Z }.

Record interpolator : Type := Interpolator {
  interpolator_class : class;
  InputImage : option value
}.
Definition SetInputImage (v : value) (i : interpolator) : interpolator :=
  Interpolator (interpolator_class i) (Some v).

Record optimizer : Type := Optimizer {
  optimizer_class : class;
  GradientMagnitudeTolerance : option float_literal;
  MinimumStepLength : option float_literal;
  NumberOfIterations : option Z;
  RelaxationFactor : option float_literal
}.
Definition SetGradientMagnitudeTolerance (x : float_literal) (o : optimizer) :=
  Optimizer (optimizer_class o) (Some x) (MinimumStepLength o)
    (NumberOfIterations o) (RelaxationFactor o).
Definition SetMinimumStepLength (x : float_literal) (o : optimizer) :=
  Optimizer (optimizer_class o) (GradientMagnitudeTolerance o) (Some x)
    (NumberOfIterations o) (RelaxationFactor o).
Definition SetNumberOfIterations (n : Z) (o : optimizer) :=
  Optimizer (optimizer_class o) (GradientMagnitudeTolerance o)
    (MinimumStepLength o) (Some n) (RelaxationFactor o).
Definition SetRelaxationFactor (x : float_literal) (o : optimizer) :=
  Optimizer (optimizer_class o) (GradientMagnitudeTolerance o)
    (MinimumStepLength o) (NumberOfIterations o) (Some x).

(** [itk.CastImageFilter[...]]: its input, and the output it has after
    [Update()] *)
Record cast_image_filter : Type := CastImageFilter {
  output_type : image_type;
  Input : option value
}.
Definition SetInput (v : value) (c : cast_image_filter) :=
  CastImageFilter (output_type c) (Some v).
Definition GetOutput (c : cast_image_filter) : result value :=
  match Input c with
  | Some (image _ buffer) => Ok (image (output_type c) buffer)
  | _ => Raise (RuntimeError "CastImageFilter: input is not an image")
  end.

(** [itk.ImageMaskSpatialObject[dimension]] *)
Record mask_spatial_object : Type := ImageMaskSpatialObject {
  mask_dimension : Z;
  mask_image : option value
}.
Definition SetImage (v : value) (m : mask_spatial_object) :=
  ImageMaskSpatialObject (mask_dimension m) (Some v).

Record metric : Type := Metric {
  metric_class : class;
  MovingImageMask : option mask_spatial_object;
  FixedImageMask : option mask_spatial_object
}.
Definition SetMovingImageMask (m : mask_spatial_object) (x : metric) :=
  Metric (metric_class x) (Some m) (FixedImageMask x).
Definition SetFixedImageMask (m : mask_spatial_object) (x : metric) :=
  Metric (metric_class x) (MovingImageMask x) (Some m).

(** [itk.CenteredTransformInitializer[...]] after [InitializeTransform()] *)
Record initializer : Type := CenteredTransformInitializer {
  initializer_class : class;
  initialized_transform : class;
  initializer_FixedImage : value;
  initializer_MovingImage : value;
  Moments : bool
}.

(** A transform: freshly made, or with matrix, translation and center
    copied from an initialized one. *)
Record transform : Type := Transform {
  transform_class : class;
  copied_from : option initializer
}.

(** [itk.ImageRegistrationMethod[...]] *)
Record registration : Type := Registration {
  registration_class : class;
  FixedImage : option value;
  MovingImage : option value;
  Interpolator_ : option interpolator;
  Optimizer_ : option optimizer;
  Metric_ : option metric;
  Transform_ : option transform;
  InitialTransformParameters : option transform
}.
Definition SetFixedImage (v : value) (r : registration) :=
  Registration (registration_class r) (Some v) (MovingImage r)
    (Interpolator_ r) (Optimizer_ r) (Metric_ r) (Transform_ r)
    (InitialTransformParameters r).
Definition SetMovingImage (v : value) (r : registration) :=
  Registration (registration_class r) (FixedImage r) (Some v)
    (Interpolator_ r) (Optimizer_ r) (Metric_ r) (Transform_ r)
    (InitialTransformParameters r).
Definition SetInterpolator (i : interpolator) (r : registration) :=
  Registration (registration_class r) (FixedImage r) (MovingImage r)
    (Some i) (Optimizer_ r) (Metric_ r) (Transform_ r)
    (InitialTransformParameters r).
Definition SetOptimizer (o : optimizer) (r : registration) :=
  Registration (registration_class r) (FixedImage r) (MovingImage r)
    (Interpolator_ r) (Some o) (Metric_ r) (Transform_ r)
    (InitialTransformParameters r).
Definition SetMetric (m : metric) (r : registration) :=
  Registration (registration_class r) (FixedImage r) (MovingImage r)
    (Interpolator_ r) (Optimizer_ r) (Some m) (Transform_ r)
    (InitialTransformParameters r).
Definition SetTransform (t : transform) (r : registration) :=
  Registration (registration_class r) (FixedImage r) (MovingImage r)
    (Interpolator_ r) (Optimizer_ r) (Metric_ r) (Some t)
    (InitialTransformParameters r).
Definition SetInitialTransformParameters (t : transform) (r : registration) :=
  Registration (registration_class r) (FixedImage r) (MovingImage r)
    (Interpolator_ r) (Optimizer_ r) (Metric_ r) (Transform_ r) (Some t).

(** What [registration.Update()] leaves behind. *)
Record outcome (T : Type) : Type := Outcome {
  GetTransform : T;
  GetStopConditionDescription : string;
  GetValue : string
}.
Arguments Outcome {T}.
Arguments GetTransform {T}.
Arguments GetStopConditionDescription {T}.
Arguments GetValue {T}.
End itk.

(** The imports of the module that are not among the sources: the numerical
    core of ITK behind [registration.Update()], the timing helpers of
    [pythonhelper.PythonHelper], and the conversion
    [sitkh.get_sitk_from_itk_transform]. *)
Class ItkImports : Type := {
  itk_transform : Type;
  sitk_Transform : Type;
  time : Type;
  Update : itk.registration → result (itk.outcome itk_transform);
  get_sitk_from_itk_transform : itk_transform → sitk_Transform;
  get_zero_time : time;
  start_timing : time;
  stop_timing : time → time
}.

(** [str(x)] and ["%s" % x] for the values that get printed. *)
Definition str_bool (b : bool) : string := if b then "True" else "False".
Definition str_optional (x : option string) : string :=
  match x with Some s => s | None => "None" end.
Fixpoint join (sep : string) (l : list string) : string :=
  match l with
  | [] => ""
  | [x] => x
  | x :: rest => x +:+ sep +:+ join sep rest
  end.
Definition str_list (l : list Z) : string :=
  "[" +:+ join ", " (pretty <$> l) +:+ "]".

Module WrapItkRegistration.
Section WrapItkRegistration.
Context `{ItkImports}.

Record t : Type := Build {
  _fixed_itk : itk.value;
  _fixed_itk_mask : itk.value;
  _moving_itk : itk.value;
  _moving_itk_mask : itk.value;
  _dimension : Z;
  _pixel_type : string;
  _image_type : itk.image_type;
  _registration_type : string;
  _metric : string;
  _interpolator : string;
  _initializer_type : option string;
  _optimizer : string;
  _use_multiresolution_framework : bool;
  _shrink_factors : list Z;
  _smoothing_sigmas : list Z;
  _verbose : Z;
  _optimizer_scales : option string;
  _itk_oriented_gaussian_interpolate_image_filter : option itk.interpolator;
  _registration_transform_itk : attribute (option itk_transform);
  _computational_time : time;
  _mask_caster : itk.cast_image_filter;
  _registration_transform_sitk : attribute (option sitk_Transform)
}.

(** The constructor binds every attribute but
    [_registration_transform_sitk]. *)
Definition __init__ (fixed_itk moving_itk : itk.value) (dimension : Z)
    (pixel_type : string) (fixed_itk_mask moving_itk_mask : itk.value)
    (registration_type metric interpolator : string)
    (initializer_type : option string) (optimizer : string)
    (use_multiresolution_framework : bool)
    (shrink_factors smoothing_sigmas : list Z) (verbose : Z)
    (itk_oriented_gaussian_interpolate_image_filter
       : option itk.interpolator)
    (optimizer_scales : option string) : t :=
  {| _fixed_itk := fixed_itk;
     _fixed_itk_mask := fixed_itk_mask;
     _moving_itk := moving_itk;
     _moving_itk_mask := moving_itk_mask;
     _dimension := dimension;
     _pixel_type := pixel_type;
     _image_type := itk.Image pixel_type dimension;
     _registration_type := registration_type;
     _metric := metric;
     _interpolator := interpolator;
     _initializer_type := initializer_type;
     _optimizer := optimizer;
     _use_multiresolution_framework := use_multiresolution_framework;
     _shrink_factors := shrink_factors;
     _smoothing_sigmas := smoothing_sigmas;
     _verbose := verbose;
     _optimizer_scales := optimizer_scales;
     _itk_oriented_gaussian_interpolate_image_filter :=
       itk_oriented_gaussian_interpolate_image_filter;
     _registration_transform_itk := bound None;
     _computational_time := get_zero_time;
     _mask_caster :=
       itk.CastImageFilter (itk.Image "UC" dimension) None;
     _registration_transform_sitk := unbound |}.

(** Calls that leave the wrapper, in the order they happen. *)
Inductive event : Type :=
| registration_Update (r : itk.registration)
| print_info (text : string) (newline : bool)
| print (text : string)
| print_sitk_transform (transform : sitk_Transform).

Record state : Type := State { self : t; trace : list event }.

Definition emit (e : event) : py state unit :=
  modify (λ s, State (self s) (trace s ++ [e])).

Definition getattr {A} (name : string) (f : t → attribute A)
  : py state A :=
  o ← gets self;
  match f o with
  | bound a => mret a
  | unbound =>
      raise (AttributeError
        ("'WrapItkRegistration' object has no attribute '" +:+ name +:+ "'"))
  end.

(** [self._registration_transform_itk = v] *)
Definition bind_registration_transform_itk (v : option itk_transform)
  : py state unit :=
  modify (λ s, let o := self s in
    State
      (Build (_fixed_itk o) (_fixed_itk_mask o) (_moving_itk o)
         (_moving_itk_mask o) (_dimension o) (_pixel_type o)
         (_image_type o) (_registration_type o) (_metric o)
         (_interpolator o) (_initializer_type o) (_optimizer o)
         (_use_multiresolution_framework o) (_shrink_factors o)
         (_smoothing_sigmas o) (_verbose o) (_optimizer_scales o)
         (_itk_oriented_gaussian_interpolate_image_filter o)
         (bound v) (_computational_time o) (_mask_caster o)
         (_registration_transform_sitk o))
      (trace s)).

(** [self._registration_transform_sitk = v] *)
Definition bind_registration_transform_sitk (v : option sitk_Transform)
  : py state unit :=
  modify (λ s, let o := self s in
    State
      (Build (_fixed_itk o) (_fixed_itk_mask o) (_moving_itk o)
         (_moving_itk_mask o) (_dimension o) (_pixel_type o)
         (_image_type o) (_registration_type o) (_metric o)
         (_interpolator o) (_initializer_type o) (_optimizer o)
         (_use_multiresolution_framework o) (_shrink_factors o)
         (_smoothing_sigmas o) (_verbose o) (_optimizer_scales o)
         (_itk_oriented_gaussian_interpolate_image_filter o)
         (_registration_transform_itk o) (_computational_time o)
         (_mask_caster o) (bound v))
      (trace s)).

(** [self._computational_time = v] *)
Definition bind_computational_time (v : time) : py state unit :=
  modify (λ s, let o := self s in
    State
      (Build (_fixed_itk o) (_fixed_itk_mask o) (_moving_itk o)
         (_moving_itk_mask o) (_dimension o) (_pixel_type o)
         (_image_type o) (_registration_type o) (_metric o)
         (_interpolator o) (_initializer_type o) (_optimizer o)
         (_use_multiresolution_framework o) (_shrink_factors o)
         (_smoothing_sigmas o) (_verbose o) (_optimizer_scales o)
         (_itk_oriented_gaussian_interpolate_image_filter o)
         (_registration_transform_itk o) v (_mask_caster o)
         (_registration_transform_sitk o))
      (trace s)).

(** [self._mask_caster.SetInput(v)] *)
Definition mask_caster_SetInput (v : itk.value) : py state unit :=
  modify (λ s, let o := self s in
    State
      (Build (_fixed_itk o) (_fixed_itk_mask o) (_moving_itk o)
         (_moving_itk_mask o) (_dimension o) (_pixel_type o)
         (_image_type o) (_registration_type o) (_metric o)
         (_interpolator o) (_initializer_type o) (_optimizer o)
         (_use_multiresolution_framework o) (_shrink_factors o)
         (_smoothing_sigmas o) (_verbose o) (_optimizer_scales o)
         (_itk_oriented_gaussian_interpolate_image_filter o)
         (_registration_transform_itk o) (_computational_time o)
         (itk.SetInput v (_mask_caster o))
         (_registration_transform_sitk o))
      (trace s)).

Definition get_computational_time : py state time :=
  gets (λ s, _computational_time (self s)).

(** Gets the obtained registration transform (as sitk object). *)
Definition get_registration_transform_sitk : py state sitk_Transform :=
  v ← getattr "_registration_transform_sitk" _registration_transform_sitk;
  match v with
  | None => raise (UnboundLocalError "Execute 'run' first.")
  | Some transform => mret transform
  end.

(** Gets the obtained registration transform (as itk object). *)
Definition get_registration_transform_itk : py state itk_transform :=
  v ← getattr "_registration_transform_itk" _registration_transform_itk;
  match v with
  | None => raise (UnboundLocalError "Execute 'run' first.")
  | Some transform => mret transform
  end.

(** [self._mask_caster.SetInput(mask)], [Update()], [GetOutput()] and
    [DisconnectPipeline()]: the mask as an unsigned char image. *)
Definition cast_mask (mask : itk.value) : py state itk.value :=
  mask_caster_SetInput mask;;
  o ← gets self;
  lift (itk.GetOutput (_mask_caster o)).

Definition tab : string := String (Ascii.ascii_of_nat 9) EmptyString.

Definition _run_v3 : py state unit :=
  o ← gets self;
  let image_type := itk.of_image (_image_type o) in
  (* ---------------------------Transform Type------------------------- *)
  transform_type ←
    (if bool_decide (_registration_type o = "Rigid") then
       mret (itk.Template
               ("Euler" +:+ pretty (_dimension o) +:+ "DTransform")
               [itk.of_pixel (_pixel_type o)])
     else if bool_decide (_registration_type o = "Similarity") then
       mret (itk.Template
               ("Similarity" +:+ pretty (_dimension o) +:+ "DTransform")
               [itk.of_pixel (_pixel_type o)])
     else if bool_decide (_registration_type o = "Affine") then
       mret (itk.Template "AffineTransform"
               [itk.of_pixel (_pixel_type o); itk.of_dim (_dimension o)])
     else
       raise (ValueError ("Registration type '" +:+ _registration_type o
                          +:+ "' not known.")));
  (* --------------------------Interpolator Type----------------------- *)
  let interpolator :=
    match _itk_oriented_gaussian_interpolate_image_filter o with
    | Some given => given
    | None =>
        itk.Interpolator
          (itk.Template (_interpolator o +:+ "InterpolateImageFunction")
             [image_type; itk.of_pixel (_pixel_type o)])
          None
    end in
  (* -----------------------------Metric Type-------------------------- *)
  let '(metric_type, interpolator) :=
    if bool_decide (_metric o = "Correlation") then
      (Some (itk.Template "NormalizedCorrelationImageToImageMetric"
               [image_type; image_type]), interpolator)
    else if bool_decide (_metric o = "MattesMutualInformation") then
      (Some (itk.Template "MattesMutualInformationImageToImageMetric"
               [image_type; image_type]),
       itk.SetInputImage (_moving_itk o) interpolator)
    else if bool_decide (_metric o = "MeanSquares") then
      (Some (itk.Template "MeanSquaresImageToImageMetric"
               [image_type; image_type]), interpolator)
    else (None, interpolator) in
  (* ---------------------------Optimizer Type------------------------- *)
  optimizer_type ←
    (if bool_decide (_optimizer o = "RegularStepGradientDescent") then
       mret (itk.Template "RegularStepGradientDescentOptimizer" [])
     else
       raise (ValueError
         "For 'ImageRegistrationMethod' only RegularStepGradientDescent"));
  (* -----------------------Image Registration Type-------------------- *)
  let registration_type :=
    itk.Template "ImageRegistrationMethod" [image_type; image_type] in
  (* ----------------------------Set variables------------------------- *)
  let registration :=
    itk.Registration registration_type None None None None None None None in
  let registration := itk.SetFixedImage (_fixed_itk o) registration in
  let registration := itk.SetMovingImage (_moving_itk o) registration in
  let registration := itk.SetInterpolator interpolator registration in
  let optimizer := itk.Optimizer optimizer_type None None None None in
  let optimizer :=
    itk.SetGradientMagnitudeTolerance (itk.Float 1 (-6)) optimizer in
  let optimizer := itk.SetMinimumStepLength (itk.Float 1 (-6)) optimizer in
  let optimizer := itk.SetNumberOfIterations 200 optimizer in
  let optimizer := itk.SetRelaxationFactor (itk.Float 5 (-1)) optimizer in
  when (is_not_None (_optimizer_scales o))
    (raise (ValueError "No scales allowed for 'ImageRegistrationMethod'"));;
  let registration := itk.SetOptimizer optimizer registration in
  metric ←
    match metric_type with
    | Some c => mret (itk.Metric c None None)
    | None =>
        raise (UnboundLocalError
          "local variable 'metric_type' referenced before assignment")
    end;
  metric ←
    (if negb (itk.is_None (_moving_itk_mask o)) then
       moving_itk_mask ← cast_mask (_moving_itk_mask o);
       let moving_mask_object :=
         itk.ImageMaskSpatialObject (_dimension o) None in
       let moving_mask_object :=
         itk.SetImage moving_itk_mask moving_mask_object in
       mret (itk.SetMovingImageMask moving_mask_object metric)
     else mret metric);
  metric ←
    (if negb (itk.is_None (_fixed_itk_mask o)) then
       fixed_itk_mask ← cast_mask (_fixed_itk_mask o);
       let fixed_mask_object :=
         itk.ImageMaskSpatialObject (_dimension o) None in
       let fixed_mask_object :=
         itk.SetImage fixed_itk_mask fixed_mask_object in
       mret (itk.SetFixedImageMask fixed_mask_object metric)
     else mret metric);
  let registration := itk.SetMetric metric registration in
  let initial_transform := itk.Transform transform_type None in
  let initial_transform :=
    match _initializer_type o with
    | Some initializer_type =>
        let transform_which_works :=
          if bool_decide (_dimension o = 2) then
            itk.Template "CenteredRigid2DTransform"
              [itk.of_pixel (_pixel_type o)]
          else
            itk.Template "VersorRigid3DTransform"
              [itk.of_pixel (_pixel_type o)] in
        let initializer :=
          itk.CenteredTransformInitializer
            (itk.Template "CenteredTransformInitializer"
               [itk.of_class transform_which_works; image_type; image_type])
            transform_which_works (_fixed_itk o) (_moving_itk o)
            (bool_decide (initializer_type = "MOMENTS")) in
        itk.Transform transform_type (Some initializer)
    | None => initial_transform
    end in
  (* the registration holds a reference to [initial_transform], so it
     sees the matrix, translation and center set after [SetTransform] *)
  let registration := itk.SetTransform initial_transform registration in
  let registration :=
    itk.SetInitialTransformParameters initial_transform registration in
  (* Optional multi-resolution framework *)
  when (_use_multiresolution_framework o)
    (raise (ValueError
       ("Multiresolution-Framework cannot be used with " +:+
        "ImageRegistrationMethod. ImageRegistrationMethodv4 required.")));;
  (* Execute registration *)
  emit (registration_Update registration);;
  done_ ← lift (Update registration);
  bind_registration_transform_itk (Some (itk.GetTransform done_));;
  when (negb (Z.eqb (_verbose o) 0))
    (emit (print_info "Registration: WrapITK" true);;
     emit (print_info ("Transform Model: " +:+ _registration_type o) true);;
     emit (print_info ("Interpolator: " +:+ _interpolator o) true);;
     emit (print_info ("Metric: " +:+ _metric o) true);;
     emit (print_info ("CenteredTransformInitializer: " +:+
                       str_optional (_initializer_type o)) true);;
     emit (print_info ("Optimizer: " +:+ _optimizer o) true);;
     emit (print_info ("Use Multiresolution Framework: " +:+
                       str_bool (_use_multiresolution_framework o))
             (negb (_use_multiresolution_framework o)));;
     when (_use_multiresolution_framework o)
       (emit (print (" (" +:+ "shrink factors = " +:+
                     str_list (_shrink_factors o) +:+ ", " +:+
                     "smoothing sigmas = " +:+
                     str_list (_smoothing_sigmas o) +:+ ")")));;
     emit (print_info ("Use Fixed Mask: " +:+
                       str_bool (negb (itk.is_None (_fixed_itk_mask o))))
             true);;
     emit (print_info ("Use Moving Mask: " +:+
                       str_bool (negb (itk.is_None (_moving_itk_mask o))))
             true));;
  let transform_sitk :=
    get_sitk_from_itk_transform (itk.GetTransform done_) in
  bind_registration_transform_sitk (Some transform_sitk);;
  when (negb (Z.eqb (_verbose o) 0))
    (emit (print_info "Summary Registration Method Result:" true);;
     emit (print_info (tab +:+ "Optimizer's stopping condition: " +:+
                       itk.GetStopConditionDescription done_) true);;
     emit (print_info (tab +:+ "Final metric value: " +:+
                       itk.GetValue done_) true);;
     emit (print_sitk_transform transform_sitk)).

(** Run the registration method *)
Definition run : py state unit :=
  o ← gets self;
  when (negb (itk.isinstance (_fixed_itk o) (_image_type o)))
    (raise (ValueError "Fixed image must be of type itk.Image"));;
  when (negb (itk.isinstance (_moving_itk o) (_image_type o)))
    (raise (ValueError "Moving image must be of type itk.Image"));;
  when (negb (itk.is_None (_fixed_itk_mask o)) &&
        negb (itk.isinstance (_fixed_itk_mask o) (_image_type o)))
    (raise (ValueError "Fixed image mask must be of type itk.Image"));;
  when (negb (itk.is_None (_moving_itk_mask o)) &&
        negb (itk.isinstance (_moving_itk_mask o) (_image_type o)))
    (raise (ValueError "Moving image mask must be of type itk.Image"));;
  let time_start := start_timing in
  (* Execute registration method *)
  _run_v3;;
  (* Get computational time *)
  bind_computational_time (stop_timing time_start).
End WrapItkRegistration.
End WrapItkRegistration.

(** ** Reference instances of the imports, for running the model *)

(** An ITK whose [Update()] hands back the transform it was given. *)
Definition reference_itk : ItkImports :=
  {| itk_transform := itk.transform;
     sitk_Transform := itk.transform;
     time := Z;
     Update := λ r,
       match itk.Transform_ r with
       | Some t => Ok (itk.Outcome t "Step too small" "-0.98")
       | None => Raise (RuntimeError "Transform is not present")
       end;
     get_sitk_from_itk_transform := λ t, t;
     get_zero_time := 0;
     start_timing := 0;
     stop_timing := λ t, t + 1 |}.

Definition itk_image_D3 (buffer : N) : itk.value :=
  itk.image (itk.Image "D" 3) buffer.

(** [WrapItkRegistration(fixed, moving, 3, use_multiresolution_framework=True)],
    every other argument at its default. *)
Definition multiresolution_instance : @WrapItkRegistration.t reference_itk :=
  @WrapItkRegistration.__init__ reference_itk
    (itk_image_D3 1) (itk_image_D3 2) 3 "D" itk.None_ itk.None_
    "Rigid" "Correlation" "Linear" None "RegularStepGradientDescent"
    true [2; 1] [1; 0] 1 None None.

(** [WrapItkRegistration(None, moving, 3, registration_type="Spline")] *)
Definition spline_instance : @WrapItkRegistration.t reference_itk :=
  @WrapItkRegistration.__init__ reference_itk
    itk.None_ (itk_image_D3 2) 3 "D" itk.None_ itk.None_
    "Spline" "Correlation" "Linear" None "RegularStepGradientDescent"
    false [2; 1] [1; 0] 1 None None.

(** [WrapItkRegistration(fixed, moving, 3, fixed_itk_mask=mask)] *)
Definition masked_instance : @WrapItkRegistration.t reference_itk :=
  @WrapItkRegistration.__init__ reference_itk
    (itk_image_D3 1) (itk_image_D3 2) 3 "D" (itk_image_D3 3) itk.None_
    "Affine" "MeanSquares" "Linear" (Some "MOMENTS")
    "RegularStepGradientDescent"
    false [2; 1] [1; 0] 0 None None.

(** [WrapItkRegistration(fixed, moving, 3, registration_type="BSpline")] *)
Definition bspline_instance : @WrapItkRegistration.t reference_itk :=
  @WrapItkRegistration.__init__ reference_itk
    (itk_image_D3 1) (itk_image_D3 2) 3 "D" itk.None_ itk.None_
    "BSpline" "Correlation" "Linear" None "RegularStepGradientDescent"
    false [2; 1] [1; 0] 1 None None.

(** [WrapItkRegistration(fixed, moving, 3,
    optimizer="ConjugateGradientLineSearch", optimizer_scales="PhysicalShift")] *)
Definition conjugate_gradient_instance : @WrapItkRegistration.t reference_itk :=
  @WrapItkRegistration.__init__ reference_itk
    (itk_image_D3 1) (itk_image_D3 2) 3 "D" itk.None_ itk.None_
    "Rigid" "Correlation" "Linear" None "ConjugateGradientLineSearch"
    false [2; 1] [1; 0] 1 None (Some "PhysicalShift").

(** A NiftyReg whose [reg_aladin] resamples nothing and reports a fixed
    affine matrix, and whose [reg_f3d] returns the floating image as control
    point grid; the accessor of the base class is the one of
    [WrapItkRegistration]. *)
Definition reference_niftyreg : Imports Z :=
  {| DIR_TMP := "/tmp/simplereg";
     niftyreg := λ nreg fs,
       match flo_file nreg ≫= (fs !!.), res_file nreg with
       | Some (Nifti floating), Some res =>
           match tool nreg, aff_file nreg, cpp_file nreg with
           | reg_aladin, Some aff, _ =>
               Ok (<[aff := Text [[1; 2; 3; 10]; [4; 5; 6; 20];
                                   [7; 8; 9; 30]; [0; 0; 0; 1]]]>
                     (<[res := Nifti floating]> fs))
           | reg_f3d, _, Some cpp =>
               Ok (<[cpp := Nifti floating]> (<[res := Nifti floating]> fs))
           | _, _, _ => Raise (RuntimeError "missing mandatory input")
           end
       | _, _ => Raise (RuntimeError "missing mandatory input")
       end;
     cmdline := λ nreg,
       match tool nreg with reg_aladin => "reg_aladin" | reg_f3d => "reg_f3d"
       end;
     get_transformed_sitk_image := λ image transform,
       match image with
       | Some img => Ok img
       | None => Raise (TypeError "not an image")
       end;
     get_registration_transform_sitk := λ o,
       match _registration_transform_sitk o with
       | bound transform => Ok transform
       | unbound =>
           Raise (AttributeError
             "object has no attribute '_registration_transform_sitk'")
       end |}.

Definition fixed_3d : sitk_image := SitkImage 3 8 1.
Definition moving_3d : sitk_image := SitkImage 3 8 2.
Definition mask_3d : sitk_image := SitkImage 3 1 3.

(** [RegAladin(fixed, moving, fixed_sitk_mask=mask)] and
    [RegF3D(fixed, moving, moving_sitk_mask=mask)] *)
Definition aladin_instance : NiftyRegObject Z :=
  @RegAladin.__init__ Z reference_niftyreg (Some fixed_3d) (Some moving_3d)
    (Some mask_3d) None "" "RegAladin" 8.

Definition f3d_instance : NiftyRegObject Z :=
  @RegF3D.__init__ Z reference_niftyreg (Some fixed_3d) (Some moving_3d)
    None (Some mask_3d) "" "RegF3D" 8.

(** A disk on which an earlier run has left its warped image. *)
Definition stale_files : gmap string (file Z) :=
  {[ "/tmp/simplereg/RegAladin/warped_moving.nii.gz" := Nifti mask_3d ]}.

(** The matrix the reference [reg_aladin] reports. *)
Definition reference_matrix : list (list Z) :=
  [[1; 2; 3; 10]; [4; 5; 6; 20]; [7; 8; 9; 30]; [0; 0; 0; 1]].

(** ** Clients of [WrapperRegistration]

    The calls a client can make on an instance through the methods the
    class defines, and the options string a sequence of them establishes. *)
Inductive call : Type :=
| call_set_options (options : string)
| call_get_options.

Definition perform (c : call) : py WrapperRegistration.t unit :=
  match c with
  | call_set_options o => WrapperRegistration.set_options o
  | call_get_options => WrapperRegistration.get_options;; mret tt
  end.

Fixpoint perform_all (cs : list call) : py WrapperRegistration.t unit :=
  match cs with
  | [] => mret tt
  | c :: rest => perform c;; perform_all rest
  end.

Fixpoint latest_options (established : string) (cs : list call) : string :=
  match cs with
  | [] => established
  | call_set_options o :: rest => latest_options o rest
  | call_get_options :: rest => latest_options established rest
  end.

(** ** Specification of a run of [WrapItkRegistration]

    These definitions follow the wording of the specification; the
    properties below compare them with the methods above. *)

(** [needle in haystack] *)
Fixpoint contains (needle haystack : string) : bool :=
  String.prefix needle haystack ||
  match haystack with
  | EmptyString => false
  | String _ rest => contains needle rest
  end.

Section Wiring.
Context `{ItkImports}.
Import WrapItkRegistration.

(** The four [isinstance] guards at the head of [run] let the instance
    through. *)
Definition passes_type_checks (o : t) : bool :=
  itk.isinstance (_fixed_itk o) (_image_type o)
  && itk.isinstance (_moving_itk o) (_image_type o)
  && (itk.is_None (_fixed_itk_mask o)
      || itk.isinstance (_fixed_itk_mask o) (_image_type o))
  && (itk.is_None (_moving_itk_mask o)
      || itk.isinstance (_moving_itk_mask o) (_image_type o)).

(** The pipelines on which [Update()] was called. *)
Definition executed (tr : list event) : list itk.registration :=
  omap (λ e, match e with registration_Update r => Some r | _ => None end)
    tr.

(** A block that only prints: it returns, leaves the instance alone and
    calls [Update()] on nothing. *)
Definition silent (m : py state unit) : Prop :=
  ∀ o tr, ∃ rest,
    m (State o tr) = (Ok tt, State o (tr ++ rest))
    ∧ executed rest = [].

(** The transform model a registration type string stands for. *)
Definition transform_model (registration_type : string) (dimension : Z)
    (pixel_type : string) : option itk.class :=
  if bool_decide (registration_type = "Rigid") then
    Some (itk.Template ("Euler" +:+ pretty dimension +:+ "DTransform")
            [itk.of_pixel pixel_type])
  else if bool_decide (registration_type = "Similarity") then
    Some (itk.Template ("Similarity" +:+ pretty dimension +:+ "DTransform")
            [itk.of_pixel pixel_type])
  else if bool_decide (registration_type = "Affine") then
    Some (itk.Template "AffineTransform"
            [itk.of_pixel pixel_type; itk.of_dim dimension])
  else None.

(** The RegularStepGradientDescent optimizer with gradient magnitude
    tolerance 1e-6, minimum step length 1e-6, 200 iterations and
    relaxation factor 0.5. *)
Definition regular_step_gradient_descent : itk.optimizer :=
  {| itk.optimizer_class :=
       itk.Template "RegularStepGradientDescentOptimizer" [];
     itk.GradientMagnitudeTolerance := Some (itk.Float 1 (-6));
     itk.MinimumStepLength := Some (itk.Float 1 (-6));
     itk.NumberOfIterations := Some 200;
     itk.RelaxationFactor := Some (itk.Float 5 (-1)) |}.

(** A mask cast to the caster's output type and wrapped as a mask spatial
    object; no object for [None]. *)
Definition mask_object (o : t) (mask : itk.value)
  : option itk.mask_spatial_object :=
  match mask with
  | itk.image _ buffer =>
      Some (itk.ImageMaskSpatialObject (_dimension o)
              (Some (itk.image (itk.output_type (_mask_caster o)) buffer)))
  | _ => None
  end.

Definition known_metric (metric : string) : bool :=
  bool_decide (metric = "Correlation")
  || bool_decide (metric = "MattesMutualInformation")
  || bool_decide (metric = "MeanSquares").

Definition is_object (v : itk.value) : bool :=
  match v with itk.object _ => true | _ => false end.

(** The first check of [_run_v3] that an instance fails, in the order in
    which the method makes them; [None] when it gets as far as
    [registration.Update()]. *)
Definition rejection (o : t) : option exn :=
  match transform_model (_registration_type o) (_dimension o)
          (_pixel_type o) with
  | None =>
      Some (ValueError ("Registration type '" +:+ _registration_type o
                        +:+ "' not known."))
  | Some _ =>
      if negb (bool_decide (_optimizer o = "RegularStepGradientDescent"))
      then Some (ValueError
             "For 'ImageRegistrationMethod' only RegularStepGradientDescent")
      else if is_not_None (_optimizer_scales o)
      then Some (ValueError
             "No scales allowed for 'ImageRegistrationMethod'")
      else if negb (known_metric (_metric o))
      then Some (UnboundLocalError
             "local variable 'metric_type' referenced before assignment")
      else if is_object (_moving_itk_mask o)
              || is_object (_fixed_itk_mask o)
      then Some (RuntimeError "CastImageFilter: input is not an image")
      else if _use_multiresolution_framework o
      then Some (ValueError
             "Multiresolution-Framework cannot be used with ImageRegistrationMethod. ImageRegistrationMethodv4 required.")
      else None
  end.

(** The same for [run], whose four type guards come first. *)
Definition run_rejection (o : t) : option exn :=
  if negb (itk.isinstance (_fixed_itk o) (_image_type o))
  then Some (ValueError "Fixed image must be of type itk.Image")
  else if negb (itk.isinstance (_moving_itk o) (_image_type o))
  then Some (ValueError "Moving image must be of type itk.Image")
  else if negb (itk.is_None (_fixed_itk_mask o))
          && negb (itk.isinstance (_fixed_itk_mask o) (_image_type o))
  then Some (ValueError "Fixed image mask must be of type itk.Image")
  else if negb (itk.is_None (_moving_itk_mask o))
          && negb (itk.isinstance (_moving_itk_mask o) (_image_type o))
  then Some (ValueError "Moving image mask must be of type itk.Image")
  else rejection o.

(** The pipeline [r] is wired from the attributes of [o]. *)
Definition wired (o : t) (r : itk.registration) : Prop :=
  itk.FixedImage r = Some (_fixed_itk o)
  ∧ itk.MovingImage r = Some (_moving_itk o)
  ∧ (∃ c initial,
       transform_model (_registration_type o) (_dimension o)
         (_pixel_type o) = Some c
       ∧ itk.Transform_ r = Some (itk.Transform c initial))
  ∧ _optimizer o = "RegularStepGradientDescent"
  ∧ _optimizer_scales o = None
  ∧ itk.Optimizer_ r = Some regular_step_gradient_descent
  ∧ (∃ m,
       itk.Metric_ r = Some m
       ∧ itk.FixedImageMask m = mask_object o (_fixed_itk_mask o)
       ∧ itk.MovingImageMask m = mask_object o (_moving_itk_mask o)
       ∧ (itk.FixedImageMask m = None ↔ _fixed_itk_mask o = itk.None_)
       ∧ (itk.MovingImageMask m = None ↔ _moving_itk_mask o = itk.None_))
  ∧ _use_multiresolution_framework o = false.
End Wiring.

(** ** Specification of a run of NiftyReg *)

Section Preparation.
Context {F : Type} `{Imports F}.

(** The attributes that hold paths are the ones the constructor of
    [NiftyReg] binds, for some subfolder of [DIR_TMP]. *)
Definition paths_bound (subfolder : string) (o : NiftyRegObject F) : Prop :=
  _dir_tmp o = os_path_join DIR_TMP subfolder
  ∧ _fixed_str o = os_path_join (_dir_tmp o) "fixed.nii.gz"
  ∧ _moving_str o = os_path_join (_dir_tmp o) "moving.nii.gz"
  ∧ _warped_moving_str o = os_path_join (_dir_tmp o) "warped_moving.nii.gz"
  ∧ _fixed_mask_str o = os_path_join (_dir_tmp o) "fixed_mask.nii.gz"
  ∧ _moving_mask_str o = os_path_join (_dir_tmp o) "moving_mask.nii.gz".

(** The events by which a mask, if there is one, gets onto disk. *)
Definition mask_write (mask : option sitk_image) (path : string)
  : list event :=
  match mask with
  | Some m => [WriteImage m path]
  | None => []
  end.

(** What [NiftyReg._run] does for images [fixed] and [moving]: clear the
    directory, write the two images, write the masks there are. *)
Definition preparation (o : NiftyRegObject F) (fixed moving : sitk_image)
  : list event :=
  [create_directory (_dir_tmp o) true;
   WriteImage fixed (_fixed_str o);
   WriteImage moving (_moving_str o)]
  ++ mask_write (WrapperRegistration._fixed_sitk_mask (super o))
       (_fixed_mask_str o)
  ++ mask_write (WrapperRegistration._moving_sitk_mask (super o))
       (_moving_mask_str o).

Definition with_mask (mask : option sitk_image) (path : string)
    (fs : gmap string (file F)) : gmap string (file F) :=
  match mask with
  | Some m => <[path := Nifti m]> fs
  | None => fs
  end.

(** The files on disk after the preparation. *)
Definition prepared (o : NiftyRegObject F) (fixed moving : sitk_image)
    (fs : gmap string (file F)) : gmap string (file F) :=
  with_mask (WrapperRegistration._moving_sitk_mask (super o))
    (_moving_mask_str o)
    (with_mask (WrapperRegistration._fixed_sitk_mask (super o))
       (_fixed_mask_str o)
       (<[_moving_str o := Nifti moving]>
          (<[_fixed_str o := Nifti fixed]>
             (filter (λ kv, ¬ in_dir (_dir_tmp o) kv.1) fs)))).

(** The path of a mask if there is a mask, for [rmask_file] and
    [fmask_file]. *)
Definition mask_path (mask : option sitk_image) (path : string)
  : option string :=
  match mask with Some _ => Some path | None => None end.

(** What [reg_aladin] receives, with the affine matrix to go to [aff]. *)
Definition aladin_inputs (o : NiftyRegObject F) (aff : string)
  : nreg_interface :=
  {| tool := reg_aladin;
     ref_file := Some (_fixed_str o);
     flo_file := Some (_moving_str o);
     res_file := Some (_warped_moving_str o);
     aff_file := Some aff;
     cpp_file := None;
     omp_core_val := Some (_omp_cores o);
     args := Some (WrapperRegistration._options (super o));
     rmask_file :=
       mask_path (WrapperRegistration._fixed_sitk_mask (super o))
         (_fixed_mask_str o);
     fmask_file :=
       mask_path (WrapperRegistration._moving_sitk_mask (super o))
         (_moving_mask_str o) |}.

(** What [reg_f3d] receives, with the control point grid to go to [cpp]. *)
Definition f3d_inputs (o : NiftyRegObject F) (cpp : string)
  : nreg_interface :=
  {| tool := reg_f3d;
     ref_file := Some (_fixed_str o);
     flo_file := Some (_moving_str o);
     res_file := Some (_warped_moving_str o);
     aff_file := None;
     cpp_file := Some cpp;
     omp_core_val := Some (_omp_cores o);
     args := Some (WrapperRegistration._options (super o));
     rmask_file :=
       mask_path (WrapperRegistration._fixed_sitk_mask (super o))
         (_fixed_mask_str o);
     fmask_file :=
       mask_path (WrapperRegistration._moving_sitk_mask (super o))
         (_moving_mask_str o) |}.

(** What [print(nreg.cmdline)] prints under [if debug:]. *)
Definition debug_print (debug : Z) (nreg : nreg_interface) : list event :=
  if Z.eqb debug 0 then [] else [print (cmdline nreg)].

(** The events after the binary returned are reads. *)
Definition is_read (e : event) : bool :=
  match e with ReadImage _ | loadtxt _ => true | _ => false end.
End Preparation.

(** ** Specification of the conversion of the affine matrix *)

Section SignFlip.
Context {F : Type} `{Scalar F}.

(** The diagonal of [R]: -1 in the first two places, 1 after them. *)
Definition R_sign (i : nat) : F :=
  if Nat.ltb i 2 then fopp f1 else f1.

(** [R]: the identity with entries (0,0) and (1,1) negated. *)
Definition R_matrix (d : nat) : list (list F) :=
  (λ i, (λ j, if Nat.eqb i j then R_sign i else f0) <$> seq 0 d)
    <$> seq 0 d.

(** The entries [A[i][j]] with exactly one of [i], [j] in {0, 1} change
    sign, the others stay. *)
Definition sign_flipped_matrix (A : list (list F)) : list (list F) :=
  imap (λ i row,
          imap (λ j a,
                  if xorb (Nat.ltb i 2) (Nat.ltb j 2) then fopp a else a)
            row) A.

(** The first two components change sign, the others stay. *)
Definition sign_flipped_vector (t : list F) : list F :=
  imap (λ i x, if Nat.ltb i 2 then fopp x else x) t.

(** The linear part of a matrix read from the file: its top left
    [d]-by-[d] block. *)
Definition linear_part (d : nat) (M : list (list F)) : list (list F) :=
  take d <$> take d M.

(** Its translation: the first [d] entries of its last column. *)
Definition translation_part (d : nat) (M : list (list F)) : list F :=
  (λ row, default f0 (last row)) <$> take d M.
End SignFlip.

(** ** [simplereg/niftyreg.py]: the inherited accessors and the methods that
       resample a mask *)

(** A method of [WrapperRegistration] called on an instance of [RegAladin]
    or [RegF3D]: it runs on the attributes of the base class. *)
Definition inherited {F A : Type} (m : py WrapperRegistration.t A)
  : py (state F) A :=
  λ s,
    let o := self s in
    let '(r, base) := m (super o) in
    (r,
     State
       (Build_NiftyReg base (_dir_tmp o) (_fixed_str o) (_moving_str o)
          (_warped_moving_str o) (_fixed_mask_str o) (_moving_mask_str o)
          (_warped_moving_mask_str o) (_omp_cores o)
          (_registration_transform_str o)
          (_registration_control_point_grid_str o)
          (_warped_moving_sitk o) (_registration_transform_sitk o))
       (files s) (trace s)).

(** [sitk.sitkNearestNeighbor] and its neighbours *)
Inductive sitk_interpolator : Type :=
| sitkNearestNeighbor
| sitkLinear
| sitkBSpline.

(** [nipype.interfaces.niftyreg.RegResample()]: every input is undefined
    until it is assigned. *)
Module RegResample.
Record inputs : Type := Inputs {
  ref_file : option string;
  flo_file : option string;
  trans_file : option string;
  res_file : option string;
  omp_core_val : option Z;
  args : option string
}.
End RegResample.

(** What the resampling methods import besides [Imports]: [sitk.Resample],
    the [reg_resample] binary behind nipype with its command line, and the
    conversion of pixel type that [sitk.ReadImage(path, pixel_type)] applies
    to the image of the file. *)
Class ResampleImports (F : Type) : Type := {
  sitk_Resample :
    sitk_image → option sitk_image → sitk_transform F → sitk_interpolator
    → Z → Z → result sitk_image;
  reg_resample : RegResample.inputs → gmap string (file F)
                 → result (gmap string (file F));
  resample_cmdline : RegResample.inputs → string;
  converted : sitk_image → Z → sitk_image
}.

(** Calls that leave the Python process during resampling: the ones of a
    registration, reading with a pixel type, and the run of [reg_resample]. *)
Inductive resample_event : Type :=
| during_registration (e : event)
| ReadImage_as (path : string) (pixel_type : Z)
| resample_run (nreg : RegResample.inputs).

Record resample_state (F : Type) : Type := ResampleState {
  rself : NiftyRegObject F;
  rfiles : gmap string (file F);
  rtrace : list resample_event
}.
Arguments ResampleState {F}.
Arguments rself {F}.
Arguments rfiles {F}.
Arguments rtrace {F}.

Section ResampleEffects.
Context {F : Type}.

(** A computation of the registration methods, run where a resampling
    method calls it: same instance, same files, its calls appended. *)
Definition registration_call {A} (m : py (state F) A)
  : py (resample_state F) A :=
  λ s,
    let '(r, s') := m (State (rself s) (rfiles s) []) in
    (r,
     ResampleState (self s') (files s')
       (rtrace s ++ (during_registration <$> trace s'))).

Definition resample_emit (e : resample_event) : py (resample_state F) unit :=
  modify (λ s, ResampleState (rself s) (rfiles s) (rtrace s ++ [e])).

(** [sitk.ReadImage(path, pixel_type)] *)
Definition sitk_ReadImage_as `{ResampleImports F} (path : string)
    (pixel_type : Z) : py (resample_state F) sitk_image :=
  resample_emit (ReadImage_as path pixel_type);;
  fs ← gets rfiles;
  match fs !! path with
  | Some (Nifti img) => mret (converted img pixel_type)
  | _ => raise (RuntimeError "ReadImage: unable to read the file")
  end.

(** [nreg.run()] for [RegResample] *)
Definition nipype_run_resample `{ResampleImports F}
    (nreg : RegResample.inputs) : py (resample_state F) unit :=
  resample_emit (resample_run nreg);;
  fs ← gets rfiles;
  fs' ← lift (reg_resample nreg fs);
  modify (λ s, ResampleState (rself s) fs' (rtrace s)).
End ResampleEffects.

Module RegAladin_masks.
Section RegAladin_masks.
Context {F : Type} `{Imports F} `{ResampleImports F}.

Definition _get_warped_moving_sitk_mask : py (state F) sitk_image :=
  o ← gets self;
  (* the arguments of [sitk.Resample], in the order Python evaluates them *)
  let moving_sitk_mask := WrapperRegistration._moving_sitk_mask (super o) in
  let fixed_sitk := WrapperRegistration._fixed_sitk (super o) in
  transform ← lift (get_registration_transform_sitk o);
  match moving_sitk_mask with
  | None =>
      raise (AttributeError
               "'NoneType' object has no attribute 'GetPixelIDValue'")
  | Some mask =>
      lift (sitk_Resample mask fixed_sitk transform sitkNearestNeighbor 0
              (GetPixelIDValue mask))
  end.
End RegAladin_masks.
End RegAladin_masks.

Module RegF3D_masks.
Section RegF3D_masks.
Context {F : Type} `{ResampleImports F}.

(** Gets the deformed image given the obtained deformable registration
    transform. *)
Definition get_deformed_image_sitk
    (fixed_sitk moving_sitk : option sitk_image)
    (interpolation_order : Z) (debug : Z)
  : py (resample_state F) sitk_image :=
  o ← gets rself;
  registration_call (sitk_WriteImage fixed_sitk (_fixed_str o));;
  registration_call (sitk_WriteImage moving_sitk (_moving_str o));;
  cpp ← registration_call
          (getattr "_registration_control_point_grid_str"
             _registration_control_point_grid_str);
  let nreg :=
    {| RegResample.ref_file := Some (_fixed_str o);
       RegResample.flo_file := Some (_moving_str o);
       RegResample.trans_file := Some cpp;
       RegResample.res_file := Some (_warped_moving_str o);
       RegResample.omp_core_val := Some (_omp_cores o);
       RegResample.args := Some ("-inter " +:+ pretty interpolation_order)
    |} in
  (* Execute registration *)
  when (negb (Z.eqb debug 0))
    (registration_call (emit (print (resample_cmdline nreg))));;
  nipype_run_resample nreg;;
  match moving_sitk with
  | None =>
      raise (AttributeError
               "'NoneType' object has no attribute 'GetPixelIDValue'")
  | Some moving =>
      sitk_ReadImage_as (_warped_moving_str o) (GetPixelIDValue moving)
  end.

(** [debug] is accepted and not passed on: [get_deformed_image_sitk] runs
    with its default, [debug=1]. *)
Definition _get_warped_moving_sitk_mask (debug : Z)
  : py (resample_state F) sitk_image :=
  o ← gets rself;
  get_deformed_image_sitk
    (WrapperRegistration._fixed_sitk (super o))
    (WrapperRegistration._moving_sitk_mask (super o))
    0 1.
End RegF3D_masks.
End RegF3D_masks.

(** A NiftyReg whose [reg_resample] copies the floating image to the result
    file, provided the transformation file is there. *)
Definition reference_resample : ResampleImports Z :=
  {| sitk_Resample := λ image reference transform interpolator default_value
                        pixel_type,
       match reference with
       | Some ref =>
           Ok (SitkImage (GetDimension ref) pixel_type (voxels image))
       | None => Raise (TypeError "Resample: wrong argument type")
       end;
     reg_resample := λ nreg fs,
       match RegResample.flo_file nreg ≫= (fs !!.),
             RegResample.trans_file nreg ≫= (fs !!.),
             RegResample.res_file nreg with
       | Some (Nifti floating), Some (Nifti _), Some res =>
           Ok (<[res := Nifti floating]> fs)
       | _, _, _ => Raise (RuntimeError "missing mandatory input")
       end;
     resample_cmdline := λ nreg,
       "reg_resample " +:+ default "" (RegResample.args nreg);
     converted := λ img pixel_type,
       SitkImage (GetDimension img) pixel_type (voxels img) |}.

(** ** Specification of what a run of NiftyReg leaves alone *)

Section Inputs.
Context {F : Type}.

(** [o'] has the images, masks, options, paths and number of cores of
    [o]: every attribute but the two results of a run. *)
Definition same_inputs (o o' : NiftyRegObject F) : Prop :=
  super o' = super o
  ∧ _dir_tmp o' = _dir_tmp o
  ∧ _fixed_str o' = _fixed_str o
  ∧ _moving_str o' = _moving_str o
  ∧ _warped_moving_str o' = _warped_moving_str o
  ∧ _fixed_mask_str o' = _fixed_mask_str o
  ∧ _moving_mask_str o' = _moving_mask_str o
  ∧ _warped_moving_mask_str o' = _warped_moving_mask_str o
  ∧ _omp_cores o' = _omp_cores o
  ∧ _registration_transform_str o' = _registration_transform_str o
  ∧ _registration_control_point_grid_str o'
    = _registration_control_point_grid_str o.

(** A method that keeps the inputs of the instance, whatever it does to
    the files and whether it returns or raises. *)
Definition keeps_inputs {A} (m : py (state F) A) : Prop :=
  ∀ s, same_inputs (self s) (self (m s).2).

(** The files of the temporary directory once it has been cleared. *)
Definition cleared (o : NiftyRegObject F) (fs : gmap string (file F))
  : gmap string (file F) :=
  filter (λ kv, ¬ in_dir (_dir_tmp o) kv.1) fs.

(** The calls of the NiftyReg binaries among the events. *)
Definition binary_runs (tr : list event) : list nreg_interface :=
  omap (λ e, match e with nreg_run n => Some n | _ => None end) tr.

(** The files written by [sitk.WriteImage] among the events. *)
Definition written_paths (tr : list event) : list string :=
  omap (λ e, match e with WriteImage _ p => Some p | _ => None end) tr.
End Inputs.

(** ** Specification of the conversion, read backwards *)

(** The matrix with linear part [A] and translation [t]: each row of [A]
    followed by the entry of [t] for that row. *)
Definition homogeneous {F : Type} (A : list (list F)) (t : list F)
  : list (list F) :=
  zip_with (λ row x, (row ++ [x])%list) A t.

(** ** Specification of the resampling of an image by RegF3D *)

Section Resample_specification.
Context {F : Type} `{ResampleImports F}.

(** What [reg_resample] receives: the fixed and the moving path of the
    registration, the control point grid as transformation, the path of
    the warped image for the result. *)
Definition resample_inputs (o : NiftyRegObject F) (cpp : string)
    (interpolation_order : Z) : RegResample.inputs :=
  {| RegResample.ref_file := Some (_fixed_str o);
     RegResample.flo_file := Some (_moving_str o);
     RegResample.trans_file := Some cpp;
     RegResample.res_file := Some (_warped_moving_str o);
     RegResample.omp_core_val := Some (_omp_cores o);
     RegResample.args := Some ("-inter " +:+ pretty interpolation_order) |}.

(** The two images on their way to disk. *)
Definition resample_writes (o : NiftyRegObject F)
    (fixed moving : sitk_image) : list resample_event :=
  [during_registration (WriteImage fixed (_fixed_str o));
   during_registration (WriteImage moving (_moving_str o))].

(** What [print(nreg.cmdline)] prints under [if debug:]. *)
Definition resample_debug_print (debug : Z) (nreg : RegResample.inputs)
  : list resample_event :=
  if Z.eqb debug 0 then []
  else [during_registration (print (resample_cmdline nreg))].
End Resample_specification.

(** ** Specification of the results of a run of [WrapItkRegistration] *)

Section Results.
Context `{ItkImports}.
Import WrapItkRegistration.

(** [o'] has the parameters of [o]: every attribute that the constructor
    receives or derives from what it receives. *)
Definition same_parameters (o o' : t) : Prop :=
  _fixed_itk o' = _fixed_itk o
  ∧ _fixed_itk_mask o' = _fixed_itk_mask o
  ∧ _moving_itk o' = _moving_itk o
  ∧ _moving_itk_mask o' = _moving_itk_mask o
  ∧ _dimension o' = _dimension o
  ∧ _pixel_type o' = _pixel_type o
  ∧ _image_type o' = _image_type o
  ∧ _registration_type o' = _registration_type o
  ∧ _metric o' = _metric o
  ∧ _interpolator o' = _interpolator o
  ∧ _initializer_type o' = _initializer_type o
  ∧ _optimizer o' = _optimizer o
  ∧ _use_multiresolution_framework o' = _use_multiresolution_framework o
  ∧ _shrink_factors o' = _shrink_factors o
  ∧ _smoothing_sigmas o' = _smoothing_sigmas o
  ∧ _verbose o' = _verbose o
  ∧ _optimizer_scales o' = _optimizer_scales o
  ∧ _itk_oriented_gaussian_interpolate_image_filter o'
    = _itk_oriented_gaussian_interpolate_image_filter o
  ∧ itk.output_type (_mask_caster o') = itk.output_type (_mask_caster o).

(** [o'] is [o] with these two transforms and this computational time. *)
Definition with_results (o : t)
    (transform_itk : attribute (option itk_transform))
    (transform_sitk : attribute (option sitk_Transform))
    (computational_time : time) (o' : t) : Prop :=
  same_parameters o o'
  ∧ _registration_transform_itk o' = transform_itk
  ∧ _registration_transform_sitk o' = transform_sitk
  ∧ _computational_time o' = computational_time.

(** [o'] has the results of [o]. *)
Definition results_of (o o' : t) : Prop :=
  with_results o (_registration_transform_itk o)
    (_registration_transform_sitk o) (_computational_time o) o'.

(** The interpolator of the pipeline: the object given to the
    constructor if there is one, an object of the class named by
    [interpolator] otherwise; the Mattes metric sets its input image. *)
Definition interpolator_of (o : t) : itk.interpolator :=
  let interpolator :=
    match _itk_oriented_gaussian_interpolate_image_filter o with
    | Some given => given
    | None =>
        itk.Interpolator
          (itk.Template (_interpolator o +:+ "InterpolateImageFunction")
             [itk.of_image (_image_type o); itk.of_pixel (_pixel_type o)])
          None
    end in
  if bool_decide (_metric o = "MattesMutualInformation")
  then itk.SetInputImage (_moving_itk o) interpolator
  else interpolator.

(** The class of the metric a metric string stands for. *)
Definition metric_class_of (o : t) : option itk.class :=
  let image_type := itk.of_image (_image_type o) in
  if bool_decide (_metric o = "Correlation") then
    Some (itk.Template "NormalizedCorrelationImageToImageMetric"
            [image_type; image_type])
  else if bool_decide (_metric o = "MattesMutualInformation") then
    Some (itk.Template "MattesMutualInformationImageToImageMetric"
            [image_type; image_type])
  else if bool_decide (_metric o = "MeanSquares") then
    Some (itk.Template "MeanSquaresImageToImageMetric"
            [image_type; image_type])
  else None.

(** The initializer of the initial transform: none without an initializer
    type; otherwise a CenteredTransformInitializer on a rigid transform,
    by moments for 'MOMENTS' and by geometry for anything else. *)
Definition initializer_of (o : t) : option itk.initializer :=
  match _initializer_type o with
  | None => None
  | Some initializer_type =>
      let transform_which_works :=
        if bool_decide (_dimension o = 2)
        then itk.Template "CenteredRigid2DTransform"
               [itk.of_pixel (_pixel_type o)]
        else itk.Template "VersorRigid3DTransform"
               [itk.of_pixel (_pixel_type o)] in
      Some
        {| itk.initializer_class :=
             itk.Template "CenteredTransformInitializer"
               [itk.of_class transform_which_works;
                itk.of_image (_image_type o);
                itk.of_image (_image_type o)];
           itk.initialized_transform := transform_which_works;
           itk.initializer_FixedImage := _fixed_itk o;
           itk.initializer_MovingImage := _moving_itk o;
           itk.Moments := bool_decide (initializer_type = "MOMENTS") |}
  end.

(** The pipeline that is executed for an instance that passes the checks
    of [_run_v3]. *)
Definition pipeline (o : t) : option itk.registration :=
  transform_class ←
    transform_model (_registration_type o) (_dimension o) (_pixel_type o);
  metric_class ← metric_class_of o;
  let initial_transform :=
    itk.Transform transform_class (initializer_of o) in
  Some
    {| itk.registration_class :=
         itk.Template "ImageRegistrationMethod"
           [itk.of_image (_image_type o); itk.of_image (_image_type o)];
       itk.FixedImage := Some (_fixed_itk o);
       itk.MovingImage := Some (_moving_itk o);
       itk.Interpolator_ := Some (interpolator_of o);
       itk.Optimizer_ := Some regular_step_gradient_descent;
       itk.Metric_ :=
         Some {| itk.metric_class := metric_class;
                 itk.MovingImageMask := mask_object o (_moving_itk_mask o);
                 itk.FixedImageMask := mask_object o (_fixed_itk_mask o) |};
       itk.Transform_ := Some initial_transform;
       itk.InitialTransformParameters := Some initial_transform |}.

(** What a verbose run prints once the registration has been executed:
    first the settings, then, with the transform converted, the result. *)
Definition report_settings (o : t) : list event :=
  if Z.eqb (_verbose o) 0 then []
  else
    [print_info "Registration: WrapITK" true;
     print_info ("Transform Model: " +:+ _registration_type o) true;
     print_info ("Interpolator: " +:+ _interpolator o) true;
     print_info ("Metric: " +:+ _metric o) true;
     print_info ("CenteredTransformInitializer: " +:+
                 str_optional (_initializer_type o)) true;
     print_info ("Optimizer: " +:+ _optimizer o) true;
     print_info ("Use Multiresolution Framework: " +:+
                 str_bool (_use_multiresolution_framework o))
       (negb (_use_multiresolution_framework o))]
    ++ (if _use_multiresolution_framework o
        then [print (" (" +:+ "shrink factors = " +:+
                     str_list (_shrink_factors o) +:+ ", " +:+
                     "smoothing sigmas = " +:+
                     str_list (_smoothing_sigmas o) +:+ ")")]
        else [])
    ++ [print_info ("Use Fixed Mask: " +:+
                    str_bool (negb (itk.is_None (_fixed_itk_mask o)))) true;
        print_info ("Use Moving Mask: " +:+
                    str_bool (negb (itk.is_None (_moving_itk_mask o))))
          true].

Definition report_result (o : t) (done_ : itk.outcome itk_transform)
  : list event :=
  if Z.eqb (_verbose o) 0 then []
  else
    [print_info "Summary Registration Method Result:" true;
     print_info (tab +:+ "Optimizer's stopping condition: " +:+
                 itk.GetStopConditionDescription done_) true;
     print_info (tab +:+ "Final metric value: " +:+ itk.GetValue done_)
       true;
     print_sitk_transform
       (get_sitk_from_itk_transform (itk.GetTransform done_))].
End Results.

(** [o] with another multi-resolution schedule. *)
Definition with_schedule `{ItkImports} (shrink_factors smoothing_sigmas : list Z)
    (o : WrapItkRegistration.t) : WrapItkRegistration.t :=
  let 'WrapItkRegistration.Build fixed_itk fixed_itk_mask moving_itk
         moving_itk_mask dimension pixel_type image_type registration_type
         metric interpolator initializer_type optimizer
         use_multiresolution_framework _ _ verbose optimizer_scales
         given_interpolator registration_transform_itk computational_time
         mask_caster registration_transform_sitk := o in
  WrapItkRegistration.Build fixed_itk fixed_itk_mask moving_itk
    moving_itk_mask dimension pixel_type image_type registration_type
    metric interpolator initializer_type optimizer
    use_multiresolution_framework shrink_factors smoothing_sigmas verbose
    optimizer_scales given_interpolator registration_transform_itk
    computational_time mask_caster registration_transform_sitk.

(** ** More reference instances *)

(** [RegAladin()], every argument at its default. *)
Definition default_aladin : NiftyRegObject Z :=
  @RegAladin.__init__ Z reference_niftyreg None None None None ""
    "RegAladin" 8.

(** A NiftyReg whose binaries write the warped image and nothing else. *)
Definition niftyreg_without_transform : Imports Z :=
  {| DIR_TMP := "/tmp/simplereg";
     niftyreg := λ nreg fs,
       match flo_file nreg ≫= (fs !!.), res_file nreg with
       | Some (Nifti floating), Some res => Ok (<[res := Nifti floating]> fs)
       | _, _ => Raise (RuntimeError "missing mandatory input")
       end;
     cmdline := @cmdline Z reference_niftyreg;
     get_transformed_sitk_image :=
       @get_transformed_sitk_image Z reference_niftyreg;
     get_registration_transform_sitk :=
       @get_registration_transform_sitk Z reference_niftyreg |}.

(** A disk with a file of somebody else. *)
Definition other_files : gmap string (file Z) :=
  {[ "/home/user/scan.nii.gz" := Nifti mask_3d;
     "/tmp/simplereg/RegAladin/warped_moving.nii.gz" := Nifti mask_3d ]}.

(** A matrix with too few rows for three dimensions. *)
Definition short_matrix : list (list Z) :=
  [[1; 2; 3; 10]; [4; 5; 6; 20]].

(** [WrapItkRegistration(fixed, moving, 3, metric="Demons")] *)
Definition unknown_metric_instance : @WrapItkRegistration.t reference_itk :=
  @WrapItkRegistration.__init__ reference_itk
    (itk_image_D3 1) (itk_image_D3 2) 3 "D" itk.None_ itk.None_
    "Rigid" "Demons" "Linear" None "RegularStepGradientDescent"
    false [2; 1] [1; 0] 1 None None.

(** [WrapItkRegistration(fixed, moving, 3, fixed_itk_mask=mask)] with a mask
    of type [itk.Image[itk.UC, 3]] *)
Definition uc_mask_instance : @WrapItkRegistration.t reference_itk :=
  @WrapItkRegistration.__init__ reference_itk
    (itk_image_D3 1) (itk_image_D3 2) 3 "D"
    (itk.image (itk.Image "UC" 3) 3) itk.None_
    "Rigid" "Correlation" "Linear" None "RegularStepGradientDescent"
    false [2; 1] [1; 0] 1 None None.

(** [WrapItkRegistration(fixed, moving, 3, metric="MattesMutualInformation",
    initializer_type="GEOMETRY", itk_oriented_gaussian_interpolate_image_filter=f)] *)
Definition gaussian_instance : @WrapItkRegistration.t reference_itk :=
  @WrapItkRegistration.__init__ reference_itk
    (itk_image_D3 1) (itk_image_D3 2) 3 "D" itk.None_ itk.None_
    "Similarity" "MattesMutualInformation" "Linear" (Some "GEOMETRY")
    "RegularStepGradientDescent"
    false [2; 1] [1; 0] 1
    (Some (itk.Interpolator
             (itk.Template "OrientedGaussianInterpolateImageFunction"
                [itk.of_image (itk.Image "D" 3); itk.of_pixel "D"])
             None))
    None.

(** The files a run of the reference [reg_f3d] on [f3d_instance] leaves. *)
Definition f3d_files : gmap string (file Z) :=
  files (@RegF3D._run Z reference_niftyreg 0 (State f3d_instance ∅ [])).2.

(** ** [WrapItkRegistration._run_v4]

    The method wires the same instance into [itk.ImageRegistrationMethodv4].
    [run] does not call it. *)

(** The objects of ITK's v4 registration framework that the method builds. *)
Module itk_v4.
(** [itk.MattesMutualInformationImageToImageMetricv4[...]] *)
Record metric : Type := Metric {
  metric_class : itk.class;
  FixedInterpolator : option itk.interpolator;
  MovingInterpolator : option itk.interpolator;
  MovingImageMask : option itk.mask_spatial_object;
  FixedImageMask : option itk.mask_spatial_object
}.
Definition SetFixedInterpolator (i : itk.interpolator) (x : metric) :=
  Metric (metric_class x) (Some i) (MovingInterpolator x)
    (MovingImageMask x) (FixedImageMask x).
Definition SetMovingInterpolator (i : itk.interpolator) (x : metric) :=
  Metric (metric_class x) (FixedInterpolator x) (Some i)
    (MovingImageMask x) (FixedImageMask x).
Definition SetMovingImageMask (m : itk.mask_spatial_object) (x : metric) :=
  Metric (metric_class x) (FixedInterpolator x) (MovingInterpolator x)
    (Some m) (FixedImageMask x).
Definition SetFixedImageMask (m : itk.mask_spatial_object) (x : metric) :=
  Metric (metric_class x) (FixedInterpolator x) (MovingInterpolator x)
    (MovingImageMask x) (Some m).

(** [itk.ImageRegistrationMethodv4[...]] *)
Record registration : Type := Registration {
  registration_class : itk.class;
  FixedImage : option itk.value;
  MovingImage : option itk.value;
  MovingInitialTransform : option itk.transform;
  FixedInitialTransform : option itk.transform;
  Optimizer_ : option itk.optimizer;
  Metric_ : option metric
}.
Definition SetFixedImage (v : itk.value) (r : registration) :=
  Registration (registration_class r) (Some v) (MovingImage r)
    (MovingInitialTransform r) (FixedInitialTransform r) (Optimizer_ r)
    (Metric_ r).
Definition SetMovingImage (v : itk.value) (r : registration) :=
  Registration (registration_class r) (FixedImage r) (Some v)
    (MovingInitialTransform r) (FixedInitialTransform r) (Optimizer_ r)
    (Metric_ r).
Definition SetMovingInitialTransform (t : itk.transform) (r : registration) :=
  Registration (registration_class r) (FixedImage r) (MovingImage r)
    (Some t) (FixedInitialTransform r) (Optimizer_ r) (Metric_ r).
Definition SetFixedInitialTransform (t : itk.transform) (r : registration) :=
  Registration (registration_class r) (FixedImage r) (MovingImage r)
    (MovingInitialTransform r) (Some t) (Optimizer_ r) (Metric_ r).
Definition SetOptimizer (o : itk.optimizer) (r : registration) :=
  Registration (registration_class r) (FixedImage r) (MovingImage r)
    (MovingInitialTransform r) (FixedInitialTransform r) (Some o)
    (Metric_ r).
Definition SetMetric (m : metric) (r : registration) :=
  Registration (registration_class r) (FixedImage r) (MovingImage r)
    (MovingInitialTransform r) (FixedInitialTransform r) (Optimizer_ r)
    (Some m).
End itk_v4.

(** The numerical core behind [registration.Update()] of the v4 method,
    with the transform that [registration.GetTransform()] then returns. *)
Class ItkImports_v4 (I : ItkImports) : Type := {
  Update_v4 : itk_v4.registration → result itk_transform
}.

Module WrapItkRegistration_v4.
Section WrapItkRegistration_v4.
Context `{I : ItkImports} `{!ItkImports_v4 I}.
Import WrapItkRegistration.

(** Calls that leave the wrapper: the ones [_run_v3] makes too, and
    [Update()] on a v4 pipeline. *)
Inductive event_v4 : Type :=
| as_in_v3 (e : event)
| registration_v4_Update (r : itk_v4.registration).

Record state_v4 : Type := State_v4 { self_v4 : t; trace_v4 : list event_v4 }.

(** A step that the two methods share, run where [_run_v4] has it: same
    instance, its calls appended. *)
Definition shared {A} (m : py state A) : py state_v4 A :=
  λ s,
    let '(r, s') := m (State (self_v4 s) []) in
    (r, State_v4 (self s') (trace_v4 s ++ (as_in_v3 <$> trace s'))).

Definition emit_v4 (e : event_v4) : py state_v4 unit :=
  modify (λ s, State_v4 (self_v4 s) (trace_v4 s ++ [e])).

Definition _run_v4 : py state_v4 unit :=
  o ← gets self_v4;
  let image_type := itk.of_image (_image_type o) in
  (* -----------------Define used types for registration--------------- *)
  transform_type ←
    (if bool_decide (_registration_type o = "Rigid") then
       mret (itk.Template
               ("Euler" +:+ pretty (_dimension o) +:+ "DTransform")
               [itk.of_pixel (_pixel_type o)])
     else if bool_decide (_registration_type o = "Affine") then
       mret (itk.Template "AffineTransform"
               [itk.of_pixel (_pixel_type o); itk.of_dim (_dimension o)])
     else
       raise (ValueError ("Registration type '" +:+ _registration_type o
                          +:+ "' not known.")));
  let interpolator_type :=
    itk.Template (_interpolator o +:+ "InterpolateImageFunction")
      [image_type; itk.of_pixel (_pixel_type o)] in
  let optimizer_type :=
    itk.Template "RegularStepGradientDescentOptimizerv4"
      [itk.of_pixel (_pixel_type o)] in
  let metric_type :=
    itk.Template "MattesMutualInformationImageToImageMetricv4"
      [image_type; image_type] in
  let registration_type :=
    itk.Template "ImageRegistrationMethodv4" [image_type; image_type] in
  let optimizer := itk.Optimizer optimizer_type None None None None in
  let optimizer := itk.SetMinimumStepLength (itk.Float 1 (-6)) optimizer in
  let optimizer := itk.SetNumberOfIterations 200 optimizer in
  let optimizer :=
    itk.SetGradientMagnitudeTolerance (itk.Float 1 (-6)) optimizer in
  let optimizer := itk.SetRelaxationFactor (itk.Float 5 (-1)) optimizer in
  let metric := itk_v4.Metric metric_type None None None None in
  let metric :=
    itk_v4.SetFixedInterpolator (itk.Interpolator interpolator_type None)
      metric in
  let metric :=
    itk_v4.SetMovingInterpolator (itk.Interpolator interpolator_type None)
      metric in
  let initial_transform := itk.Transform transform_type None in
  let initial_transform :=
    match _initializer_type o with
    | Some initializer_type =>
        let transform_which_works :=
          if bool_decide (_dimension o = 2) then
            itk.Template "CenteredRigid2DTransform"
              [itk.of_pixel (_pixel_type o)]
          else
            itk.Template "VersorRigid3DTransform"
              [itk.of_pixel (_pixel_type o)] in
        let initializer :=
          itk.CenteredTransformInitializer
            (itk.Template "CenteredTransformInitializer"
               [itk.of_class transform_which_works; image_type; image_type])
            transform_which_works (_fixed_itk o) (_moving_itk o)
            (bool_decide (initializer_type = "MOMENTS")) in
        itk.Transform transform_type (Some initializer)
    | None => initial_transform
    end in
  let registration :=
    itk_v4.Registration registration_type None None None None None None in
  let registration := itk_v4.SetFixedImage (_fixed_itk o) registration in
  let registration := itk_v4.SetMovingImage (_moving_itk o) registration in
  let registration :=
    itk_v4.SetMovingInitialTransform initial_transform registration in
  let registration :=
    itk_v4.SetFixedInitialTransform (itk.Transform transform_type None)
      registration in
  let registration := itk_v4.SetOptimizer optimizer registration in
  metric ←
    (if negb (itk.is_None (_moving_itk_mask o)) then
       moving_itk_mask ← shared (cast_mask (_moving_itk_mask o));
       let moving_mask_object :=
         itk.ImageMaskSpatialObject (_dimension o) None in
       let moving_mask_object :=
         itk.SetImage moving_itk_mask moving_mask_object in
       mret (itk_v4.SetMovingImageMask moving_mask_object metric)
     else mret metric);
  metric ←
    (if negb (itk.is_None (_fixed_itk_mask o)) then
       fixed_itk_mask ← shared (cast_mask (_fixed_itk_mask o));
       let fixed_mask_object :=
         itk.ImageMaskSpatialObject (_dimension o) None in
       let fixed_mask_object :=
         itk.SetImage fixed_itk_mask fixed_mask_object in
       mret (itk_v4.SetFixedImageMask fixed_mask_object metric)
     else mret metric);
  let registration := itk_v4.SetMetric metric registration in
  (* Execute registration *)
  emit_v4 (registration_v4_Update registration);;
  transform ← lift (Update_v4 registration);
  shared (bind_registration_transform_itk (Some transform));;
  shared
    (when (negb (Z.eqb (_verbose o) 0))
       (emit (print_info "Registration: WrapITK" true);;
        emit (print_info ("Transform Model: " +:+ _registration_type o)
                true);;
        emit (print_info ("Interpolator: " +:+ _interpolator o) true);;
        emit (print_info ("Metric: " +:+ _metric o) true);;
        emit (print_info ("CenteredTransformInitializer: " +:+
                          str_optional (_initializer_type o)) true);;
        emit (print_info ("Optimizer: " +:+ _optimizer o) true);;
        emit (print_info ("Use Multiresolution Framework: " +:+
                          str_bool (_use_multiresolution_framework o))
                (negb (_use_multiresolution_framework o)));;
        when (_use_multiresolution_framework o)
          (emit (print (" (" +:+ "shrink factors = " +:+
                        str_list (_shrink_factors o) +:+ ", " +:+
                        "smoothing sigmas = " +:+
                        str_list (_smoothing_sigmas o) +:+ ")")));;
        emit (print_info ("Use Fixed Mask: " +:+
                          str_bool (negb (itk.is_None (_fixed_itk_mask o))))
                true);;
        emit (print_info ("Use Moving Mask: " +:+
                          str_bool (negb (itk.is_None (_moving_itk_mask o))))
                true)));;
  let transform_sitk := get_sitk_from_itk_transform transform in
  shared (bind_registration_transform_sitk (Some transform_sitk));;
  when (negb (Z.eqb (_verbose o) 0))
    (shared (emit (print_sitk_transform transform_sitk))).
End WrapItkRegistration_v4.
End WrapItkRegistration_v4.

(** ** Specification of a run of [_run_v4] *)

Section Results_v4.
Context `{I : ItkImports} `{!ItkImports_v4 I}.
Import WrapItkRegistration WrapItkRegistration_v4.

(** The v4 pipelines on which [Update()] was called. *)
Definition executed_v4 (tr : list event_v4) : list itk_v4.registration :=
  omap (λ e, match e with registration_v4_Update r => Some r | _ => None end)
    tr.

(** The transform model [_run_v4] has for a registration type string. *)
Definition transform_model_v4 (registration_type : string) (dimension : Z)
    (pixel_type : string) : option itk.class :=
  if bool_decide (registration_type = "Rigid") then
    Some (itk.Template ("Euler" +:+ pretty dimension +:+ "DTransform")
            [itk.of_pixel pixel_type])
  else if bool_decide (registration_type = "Affine") then
    Some (itk.Template "AffineTransform"
            [itk.of_pixel pixel_type; itk.of_dim dimension])
  else None.

(** The first check of [_run_v4] that an instance fails; [None] when it
    gets as far as [registration.Update()]. *)
Definition rejection_v4 (o : t) : option exn :=
  match transform_model_v4 (_registration_type o) (_dimension o)
          (_pixel_type o) with
  | None =>
      Some (ValueError ("Registration type '" +:+ _registration_type o
                        +:+ "' not known."))
  | Some _ =>
      if is_object (_moving_itk_mask o) || is_object (_fixed_itk_mask o)
      then Some (RuntimeError "CastImageFilter: input is not an image")
      else None
  end.

(** The interpolator each side of the v4 metric gets: a new object of the
    class named by [interpolator]. *)
Definition interpolator_v4 (o : t) : itk.interpolator :=
  itk.Interpolator
    (itk.Template (_interpolator o +:+ "InterpolateImageFunction")
       [itk.of_image (_image_type o); itk.of_pixel (_pixel_type o)])
    None.

(** The pipeline [_run_v4] executes for an instance it does not reject. *)
Definition pipeline_v4 (o : t) : option itk_v4.registration :=
  transform_class ←
    transform_model_v4 (_registration_type o) (_dimension o)
      (_pixel_type o);
  Some
    {| itk_v4.registration_class :=
         itk.Template "ImageRegistrationMethodv4"
           [itk.of_image (_image_type o); itk.of_image (_image_type o)];
       itk_v4.FixedImage := Some (_fixed_itk o);
       itk_v4.MovingImage := Some (_moving_itk o);
       itk_v4.MovingInitialTransform :=
         Some (itk.Transform transform_class (initializer_of o));
       itk_v4.FixedInitialTransform :=
         Some (itk.Transform transform_class None);
       itk_v4.Optimizer_ :=
         Some {| itk.optimizer_class :=
                   itk.Template "RegularStepGradientDescentOptimizerv4"
                     [itk.of_pixel (_pixel_type o)];
                 itk.GradientMagnitudeTolerance := Some (itk.Float 1 (-6));
                 itk.MinimumStepLength := Some (itk.Float 1 (-6));
                 itk.NumberOfIterations := Some 200;
                 itk.RelaxationFactor := Some (itk.Float 5 (-1)) |};
       itk_v4.Metric_ :=
         Some {| itk_v4.metric_class :=
                   itk.Template
                     "MattesMutualInformationImageToImageMetricv4"
                     [itk.of_image (_image_type o);
                      itk.of_image (_image_type o)];
                 itk_v4.FixedInterpolator := Some (interpolator_v4 o);
                 itk_v4.MovingInterpolator := Some (interpolator_v4 o);
                 itk_v4.MovingImageMask :=
                   mask_object o (_moving_itk_mask o);
                 itk_v4.FixedImageMask :=
                   mask_object o (_fixed_itk_mask o) |} |}.

(** What a verbose [_run_v4] prints once the transform is converted. *)
Definition report_result_v4 (o : t) (transform : itk_transform)
  : list event :=
  if Z.eqb (_verbose o) 0 then []
  else [print_sitk_transform (get_sitk_from_itk_transform transform)].
End Results_v4.

(** [o] with other values for the settings that [_run_v3] checks or wires
    and that are no registration type, image, mask or initializer. *)
Definition with_settings `{ItkImports} (metric optimizer : string)
    (optimizer_scales : option string) (use_multiresolution_framework : bool)
    (shrink_factors smoothing_sigmas : list Z)
    (given_interpolator : option itk.interpolator)
    (o : WrapItkRegistration.t) : WrapItkRegistration.t :=
  let 'WrapItkRegistration.Build fixed_itk fixed_itk_mask moving_itk
         moving_itk_mask dimension pixel_type image_type registration_type
         _ interpolator initializer_type _ _ _ _ verbose _ _
         registration_transform_itk computational_time
         mask_caster registration_transform_sitk := o in
  WrapItkRegistration.Build fixed_itk fixed_itk_mask moving_itk
    moving_itk_mask dimension pixel_type image_type registration_type
    metric interpolator initializer_type optimizer
    use_multiresolution_framework shrink_factors smoothing_sigmas verbose
    optimizer_scales given_interpolator registration_transform_itk
    computational_time mask_caster registration_transform_sitk.

(** A v4 core that hands back the moving initial transform. *)
Definition reference_itk_v4 : ItkImports_v4 reference_itk :=
  Build_ItkImports_v4 reference_itk
    (λ r,
       match itk_v4.MovingInitialTransform r with
       | Some t => Ok t
       | None => Raise (RuntimeError "Transform is not present")
       end).
(* ===================================================================== *)
(** * Properties *)

(** ** The monad *)

Section wp_rules.
Context {S : Type}.
Implicit Types s : S.

Lemma wp_eq {A} (m : py S A) (Q : result A → S → Prop) s r s' :
  m s = (r, s') → Q r s' → wp m Q s.
Proof. unfold wp. by intros ->. Qed.

Lemma wp_elim {A} (m : py S A) (Q : result A → S → Prop) s :
  wp m Q s → ∃ r s', m s = (r, s') ∧ Q r s'.
Proof. unfold wp. destruct (m s) as [r s']. eauto. Qed.

Lemma wp_run {A} (m : py S A) s r s' :
  wp m (λ r0 s0, (r0, s0) = (r, s')) s → m s = (r, s').
Proof. unfold wp. by destruct (m s). Qed.

Lemma wp_mono {A} (m : py S A) (Q Q' : result A → S → Prop) s :
  wp m Q s → (∀ r s', Q r s' → Q' r s') → wp m Q' s.
Proof. unfold wp. auto. Qed.

Lemma wp_ret {A} (a : A) (Q : result A → S → Prop) s :
  Q (Ok a) s → wp (mret a) Q s.
Proof. done. Qed.

Lemma wp_raise {A} (e : exn) (Q : result A → S → Prop) s :
  Q (Raise e) s → wp (raise e) Q s.
Proof. done. Qed.

Lemma wp_bind {A B} (m : py S A) (f : A → py S B)
    (Q : result B → S → Prop) s :
  wp m (λ r s', match r with
                | Ok a => wp (f a) Q s'
                | Raise e => Q (Raise e) s'
                end) s →
  wp (m ≫= f) Q s.
Proof.
  unfold wp, mbind, py_mbind, py_bind.
  by destruct (m s) as [[a|e] s'].
Qed.

Lemma wp_gets {A} (f : S → A) (Q : result A → S → Prop) s :
  Q (Ok (f s)) s → wp (gets f) Q s.
Proof. done. Qed.

Lemma wp_modify (f : S → S) (Q : result unit → S → Prop) s :
  Q (Ok tt) (f s) → wp (modify f) Q s.
Proof. done. Qed.

Lemma wp_lift {A} (r : result A) (Q : result A → S → Prop) s :
  Q r s → wp (lift r) Q s.
Proof. done. Qed.

Lemma wp_when (c : bool) (body : py S unit)
    (Q : result unit → S → Prop) s :
  (c = true → wp body Q s) → (c = false → Q (Ok tt) s) →
  wp (when c body) Q s.
Proof. destruct c; simpl; intros Ht Hf; [by apply Ht | by apply Hf]. Qed.
End wp_rules.

(** One step through a method: the head of a bind, then what it is. *)
Ltac wp_step :=
  lazymatch goal with
  | |- wp (mbind _ _) _ _ => apply wp_bind
  | |- wp (mret _) _ _ => apply wp_ret
  | |- wp (py_ret _) _ _ => apply wp_ret
  | |- wp (raise _) _ _ => apply wp_raise
  | |- wp (gets _) _ _ => apply wp_gets
  | |- wp (modify _) _ _ => apply wp_modify
  | |- wp (lift _) _ _ => apply wp_lift
  | |- wp (when _ _) _ _ => apply wp_when; intros ?
  end.

(** ** WrapperRegistration *)

Lemma perform_all_options (cs : list call) (self : WrapperRegistration.t) :
  ∃ self',
    perform_all cs self = (Ok tt, self')
    ∧ WrapperRegistration._options self'
      = latest_options (WrapperRegistration._options self) cs.
Proof.
  revert self. induction cs as [|c cs IH]; intros self.
  - by exists self.
  - destruct c as [o|]; simpl.
    + destruct (IH (WrapperRegistration.set_options o self).2)
        as (self' & Hrun & Hopt).
      exists self'. split; [exact Hrun | exact Hopt].
    + destruct (IH self) as (self' & Hrun & Hopt).
      exists self'. split; [exact Hrun | exact Hopt].
Qed.

(** C10.  [get_options] returns the options string most recently
    established: right after construction with [options=o] it returns [o];
    right after [set_options(o)] it returns [o]; and after any sequence of
    calls of the class's methods it returns the argument of the latest
    [set_options] among them, or the constructor's if there is none.
    [get_options] itself leaves the instance as it is. *)
Theorem options_round_trip :
  (∀ fixed moving fixed_mask moving_mask (o : string),
     WrapperRegistration.get_options
       (WrapperRegistration.__init__ fixed moving fixed_mask moving_mask o)
     = (Ok o,
        WrapperRegistration.__init__ fixed moving fixed_mask moving_mask o))
  ∧ (∀ (self : WrapperRegistration.t) (o : string),
       ∃ self',
         WrapperRegistration.set_options o self = (Ok tt, self')
         ∧ WrapperRegistration.get_options self' = (Ok o, self'))
  ∧ (∀ (self : WrapperRegistration.t),
       WrapperRegistration.get_options self
       = (Ok (WrapperRegistration._options self), self))
  ∧ (∀ fixed moving fixed_mask moving_mask (o : string) (cs : list call),
       ∃ self',
         perform_all cs
           (WrapperRegistration.__init__ fixed moving fixed_mask moving_mask o)
         = (Ok tt, self')
         ∧ WrapperRegistration.get_options self'
           = (Ok (latest_options o cs), self')).
Proof.
  split; [done|]. split; [by eexists|]. split; [done|].
  intros fixed moving fixed_mask moving_mask o cs.
  destruct (perform_all_options cs
              (WrapperRegistration.__init__ fixed moving fixed_mask
                 moving_mask o)) as (self' & Hrun & Hopt).
  exists self'. split; [exact Hrun|].
  unfold WrapperRegistration.get_options, gets. by rewrite Hopt.
Qed.

(** ** Strings *)

Lemma prefix_app (s rest : string) : String.prefix s (s +:+ rest) = true.
Proof.
  induction s as [|c s IH]; simpl; [by destruct rest|].
  destruct (Ascii.ascii_dec c c); [exact IH|done].
Qed.

Lemma contains_app (needle before after : string) :
  contains needle (before +:+ needle +:+ after) = true.
Proof.
  induction before as [|c before IH].
  - change (contains needle (needle +:+ after) = true).
    destruct needle; simpl; [by destruct after|].
    apply orb_true_iff. left.
    destruct (Ascii.ascii_dec a a); [apply prefix_app|done].
  - change (contains needle (String c (before +:+ needle +:+ after)) = true).
    simpl. rewrite IH. apply orb_true_r.
Qed.

(** ** WrapItkRegistration *)

Section WrapItkRegistration_properties.
Context `{ItkImports}.
Import WrapItkRegistration.

Lemma executed_app tr1 tr2 :
  executed (tr1 ++ tr2) = (executed tr1 ++ executed tr2)%list.
Proof. apply omap_app. Qed.

Lemma wp_emit e (Q : result unit → state → Prop) o tr :
  Q (Ok tt) (State o (tr ++ [e])) → wp (emit e) Q (State o tr).
Proof. done. Qed.

Lemma silent_emit e : executed [e] = [] → silent (emit e).
Proof. intros He o tr. by exists [e]. Qed.

Lemma silent_seq (m1 m2 : py state unit) :
  silent m1 → silent m2 → silent (m1;; m2).
Proof.
  intros H1 H2 o tr.
  destruct (H1 o tr) as (rest1 & E1 & X1).
  destruct (H2 o (tr ++ rest1)%list) as (rest2 & E2 & X2).
  exists (rest1 ++ rest2)%list. split.
  - unfold mbind, py_mbind, py_bind. rewrite E1, E2.
    by rewrite <- app_assoc.
  - by rewrite executed_app, X1, X2.
Qed.

Lemma silent_when (c : bool) (m : py state unit) :
  silent m → silent (when c m).
Proof.
  intros Hm o tr. destruct c; [apply Hm|].
  exists []. by rewrite app_nil_r.
Qed.

Lemma wp_silent (m : py state unit) (Q : result unit → state → Prop) o tr :
  silent m →
  (∀ rest, executed rest = [] → Q (Ok tt) (State o (tr ++ rest))) →
  wp m Q (State o tr).
Proof.
  intros Hm HQ. destruct (Hm o tr) as (rest & E & X).
  eapply wp_eq; [exact E|]. by apply HQ.
Qed.

Lemma wp_bind_registration_transform_itk v
    (Q : result unit → state → Prop) o tr :
  (∀ o', Q (Ok tt) (State o' tr)) →
  wp (bind_registration_transform_itk v) Q (State o tr).
Proof. intros HQ. apply HQ. Qed.

Lemma wp_bind_registration_transform_sitk v
    (Q : result unit → state → Prop) o tr :
  (∀ o', Q (Ok tt) (State o' tr)) →
  wp (bind_registration_transform_sitk v) Q (State o tr).
Proof. intros HQ. apply HQ. Qed.

Lemma wp_cast_mask (mask : itk.value)
    (Q : result itk.value → state → Prop) o tr :
  (∀ o',
     itk.output_type (_mask_caster o') = itk.output_type (_mask_caster o) →
     Q (match mask with
        | itk.image _ buffer =>
            Ok (itk.image (itk.output_type (_mask_caster o)) buffer)
        | _ => Raise (RuntimeError "CastImageFilter: input is not an image")
        end) (State o' tr)) →
  wp (cast_mask mask) Q (State o tr).
Proof.
  intros HQ. unfold cast_mask, mask_caster_SetInput.
  do 5 wp_step.
  cbn [self trace]. unfold itk.GetOutput.
  cbn [itk.Input itk.SetInput itk.output_type _mask_caster].
  match goal with |- Q _ (State ?o' _) => specialize (HQ o' eq_refl) end.
  destruct mask; exact HQ.
Qed.

Lemma wp_transform_type (rt : string) (d : Z) (pt : string)
    (Q : result itk.class → state → Prop) s :
  match transform_model rt d pt with
  | Some c => Q (Ok c) s
  | None =>
      Q (Raise (ValueError ("Registration type '" +:+ rt +:+ "' not known.")))
        s
  end →
  wp (if bool_decide (rt = "Rigid") then
       mret (itk.Template ("Euler" +:+ pretty d +:+ "DTransform")
               [itk.of_pixel pt])
     else if bool_decide (rt = "Similarity") then
       mret (itk.Template ("Similarity" +:+ pretty d +:+ "DTransform")
               [itk.of_pixel pt])
     else if bool_decide (rt = "Affine") then
       mret (itk.Template "AffineTransform" [itk.of_pixel pt; itk.of_dim d])
     else
       raise (ValueError ("Registration type '" +:+ rt +:+ "' not known.")))
    Q s.
Proof.
  unfold transform_model. by repeat case_bool_decide.
Qed.

Lemma wp_attach (o : t) (mask : itk.value)
    (set : itk.mask_spatial_object → itk.metric → itk.metric)
    (metric : itk.metric) (Q : result itk.metric → state → Prop) o0 tr :
  itk.output_type (_mask_caster o0) = itk.output_type (_mask_caster o) →
  (∀ o', itk.output_type (_mask_caster o') = itk.output_type (_mask_caster o) →
     match mask with
     | itk.object _ =>
         Q (Raise (RuntimeError "CastImageFilter: input is not an image"))
           (State o' tr)
     | _ =>
         Q (Ok (from_option (λ m, set m metric) metric (mask_object o mask)))
           (State o' tr)
     end) →
  wp (if negb (itk.is_None mask) then
        v ← cast_mask mask;
        mret (set (itk.SetImage v
                     (itk.ImageMaskSpatialObject (_dimension o) None))
                metric)
      else mret metric) Q (State o0 tr).
Proof.
  intros Hs HQ. destruct mask as [|ty buffer|cls]; simpl.
  - wp_step. by apply (HQ o0).
  - wp_step. apply wp_cast_mask. intros o' Ho'. wp_step.
    rewrite Hs. apply (HQ o'). by rewrite Ho'.
  - wp_step. apply wp_cast_mask. intros o' Ho'.
    apply (HQ o'). by rewrite Ho'.
Qed.

Local Ltac silence :=
  repeat first
    [ apply silent_seq | apply silent_when | by apply silent_emit ].

Lemma wp_bind_computational_time v
    (Q : result unit → state → Prop) o tr :
  (∀ o', Q (Ok tt) (State o' tr)) →
  wp (bind_computational_time v) Q (State o tr).
Proof. intros HQ. apply HQ. Qed.

(** [_run_v3] either stops at the first check the instance fails, before
    anything is executed, or calls [Update()] on exactly one pipeline,
    wired from the attributes of the instance. *)
Lemma run_v3_outcome o tr :
  wp _run_v3 (λ res s',
    match rejection o with
    | Some e => res = Raise e ∧ trace s' = tr
    | None =>
        ∃ r rest,
          trace s' = (tr ++ registration_Update r :: rest)%list
          ∧ executed rest = []
          ∧ wired o r
          ∧ res = match Update r with
                  | Ok _ => Ok tt
                  | Raise e => Raise e
                  end
    end) (State o tr).
Proof.
  unfold _run_v3, rejection.
  wp_step. wp_step. cbv beta zeta. cbn [self trace].
  wp_step. apply wp_transform_type.
  destruct (transform_model _ _ _) as [transform_type|] eqn:Emodel;
    [|done].
  match goal with
  | |- wp (let '(_, _) := ?p in _) _ _ =>
      destruct p as [metric_type interpolator] eqn:Emetric
  end.
  assert (is_Some metric_type ↔ known_metric (_metric o) = true) as Hknown.
  { revert Emetric. unfold known_metric.
    repeat case_bool_decide; intros [= <- _]; simpl;
      rewrite <- ?not_eq_None_Some; naive_solver. }
  clear Emetric.
  wp_step. case_bool_decide as Eopt; [wp_step|by wp_step].
  cbn [negb].
  wp_step. apply wp_when; [by intros ->; wp_step|intros Escales].
  rewrite Escales.
  wp_step. destruct metric_type as [metric_class|]; wp_step.
  2:{ destruct (known_metric _); [|done].
      destruct Hknown as [_ Hk]. by destruct (Hk eq_refl). }
  replace (known_metric (_metric o)) with true
    by (symmetry; apply Hknown; eauto).
  cbn [negb].
  wp_step. apply (wp_attach o); [done|]. intros o1 Ho1.
  destruct (_moving_itk_mask o) as [|mty mbuf|mcls] eqn:Emoving;
    [| |done].
  all: wp_step; apply (wp_attach o); [done|]; intros o2 Ho2.
  all: destruct (_fixed_itk_mask o) as [|fty fbuf|fcls] eqn:Efixed;
    [| |done].
  all: cbn [is_object orb].
  all: wp_step; apply wp_when; [by intros ->; wp_step|intros Emulti].
  all: rewrite Emulti.
  all: destruct (_initializer_type o) as [initializer_type|].
  all: wp_step; apply wp_emit; wp_step; wp_step.
  all: match goal with
       | |- context [Update ?r] => destruct (Update r) as [done_|e] eqn:EU
       end.
  all: try (eexists _, []; split; [reflexivity|]; split; [reflexivity|];
            rewrite EU).
  all: try (wp_step; apply wp_bind_registration_transform_itk; intros o3;
       wp_step; (apply wp_silent; [silence|]); intros rest1 Hrest1;
       wp_step; apply wp_bind_registration_transform_sitk; intros o4;
       (apply wp_silent; [silence|]); intros rest2 Hrest2;
       eexists _, (rest1 ++ rest2)%list;
       split; [cbn [trace]; rewrite <- !app_assoc; reflexivity|];
       split; [by rewrite executed_app, Hrest1, Hrest2|]; rewrite EU).
  all: split; [|done].
  all: unfold wired; rewrite Emoving, Efixed, Emodel; cbn.
  all: destruct (_optimizer_scales o); [done|].
  all: repeat split; try done; eauto.
  all: eexists; (split; [reflexivity|]); cbn; repeat split; done.
Qed.

Lemma run_outcome o tr :
  wp run (λ res s',
    match run_rejection o with
    | Some e => res = Raise e ∧ trace s' = tr
    | None =>
        ∃ r rest,
          trace s' = (tr ++ registration_Update r :: rest)%list
          ∧ executed rest = []
          ∧ wired o r
          ∧ res = match Update r with
                  | Ok _ => Ok tt
                  | Raise e => Raise e
                  end
    end) (State o tr).
Proof.
  unfold run, run_rejection.
  wp_step. wp_step. cbv beta zeta. cbn [self trace].
  do 4 (wp_step; apply wp_when; [by intros ->; wp_step|intros ->]).
  wp_step. eapply wp_mono; [apply run_v3_outcome|].
  intros res [o' tr'] Hpost. simpl in Hpost.
  destruct (rejection o) as [e|].
  - by destruct Hpost as [-> ->].
  - destruct Hpost as (r & rest & Htr & Hex & Hw & ->).
    simpl in Htr. subst tr'.
    destruct (Update r) as [done_|e] eqn:EU.
    + apply wp_bind_computational_time. intros o''.
      exists r, rest. by rewrite EU.
    + exists r, rest. by rewrite EU.
Qed.

Lemma run_raises o tr e :
  run_rejection o = Some e →
  ∃ s', run (State o tr) = (Raise e, s') ∧ trace s' = tr.
Proof.
  intros Hrej.
  destruct (wp_elim _ _ _ (run_outcome o tr)) as (res & s' & Erun & Hpost).
  rewrite Hrej in Hpost. destruct Hpost as [-> Htr]. eauto.
Qed.

Lemma run_executes o tr :
  run_rejection o = None →
  ∃ r rest s',
    run (State o tr)
    = (match Update r with Ok _ => Ok tt | Raise e => Raise e end, s')
    ∧ trace s' = (tr ++ registration_Update r :: rest)%list
    ∧ executed rest = []
    ∧ wired o r.
Proof.
  intros Hrej.
  destruct (wp_elim _ _ _ (run_outcome o tr)) as (res & s' & Erun & Hpost).
  rewrite Hrej in Hpost. destruct Hpost as (r & rest & Htr & Hex & Hw & ->).
  exists r, rest, s'. eauto.
Qed.

(** Whatever [run] executes, it has wired from the instance. *)
Lemma run_executed_wired o tr r :
  r ∈ executed (trace (run (State o tr)).2) →
  r ∈ executed tr ∨ (wired o r ∧ run_rejection o = None).
Proof.
  destruct (run_rejection o) as [e|] eqn:Hrej.
  - destruct (run_raises o tr e Hrej) as (s' & -> & Htr). simpl.
    rewrite Htr. by left.
  - destruct (run_executes o tr Hrej) as (r' & rest & s' & -> & Htr & Hex & Hw).
    simpl. rewrite Htr, executed_app. simpl. rewrite Hex.
    rewrite elem_of_app, list_elem_of_singleton.
    intros [Hin| ->]; [by left|by right].
Qed.

Lemma passes_type_checks_guards o :
  passes_type_checks o = true → run_rejection o = rejection o.
Proof.
  unfold passes_type_checks, run_rejection.
  rewrite !andb_true_iff. intros [[[-> ->] Hf] Hm]. simpl.
  destruct (itk.is_None (_fixed_itk_mask o)); simpl in *; [|rewrite Hf];
    destruct (itk.is_None (_moving_itk_mask o)); simpl in *; by rewrite ?Hm.
Qed.

Lemma passes_type_checks_masks o :
  passes_type_checks o = true →
  is_object (_moving_itk_mask o) = false
  ∧ is_object (_fixed_itk_mask o) = false.
Proof.
  unfold passes_type_checks.
  rewrite !andb_true_iff. intros [[_ Hf] Hm].
  by destruct (_fixed_itk_mask o), (_moving_itk_mask o).
Qed.

Lemma transform_model_known (rt : string) d pt :
  is_Some (transform_model rt d pt)
  ↔ rt ∈ ["Rigid"; "Similarity"; "Affine"].
Proof.
  unfold transform_model. rewrite !elem_of_cons, elem_of_nil.
  repeat case_bool_decide; rewrite <- ?not_eq_None_Some;
    intuition congruence.
Qed.

Lemma known_metric_elem (m : string) :
  known_metric m = true
  ↔ m ∈ ["Correlation"; "MattesMutualInformation"; "MeanSquares"].
Proof.
  unfold known_metric. rewrite !elem_of_cons, elem_of_nil.
  repeat case_bool_decide; simpl; intuition congruence.
Qed.

(** C8.  On a freshly constructed instance [get_registration_transform_itk]
    raises UnboundLocalError("Execute 'run' first."), whereas
    [get_registration_transform_sitk] raises AttributeError: the
    constructor never binds [_registration_transform_sitk], so the
    comparison with [None] in its guard is not reached. *)
Theorem getters_before_run :
  ∀ fixed_itk moving_itk dimension pixel_type fixed_itk_mask
    moving_itk_mask registration_type metric interpolator initializer_type
    optimizer use_multiresolution_framework shrink_factors smoothing_sigmas
    verbose itk_oriented_gaussian_interpolate_image_filter
    optimizer_scales tr,
    let fresh :=
      State
        (__init__ fixed_itk moving_itk dimension pixel_type fixed_itk_mask
           moving_itk_mask registration_type metric interpolator
           initializer_type optimizer use_multiresolution_framework
           shrink_factors smoothing_sigmas verbose
           itk_oriented_gaussian_interpolate_image_filter optimizer_scales)
        tr in
    get_registration_transform_itk fresh
      = (Raise (UnboundLocalError "Execute 'run' first."), fresh)
    ∧ get_registration_transform_sitk fresh
      = (Raise (AttributeError
           "'WrapItkRegistration' object has no attribute '_registration_transform_sitk'"),
         fresh).
Proof. intros. split; reflexivity. Qed.

(** C2, as the code has it.  With [use_multiresolution_framework=True]
    and otherwise valid parameters (images and masks that pass the type
    guards, a known registration type and metric, the
    RegularStepGradientDescent optimizer, no optimizer scales), [run]
    raises the ValueError that rejects the multi-resolution framework:
    nothing is executed, nothing is printed, and the shrink factors and
    smoothing sigmas reach no pipeline. *)
Theorem multiresolution_rejected (o : t) (tr : list event) :
  passes_type_checks o = true →
  _registration_type o ∈ ["Rigid"; "Similarity"; "Affine"] →
  _metric o ∈ ["Correlation"; "MattesMutualInformation"; "MeanSquares"] →
  _optimizer o = "RegularStepGradientDescent" →
  _optimizer_scales o = None →
  _use_multiresolution_framework o = true →
  ∃ s',
    run (State o tr)
    = (Raise (ValueError
         "Multiresolution-Framework cannot be used with ImageRegistrationMethod. ImageRegistrationMethodv4 required."),
       s')
    ∧ trace s' = tr.
Proof.
  intros Hguards Htype Hmetric Hopt Hscales Hmulti.
  apply run_raises.
  rewrite (passes_type_checks_guards o Hguards). unfold rejection.
  apply transform_model_known with (d := _dimension o)
    (pt := _pixel_type o) in Htype as [c ->].
  apply known_metric_elem in Hmetric.
  destruct (passes_type_checks_masks o Hguards) as [-> ->].
  rewrite Hopt, Hscales, Hmetric, Hmulti.
  by rewrite bool_decide_eq_true_2.
Qed.


End WrapItkRegistration_properties.

(** C2, as the specification has it, fails on the instance built with
    [use_multiresolution_framework=True] and defaults otherwise: [run] does
    not complete, it raises ValueError, and no pipeline is executed. *)
Lemma multiresolution_run_raises :
  WrapItkRegistration._use_multiresolution_framework multiresolution_instance
  = true
  ∧ WrapItkRegistration.run
      (WrapItkRegistration.State multiresolution_instance [])
    = (Raise (ValueError
         "Multiresolution-Framework cannot be used with ImageRegistrationMethod. ImageRegistrationMethodv4 required."),
       WrapItkRegistration.State multiresolution_instance [])
  ∧ ¬ ∃ s',
      WrapItkRegistration.run
        (WrapItkRegistration.State multiresolution_instance [])
      = (Ok tt, s').
Proof.
  split; [reflexivity|]. split; [reflexivity|].
  intros [s' E]. vm_compute in E. discriminate E.
Qed.

Lemma multiresolution_rejected_witness :
  passes_type_checks multiresolution_instance = true
  ∧ ∃ s',
      WrapItkRegistration.run
        (WrapItkRegistration.State multiresolution_instance [])
      = (Raise (ValueError
           "Multiresolution-Framework cannot be used with ImageRegistrationMethod. ImageRegistrationMethodv4 required."),
         s')
      ∧ WrapItkRegistration.trace s' = [].
Proof.
  split; [reflexivity|].
  apply (@multiresolution_rejected reference_itk multiresolution_instance []).
  - reflexivity.
  - repeat constructor.
  - repeat constructor.
  - reflexivity.
  - reflexivity.
  - reflexivity.
Defined.


(** ** Paths *)

Lemma string_app_nil_r (s : string) : s +:+ "" = s.
Proof. induction s as [|c s IH]; [done|]. by rewrite <- IH at 2. Qed.

Lemma os_path_join_relative (dir name : string) :
  String.prefix "/" name = false →
  os_path_join dir name = os_path_join dir "" +:+ name.
Proof.
  intros Hname. unfold os_path_join. rewrite Hname.
  change (String.prefix "/" "") with false. cbv iota.
  destruct (bool_decide (dir = "") || endswith dir "/").
  - by rewrite string_app_nil_r.
  - induction dir as [|c dir IH]; [done|].
    change (String c (dir +:+ "/" +:+ name)
            = String c ((dir +:+ "/" +:+ "") +:+ name)).
    by rewrite IH.
Qed.

Lemma os_path_join_inj (dir a b : string) :
  String.prefix "/" a = false → String.prefix "/" b = false →
  os_path_join dir a = os_path_join dir b → a = b.
Proof.
  intros Ha Hb. rewrite (os_path_join_relative dir a Ha).
  rewrite (os_path_join_relative dir b Hb). apply String.app_inj.
Qed.

Lemma in_dir_join (dir name : string) :
  String.prefix "/" name = false → in_dir dir (os_path_join dir name) = true.
Proof.
  intros Hname. unfold in_dir. rewrite (os_path_join_relative dir name Hname).
  apply prefix_app.
Qed.

(** ** NiftyReg *)

Section NiftyReg_effects.
Context {F : Type} `{Imports F}.
Implicit Types (o : NiftyRegObject F) (fs : gmap string (file F))
  (tr : list event).

Lemma wp_call e (Q : result unit → state F → Prop) o fs tr :
  Q (Ok tt) (State o fs (tr ++ [e])) → wp (emit e) Q (State o fs tr).
Proof. done. Qed.

Lemma wp_getattr {A} name (f : NiftyRegObject F → attribute A)
    (Q : result A → state F → Prop) o fs tr :
  match f o with
  | bound a => Q (Ok a) (State o fs tr)
  | unbound =>
      Q (Raise (AttributeError
                  ("object has no attribute '" +:+ name +:+ "'")))
        (State o fs tr)
  end →
  wp (getattr name f) Q (State o fs tr).
Proof.
  intros HQ. unfold getattr. wp_step. wp_step. cbn [self].
  destruct (f o); by wp_step.
Qed.

Lemma wp_ph_create_directory dir (Q : result unit → state F → Prop) o fs tr :
  Q (Ok tt)
    (State o (filter (λ kv, ¬ in_dir dir kv.1) fs)
       (tr ++ [create_directory dir true])) →
  wp (ph_create_directory dir true) Q (State o fs tr).
Proof.
  intros HQ. unfold ph_create_directory, set_files, when.
  wp_step. apply wp_call. wp_step. wp_step. by wp_step.
Qed.

Lemma wp_sitk_WriteImage image path
    (Q : result unit → state F → Prop) o fs tr :
  match image with
  | Some img =>
      Q (Ok tt) (State o (<[path := Nifti img]> fs)
                   (tr ++ [WriteImage img path]))
  | None =>
      Q (Raise (TypeError "WriteImage: wrong argument type")) (State o fs tr)
  end →
  wp (sitk_WriteImage image path) Q (State o fs tr).
Proof.
  intros HQ. destruct image as [img|]; simpl; [|by wp_step].
  unfold set_files. wp_step. apply wp_call. wp_step. wp_step. by wp_step.
Qed.

Lemma wp_sitk_ReadImage path (Q : result sitk_image → state F → Prop) o fs tr :
  Q (match fs !! path with
     | Some (Nifti img) => Ok img
     | _ => Raise (RuntimeError "ReadImage: unable to read the file")
     end) (State o fs (tr ++ [ReadImage path])) →
  wp (sitk_ReadImage path) Q (State o fs tr).
Proof.
  intros HQ. unfold sitk_ReadImage.
  wp_step. apply wp_call. wp_step. wp_step. cbn [files].
  destruct (fs !! path) as [[img|rows]|]; by wp_step.
Qed.

Lemma wp_np_loadtxt path (Q : result (list (list F)) → state F → Prop) o fs tr :
  Q (match fs !! path with
     | Some (Text rows) => Ok rows
     | Some (Nifti _) =>
         Raise (ValueError "could not convert string to float")
     | None => Raise (IOError "file not found")
     end) (State o fs (tr ++ [loadtxt path])) →
  wp (np_loadtxt path) Q (State o fs tr).
Proof.
  intros HQ. unfold np_loadtxt.
  wp_step. apply wp_call. wp_step. wp_step. cbn [files].
  destruct (fs !! path) as [[img|rows]|]; by wp_step.
Qed.

Lemma wp_nipype_run nreg (Q : result unit → state F → Prop) o fs tr :
  match niftyreg nreg fs with
  | Ok fs' => Q (Ok tt) (State o fs' (tr ++ [nreg_run nreg]))
  | Raise e => Q (Raise e) (State o fs (tr ++ [nreg_run nreg]))
  end →
  wp (nipype_run nreg) Q (State o fs tr).
Proof.
  intros HQ. unfold nipype_run, set_files.
  wp_step. apply wp_call. wp_step. wp_step. wp_step. wp_step. cbn [files].
  destruct (niftyreg nreg fs); [by wp_step|done].
Qed.

(** [NiftyReg._run] clears the temporary directory, writes the two images
    and the masks there are, in this order, and does nothing else. *)
Lemma NiftyReg_run_prepares o fs tr fixed moving :
  WrapperRegistration._fixed_sitk (super o) = Some fixed →
  WrapperRegistration._moving_sitk (super o) = Some moving →
  NiftyReg._run (State o fs tr)
  = (Ok tt, State o (prepared o fixed moving fs)
              (tr ++ preparation o fixed moving)).
Proof.
  intros Hfixed Hmoving. apply wp_run. unfold NiftyReg._run.
  wp_step. wp_step. cbn [self].
  wp_step. apply wp_ph_create_directory.
  wp_step. apply wp_sitk_WriteImage. rewrite Hfixed.
  wp_step. apply wp_sitk_WriteImage. rewrite Hmoving.
  unfold prepared, preparation.
  destruct (WrapperRegistration._fixed_sitk_mask (super o)) as [fm|];
    destruct (WrapperRegistration._moving_sitk_mask (super o)) as [mm|];
    cbn [is_not_None when with_mask mask_write].
  all: repeat first
    [ wp_step
    | lazymatch goal with
      | |- wp (sitk_WriteImage _ _) _ _ => apply wp_sitk_WriteImage
      end ].
  all: by rewrite <- ?app_assoc, ?app_nil_r.
Qed.
End NiftyReg_effects.

Section NiftyReg_runs.
Context {F : Type} `{Scalar F} `{Imports F}.
Implicit Types (o : NiftyRegObject F) (fs : gmap string (file F))
  (tr : list event).

(** The five paths the constructor binds are different files of the
    temporary directory. *)
Lemma paths_bound_in_dir subfolder o :
  paths_bound subfolder o →
  in_dir (_dir_tmp o) (_fixed_str o) = true
  ∧ in_dir (_dir_tmp o) (_moving_str o) = true
  ∧ in_dir (_dir_tmp o) (_warped_moving_str o) = true
  ∧ in_dir (_dir_tmp o) (_fixed_mask_str o) = true
  ∧ in_dir (_dir_tmp o) (_moving_mask_str o) = true.
Proof.
  intros (_ & -> & -> & -> & -> & ->).
  repeat split; by apply in_dir_join.
Qed.

Lemma join_ne (dir a b : string) :
  String.prefix "/" a = false → String.prefix "/" b = false → a ≠ b →
  os_path_join dir a ≠ os_path_join dir b.
Proof. intros Ha Hb Hne E. by apply Hne, (os_path_join_inj dir). Qed.

Lemma lookup_cleared (dir : string) fs (p : string) :
  filter (λ kv : string * file F, ¬ in_dir dir kv.1) fs !! p
  = if in_dir dir p then None else fs !! p.
Proof.
  destruct (in_dir dir p) eqn:Ein.
  - apply map_lookup_filter_None. right. intros x _ Hn. apply Hn.
    simpl. by rewrite Ein.
  - destruct (fs !! p) as [x|] eqn:Ep.
    + apply map_lookup_filter_Some. split; [done|]. simpl.
      rewrite Ein. intros [].
    + apply map_lookup_filter_None. by left.
Qed.

Lemma lookup_prepared_other o fixed moving fs p :
  p ≠ _fixed_str o → p ≠ _moving_str o →
  p ≠ _fixed_mask_str o → p ≠ _moving_mask_str o →
  prepared o fixed moving fs !! p
  = if in_dir (_dir_tmp o) p then None else fs !! p.
Proof.
  intros H1 H2 H3 H4. unfold prepared, with_mask.
  destruct (WrapperRegistration._moving_sitk_mask (super o));
    destruct (WrapperRegistration._fixed_sitk_mask (super o));
    rewrite ?lookup_insert_ne by done; apply lookup_cleared.
Qed.

(** After the preparation the directory holds the two images, the masks
    there are, and nothing else; files elsewhere are as before. *)
Lemma prepared_files subfolder o fixed moving fs :
  paths_bound subfolder o →
  prepared o fixed moving fs !! _fixed_str o = Some (Nifti fixed)
  ∧ prepared o fixed moving fs !! _moving_str o = Some (Nifti moving)
  ∧ prepared o fixed moving fs !! _fixed_mask_str o
    = Nifti <$> WrapperRegistration._fixed_sitk_mask (super o)
  ∧ prepared o fixed moving fs !! _moving_mask_str o
    = Nifti <$> WrapperRegistration._moving_sitk_mask (super o)
  ∧ (∀ p, p ∉ [_fixed_str o; _moving_str o; _fixed_mask_str o;
               _moving_mask_str o] →
          prepared o fixed moving fs !! p
          = if in_dir (_dir_tmp o) p then None else fs !! p).
Proof.
  intros Hpaths.
  destruct (paths_bound_in_dir _ _ Hpaths) as (I1 & I2 & I3 & I4 & I5).
  destruct Hpaths as (Hdir & E1 & E2 & E3 & E4 & E5).
  assert (_fixed_str o ≠ _moving_str o) as N12
    by (rewrite E1, E2; by apply join_ne).
  assert (_fixed_str o ≠ _fixed_mask_str o) as N13
    by (rewrite E1, E4; by apply join_ne).
  assert (_fixed_str o ≠ _moving_mask_str o) as N14
    by (rewrite E1, E5; by apply join_ne).
  assert (_moving_str o ≠ _fixed_mask_str o) as N23
    by (rewrite E2, E4; by apply join_ne).
  assert (_moving_str o ≠ _moving_mask_str o) as N24
    by (rewrite E2, E5; by apply join_ne).
  assert (_fixed_mask_str o ≠ _moving_mask_str o) as N34
    by (rewrite E4, E5; by apply join_ne).
  repeat split.
  5:{ intros p Hp. apply lookup_prepared_other; set_solver. }
  all: unfold prepared, with_mask.
  all: destruct (WrapperRegistration._moving_sitk_mask (super o));
    destruct (WrapperRegistration._fixed_sitk_mask (super o)); simpl.
  all: rewrite ?lookup_insert_eq; try done.
  all: repeat (rewrite lookup_insert_ne by done); rewrite ?lookup_insert_eq;
    try done.
  all: by rewrite lookup_cleared, ?I4, ?I5.
Qed.

Lemma wp_convert_to_sitk_transform
    (Q : result (sitk_transform F) → state F → Prop) o fs tr fixed path :
  WrapperRegistration._fixed_sitk (super o) = Some fixed →
  _registration_transform_str o = bound path →
  Q (match fs !! path with
     | Some (Text rows) =>
         RegAladin.to_sitk_physical (GetDimension fixed) rows
     | Some (Nifti _) =>
         Raise (ValueError "could not convert string to float")
     | None => Raise (IOError "file not found")
     end) (State o fs (tr ++ [loadtxt path])) →
  wp RegAladin._convert_to_sitk_transform Q (State o fs tr).
Proof.
  intros Hfixed Hpath HQ. unfold RegAladin._convert_to_sitk_transform.
  wp_step. wp_step. cbn [self]. rewrite Hfixed.
  wp_step. wp_step.
  wp_step. apply wp_getattr. rewrite Hpath.
  wp_step. apply wp_np_loadtxt.
  destruct (fs !! path) as [[img|rows]|]; [exact HQ| |exact HQ].
  by wp_step.
Qed.

Lemma RegAladin_inputs o aff :
  NiftyReg.mask_inputs o
    (NregInterface (tool (nreg_new reg_aladin))
       (Some (_fixed_str o)) (Some (_moving_str o))
       (Some (_warped_moving_str o)) (Some aff)
       (cpp_file (nreg_new reg_aladin)) (Some (_omp_cores o))
       (Some (WrapperRegistration._options (super o)))
       (rmask_file (nreg_new reg_aladin))
       (fmask_file (nreg_new reg_aladin)))
  = aladin_inputs o aff.
Proof.
  unfold NiftyReg.mask_inputs, aladin_inputs, mask_path.
  by destruct (WrapperRegistration._fixed_sitk_mask (super o)),
    (WrapperRegistration._moving_sitk_mask (super o)).
Qed.

Lemma RegF3D_inputs o cpp :
  NiftyReg.mask_inputs o
    (NregInterface (tool (nreg_new reg_f3d))
       (Some (_fixed_str o)) (Some (_moving_str o))
       (Some (_warped_moving_str o)) (aff_file (nreg_new reg_f3d))
       (Some cpp) (Some (_omp_cores o))
       (Some (WrapperRegistration._options (super o)))
       (rmask_file (nreg_new reg_f3d))
       (fmask_file (nreg_new reg_f3d)))
  = f3d_inputs o cpp.
Proof.
  unfold NiftyReg.mask_inputs, f3d_inputs, mask_path.
  by destruct (WrapperRegistration._fixed_sitk_mask (super o)),
    (WrapperRegistration._moving_sitk_mask (super o)).
Qed.

Lemma wp_debug_print debug nreg
    (Q : result unit → state F → Prop) o fs tr :
  Q (Ok tt) (State o fs (tr ++ debug_print debug nreg)) →
  wp (when (negb (Z.eqb debug 0)) (emit (print (cmdline nreg)))) Q
    (State o fs tr).
Proof.
  unfold debug_print. destruct (Z.eqb debug 0); simpl.
  - rewrite app_nil_r. by intros; wp_step.
  - apply wp_call.
Qed.

(** A run of [RegAladin]: the preparation, then the binary, then reads
    only; when it returns, the two results it has bound come from the
    files the binary left. *)
Lemma RegAladin_run_outcome o fs tr debug fixed moving aff :
  WrapperRegistration._fixed_sitk (super o) = Some fixed →
  WrapperRegistration._moving_sitk (super o) = Some moving →
  _registration_transform_str o = bound aff →
  wp (RegAladin._run debug) (λ res s',
    ∃ rest,
      trace s'
      = (tr ++ preparation o fixed moving
            ++ debug_print debug (aladin_inputs o aff)
            ++ nreg_run (aladin_inputs o aff) :: rest)%list
      ∧ forallb is_read rest = true
      ∧ (res = Ok tt →
         ∃ warped rows transform,
           niftyreg (aladin_inputs o aff) (prepared o fixed moving fs)
           = Ok (files s')
           ∧ files s' !! _warped_moving_str o = Some (Nifti warped)
           ∧ files s' !! aff = Some (Text rows)
           ∧ RegAladin.to_sitk_physical (GetDimension fixed) rows
             = Ok transform
           ∧ _warped_moving_sitk (self s') = bound warped
           ∧ _registration_transform_sitk (self s') = bound transform
           ∧ super (self s') = super o)) (State o fs tr).
Proof.
  intros Hfixed Hmoving Haff. unfold RegAladin._run.
  wp_step. eapply wp_eq; [by apply NiftyReg_run_prepares|].
  cbv beta iota. wp_step. wp_step. cbn [self].
  wp_step. apply wp_getattr. rewrite Haff. cbv zeta.
  rewrite RegAladin_inputs.
  wp_step. apply wp_debug_print.
  wp_step. apply wp_nipype_run.
  destruct (niftyreg _ _) as [fs2|e] eqn:Etool.
  2:{ exists []. rewrite <- !app_assoc. by cbn. }
  wp_step. apply wp_sitk_ReadImage.
  destruct (fs2 !! _warped_moving_str o) as [[warped|?]|] eqn:Ewarped.
  2,3: exists [ReadImage (_warped_moving_str o)];
       cbn [trace]; rewrite <- !app_assoc; by cbn.
  wp_step. unfold NiftyReg.bind_warped_moving_sitk, set_self.
  wp_step. wp_step. wp_step. cbn [self files trace].
  wp_step. eapply wp_convert_to_sitk_transform; [done..|].
  destruct (fs2 !! aff) as [[?|rows]|] eqn:Eaff.
  1,3: exists [ReadImage (_warped_moving_str o); loadtxt aff];
       cbn [trace]; rewrite <- !app_assoc; by cbn.
  destruct (RegAladin.to_sitk_physical _ _) as [transform|e] eqn:Econv.
  2: exists [ReadImage (_warped_moving_str o); loadtxt aff];
     cbn [trace]; rewrite <- !app_assoc; by cbn.
  unfold NiftyReg.bind_registration_transform_sitk, set_self.
  wp_step. wp_step. wp_step. cbn [self files trace].
  exists [ReadImage (_warped_moving_str o); loadtxt aff].
  rewrite <- !app_assoc. split; [by cbn|]. split; [done|].
  intros _. by exists warped, rows, transform.
Qed.

(** A run of [RegF3D]: the same, with the control point grid read back
    as an image. *)
Lemma RegF3D_run_outcome o fs tr debug fixed moving cpp :
  WrapperRegistration._fixed_sitk (super o) = Some fixed →
  WrapperRegistration._moving_sitk (super o) = Some moving →
  _registration_control_point_grid_str o = bound cpp →
  wp (RegF3D._run debug) (λ res s',
    ∃ rest,
      trace s'
      = (tr ++ preparation o fixed moving
            ++ debug_print debug (f3d_inputs o cpp)
            ++ nreg_run (f3d_inputs o cpp) :: rest)%list
      ∧ forallb is_read rest = true
      ∧ (res = Ok tt →
         ∃ warped grid,
           niftyreg (f3d_inputs o cpp) (prepared o fixed moving fs)
           = Ok (files s')
           ∧ files s' !! _warped_moving_str o = Some (Nifti warped)
           ∧ files s' !! cpp = Some (Nifti grid)
           ∧ _warped_moving_sitk (self s') = bound warped
           ∧ _registration_transform_sitk (self s')
             = bound (ControlPointGrid grid)
           ∧ super (self s') = super o)) (State o fs tr).
Proof.
  intros Hfixed Hmoving Hcpp. unfold RegF3D._run.
  wp_step. eapply wp_eq; [by apply NiftyReg_run_prepares|].
  cbv beta iota. wp_step. wp_step. cbn [self].
  wp_step. apply wp_getattr. rewrite Hcpp. cbv zeta.
  rewrite RegF3D_inputs.
  wp_step. apply wp_debug_print.
  wp_step. apply wp_nipype_run.
  destruct (niftyreg _ _) as [fs2|e] eqn:Etool.
  2:{ exists []. rewrite <- !app_assoc. by cbn. }
  wp_step. apply wp_sitk_ReadImage.
  destruct (fs2 !! _warped_moving_str o) as [[warped|?]|] eqn:Ewarped.
  2,3: exists [ReadImage (_warped_moving_str o)];
       cbn [trace]; rewrite <- !app_assoc; by cbn.
  wp_step. unfold NiftyReg.bind_warped_moving_sitk, set_self.
  wp_step. wp_step. wp_step. cbn [self files trace].
  wp_step. apply wp_sitk_ReadImage.
  destruct (fs2 !! cpp) as [[grid|?]|] eqn:Egrid.
  2,3: exists [ReadImage (_warped_moving_str o); ReadImage cpp];
       cbn [trace]; rewrite <- !app_assoc; by cbn.
  unfold NiftyReg.bind_registration_transform_sitk, set_self.
  wp_step. wp_step. wp_step. cbn [self files trace].
  exists [ReadImage (_warped_moving_str o); ReadImage cpp].
  rewrite <- !app_assoc. split; [by cbn|]. split; [done|].
  intros _. by exists warped, grid.
Qed.

Lemma to_sitk_physical_affine (d : nat) (rows : list (list F)) transform :
  RegAladin.to_sitk_physical d rows = Ok transform →
  ∃ matrix translation, transform = AffineTransform matrix translation.
Proof.
  unfold RegAladin.to_sitk_physical, mbind, result_mbind, mret, result_mret.
  destruct (np.last_column d rows); [|done].
  destruct (np.setitem _ 0%nat 0%nat _); [|done].
  destruct (np.setitem _ 1%nat 1%nat _); [|done].
  destruct (np.dot _ _); [|done].
  destruct (np.dot _ _); [|done].
  destruct (np.dotv _ _); [|done].
  intros [= <-]. eauto.
Qed.

(** The constructors bind the paths below [DIR_TMP/subfolder]. *)
Lemma RegAladin_init_paths fixed moving fixed_mask moving_mask options
    subfolder omp_cores :
  let o := RegAladin.__init__ fixed moving fixed_mask moving_mask options
             subfolder omp_cores in
  paths_bound subfolder o
  ∧ _registration_transform_str o
    = bound (os_path_join (_dir_tmp o) "registration_transform.txt").
Proof. by repeat split. Qed.

Lemma RegF3D_init_paths fixed moving fixed_mask moving_mask options
    subfolder omp_cores :
  let o := RegF3D.__init__ fixed moving fixed_mask moving_mask options
             subfolder omp_cores in
  paths_bound subfolder o
  ∧ _registration_control_point_grid_str o
    = bound (os_path_join (_dir_tmp o) "registration_cpp.nii.gz").
Proof. by repeat split. Qed.

(** C5.  For a RegAladin or RegF3D whose fixed and moving images are
    images, [NiftyReg._run] first creates the temporary directory
    [DIR_TMP/subfolder] with the request to delete the files in it, then
    writes the fixed image to [fixed.nii.gz] and the moving image to
    [moving.nii.gz] in that directory (and after them the masks there
    are); afterwards the directory holds these files and no other.  In
    [RegAladin._run] and [RegF3D._run] all of this comes before the call
    of the NiftyReg binary, and only reads come after it. *)
Theorem temporary_files_before_registration
    (subfolder : string) o fs tr (debug : Z) (fixed moving : sitk_image) :
  paths_bound subfolder o →
  WrapperRegistration._fixed_sitk (super o) = Some fixed →
  WrapperRegistration._moving_sitk (super o) = Some moving →
  let dir := os_path_join DIR_TMP subfolder in
  let first_events :=
    [create_directory dir true;
     WriteImage fixed (os_path_join dir "fixed.nii.gz");
     WriteImage moving (os_path_join dir "moving.nii.gz")] in
  (∃ fs1,
     NiftyReg._run (State o fs tr)
     = (Ok tt,
        State o fs1
          (tr ++ first_events
           ++ mask_write (WrapperRegistration._fixed_sitk_mask (super o))
                (os_path_join dir "fixed_mask.nii.gz")
           ++ mask_write (WrapperRegistration._moving_sitk_mask (super o))
                (os_path_join dir "moving_mask.nii.gz")))
     ∧ fs1 !! os_path_join dir "fixed.nii.gz" = Some (Nifti fixed)
     ∧ fs1 !! os_path_join dir "moving.nii.gz" = Some (Nifti moving)
     ∧ in_dir dir (os_path_join dir "fixed.nii.gz") = true
     ∧ in_dir dir (os_path_join dir "moving.nii.gz") = true
     ∧ (∀ p, in_dir dir p = true →
             p ∉ [os_path_join dir "fixed.nii.gz";
                  os_path_join dir "moving.nii.gz";
                  os_path_join dir "fixed_mask.nii.gz";
                  os_path_join dir "moving_mask.nii.gz"] →
             fs1 !! p = None))
  ∧ (∀ aff, _registration_transform_str o = bound aff →
       ∃ res s' between nreg rest,
         RegAladin._run debug (State o fs tr) = (res, s')
         ∧ trace s'
           = (tr ++ first_events ++ between ++ nreg_run nreg :: rest)%list
         ∧ tool nreg = reg_aladin
         ∧ (∀ n, nreg_run n ∉ between)
         ∧ forallb is_read rest = true)
  ∧ (∀ cpp, _registration_control_point_grid_str o = bound cpp →
       ∃ res s' between nreg rest,
         RegF3D._run debug (State o fs tr) = (res, s')
         ∧ trace s'
           = (tr ++ first_events ++ between ++ nreg_run nreg :: rest)%list
         ∧ tool nreg = reg_f3d
         ∧ (∀ n, nreg_run n ∉ between)
         ∧ forallb is_read rest = true).
Proof.
  intros Hpaths Hfixed Hmoving dir first_events.
  destruct (prepared_files subfolder o fixed moving fs Hpaths)
    as (L1 & L2 & _ & _ & Lother).
  destruct (paths_bound_in_dir _ _ Hpaths) as (I1 & I2 & _).
  pose proof Hpaths as (Edir & E1 & E2 & E3 & E4 & E5).
  subst dir first_events. rewrite <- Edir, <- E1, <- E2, <- E4, <- E5.
  assert (∀ n m, nreg_run n ∉
            (mask_write (WrapperRegistration._fixed_sitk_mask (super o))
               (_fixed_mask_str o)
             ++ mask_write (WrapperRegistration._moving_sitk_mask (super o))
                  (_moving_mask_str o)
             ++ debug_print debug m)%list) as Hquiet.
  { intros n m. unfold mask_write, debug_print.
    destruct (WrapperRegistration._fixed_sitk_mask (super o)),
      (WrapperRegistration._moving_sitk_mask (super o)),
      (Z.eqb debug 0); simpl;
      rewrite ?elem_of_cons, ?elem_of_nil; intuition discriminate. }
  
  split; [|split].
  - eexists. split; [by apply NiftyReg_run_prepares|].
    
    split; [exact L1|].  split; [exact L2|]. split; [exact I1|].
    split; [exact I2|]. 
    intros p Hin Hp. rewrite (Lother p Hp), Hin. reflexivity.
  - intros aff Haff.
    destruct (wp_elim _ _ _
      (RegAladin_run_outcome o fs tr debug fixed moving aff
         Hfixed Hmoving Haff)) as (res & s' & Erun & rest & Htr & Hreads & _).
    exists res, s',
      (mask_write (WrapperRegistration._fixed_sitk_mask (super o))
         (_fixed_mask_str o)
       ++ mask_write (WrapperRegistration._moving_sitk_mask (super o))
            (_moving_mask_str o)
       ++ debug_print debug (aladin_inputs o aff))%list,
      (aladin_inputs o aff), rest.
    split; [exact Erun|]. split.
    { rewrite Htr. unfold preparation. by rewrite <- !app_assoc. }
    split; [done|]. split; [|done].
    intros n. apply Hquiet.
  - intros cpp Hcpp.
    destruct (wp_elim _ _ _
      (RegF3D_run_outcome o fs tr debug fixed moving cpp
         Hfixed Hmoving Hcpp)) as (res & s' & Erun & rest & Htr & Hreads & _).
    exists res, s',
      (mask_write (WrapperRegistration._fixed_sitk_mask (super o))
         (_fixed_mask_str o)
       ++ mask_write (WrapperRegistration._moving_sitk_mask (super o))
            (_moving_mask_str o)
       ++ debug_print debug (f3d_inputs o cpp))%list,
      (f3d_inputs o cpp), rest.
    split; [exact Erun|]. split.
    { rewrite Htr. unfold preparation. by rewrite <- !app_assoc. }
    split; [done|]. split; [|done].
    intros n. apply Hquiet.
Qed.


(** C9.  In every state of a RegF3D, [_get_transformed_fixed_sitk] and
    [_get_transformed_fixed_sitk_mask] raise
    UnboundLocalError("Not implemented for RegF3D") and change nothing;
    RegAladin returns the fixed image transformed by the registration
    transform whenever the inherited accessor hands out that transform. *)
Theorem transformed_fixed_only_for_RegAladin (s : state F) :
  RegF3D._get_transformed_fixed_sitk s
  = (Raise (UnboundLocalError "Not implemented for RegF3D"), s)
  ∧ RegF3D._get_transformed_fixed_sitk_mask s
    = (Raise (UnboundLocalError "Not implemented for RegF3D"), s)
  ∧ (∀ transform image,
       get_registration_transform_sitk (self s) = Ok transform →
       get_transformed_sitk_image
         (WrapperRegistration._fixed_sitk (super (self s))) transform
       = Ok image →
       RegAladin._get_transformed_fixed_sitk s = (Ok image, s)).
Proof.
  split; [reflexivity|]. split; [reflexivity|].
  intros transform image Htransform Himage.
  apply wp_run. unfold RegAladin._get_transformed_fixed_sitk.
  wp_step. wp_step. wp_step. wp_step. rewrite Htransform.
  wp_step. by rewrite Himage.
Qed.

Lemma paths_distinct subfolder o :
  paths_bound subfolder o →
  _fixed_str o ≠ _fixed_mask_str o
  ∧ _fixed_str o ≠ _moving_mask_str o
  ∧ _moving_str o ≠ _fixed_mask_str o
  ∧ _moving_str o ≠ _moving_mask_str o
  ∧ _fixed_mask_str o ≠ _moving_mask_str o.
Proof.
  intros (_ & -> & -> & _ & -> & ->).
  repeat split; by apply join_ne.
Qed.

(** Among the events up to the call of the binary, a mask file is
    written exactly when there is a mask. *)
Lemma mask_written subfolder o fixed moving debug nreg :
  paths_bound subfolder o →
  let events :=
    (preparation o fixed moving ++ debug_print debug nreg)%list in
  (∀ m, WriteImage m (_fixed_mask_str o) ∈ events
        ↔ WrapperRegistration._fixed_sitk_mask (super o) = Some m)
  ∧ (∀ m, WriteImage m (_moving_mask_str o) ∈ events
          ↔ WrapperRegistration._moving_sitk_mask (super o) = Some m).
Proof.
  intros Hpaths events.
  destruct (paths_distinct _ _ Hpaths) as (N1 & N2 & N3 & N4 & N5).
  subst events. unfold preparation, mask_write, debug_print.
  destruct (WrapperRegistration._fixed_sitk_mask (super o)) as [fm|],
    (WrapperRegistration._moving_sitk_mask (super o)) as [mm|],
    (Z.eqb debug 0); simpl.
  all: split; intros m; rewrite ?elem_of_cons, ?elem_of_nil.
  all: split; [|intros [= <-]; tauto].
  all: intros Hin; repeat destruct Hin as [Hin|Hin]; try done.
  all: congruence.
Qed.
End NiftyReg_runs.

(** ** Masks *)

Section Masks.
Context `{ItkImports} {F : Type} `{Scalar F} `{Imports F}.

End Masks.

(** ** The sign flips of [RegAladin._convert_to_sitk_transform] *)

Section Conversion.
Context {F : Type} `{Scalar F} `{Imports F}.
Hypothesis Fring : ring_theory f0 f1 fadd fmul fsub fopp (@eq F).
Add Ring Fring : Fring.

Implicit Types (A M : list (list F)) (u v t : list F) (d i j : nat).

Lemma vdot_cons x u y v :
  np.vdot (x :: u) (y :: v) = fadd (fmul x y) (np.vdot u v).
Proof. done. Qed.

(** A vector with one entry [x], in place [i], picks [x * v[i]]. *)
Lemma vdot_unit_l (g : nat → F) i a n v :
  length v = n →
  np.vdot ((λ k, if Nat.eqb i k then g k else f0) <$> seq a n) v
  = if Nat.leb a i && Nat.ltb i (a + n)
    then fmul (g i) (nth (i - a) v f0) else f0.
Proof.
  revert a v. induction n as [|n IH]; intros a v Hv.
  - destruct v; [|done]. simpl.
    destruct (Nat.leb_spec a i), (Nat.ltb_spec i (a + 0)); simpl; done || lia.
  - destruct v as [|y v]; [done|]. injection Hv as Hv.
    rewrite <- cons_seq, fmap_cons, vdot_cons, (IH (S a) v Hv).
    destruct (Nat.eqb_spec i a) as [->|Hne].
    + replace (Nat.leb (S a) a) with false by (symmetry; apply Nat.leb_gt; lia).
      rewrite Nat.leb_refl, Nat.sub_diag.
      replace (Nat.ltb a (a + S n)) with true
        by (symmetry; apply Nat.ltb_lt; lia).
      simpl. ring.
    + destruct (Nat.leb_spec (S a) i), (Nat.leb_spec a i),
        (Nat.ltb_spec i (S a + n)), (Nat.ltb_spec i (a + S n));
        simpl; try lia; try ring.
      replace (i - a)%nat with (S (i - S a)) by lia. simpl. ring.
Qed.

Lemma vdot_unit_r (g : nat → F) j a n v :
  length v = n →
  np.vdot v ((λ k, if Nat.eqb k j then g k else f0) <$> seq a n)
  = if Nat.leb a j && Nat.ltb j (a + n)
    then fmul (nth (j - a) v f0) (g j) else f0.
Proof.
  revert a v. induction n as [|n IH]; intros a v Hv.
  - destruct v; [|done]. simpl.
    destruct (Nat.leb_spec a j), (Nat.ltb_spec j (a + 0)); simpl; done || lia.
  - destruct v as [|y v]; [done|]. injection Hv as Hv.
    rewrite <- cons_seq, fmap_cons, vdot_cons, (IH (S a) v Hv).
    destruct (Nat.eqb_spec a j) as [->|Hne].
    + replace (Nat.leb (S j) j) with false by (symmetry; apply Nat.leb_gt; lia).
      rewrite Nat.leb_refl, Nat.sub_diag.
      replace (Nat.ltb j (j + S n)) with true
        by (symmetry; apply Nat.ltb_lt; lia).
      simpl. ring.
    + destruct (Nat.leb_spec (S a) j), (Nat.leb_spec a j),
        (Nat.ltb_spec j (S a + n)), (Nat.ltb_spec j (a + S n));
        simpl; try lia; try ring.
      replace (j - a)%nat with (S (j - S a)) by lia. simpl. ring.
Qed.

Lemma fmap_seq_ext {Y} (f g : nat → Y) a n :
  (∀ k, (a ≤ k < a + n)%nat → f k = g k) →
  f <$> seq a n = g <$> seq a n.
Proof.
  intros Hfg. apply list_eq. intros k. rewrite !list_lookup_fmap.
  destruct (seq a n !! k) as [x|] eqn:E; [|done]. simpl.
  apply lookup_seq in E as [-> ?]. f_equal. apply Hfg. lia.
Qed.

Lemma imap_seq_nth {X Y} (g : nat → X → Y) (l : list X) (dflt : X) :
  imap g l = (λ k, g k (nth k l dflt)) <$> seq 0 (length l).
Proof.
  apply list_eq. intros k.
  rewrite list_lookup_imap, list_lookup_fmap.
  destruct (l !! k) as [x|] eqn:E; simpl.
  - rewrite (lookup_seq_lt _ _ k) by (by eapply lookup_lt_Some).
    simpl. by rewrite (nth_lookup_Some _ _ _ _ E).
  - by rewrite (lookup_seq_ge _ _ k) by (by apply lookup_ge_None).
Qed.

Lemma nth_col j A i :
  (i < length A)%nat → nth i (np.col j A) f0 = nth j (nth i A []) f0.
Proof.
  intros Hi. unfold np.col.
  destruct (lookup_lt_is_Some_2 A i Hi) as [row Hrow].
  rewrite (nth_lookup_Some _ _ _ row Hrow).
  apply nth_lookup_Some. by rewrite list_lookup_fmap, Hrow.
Qed.

Lemma length_col j A : length (np.col j A) = length A.
Proof. apply length_fmap. Qed.

Lemma ncols_length A d c :
  length A = d → (0 < d)%nat → Forall (λ row, length row = c) A →
  np.ncols A = c.
Proof.
  intros Hlen Hd Hrows. destruct A as [|row A]; [simpl in Hlen; lia|].
  by inversion Hrows.
Qed.

Lemma R_matrix_length d : length (R_matrix (F:=F) d) = d.
Proof. unfold R_matrix. by rewrite length_fmap, length_seq. Qed.

Lemma R_matrix_rows d :
  Forall (λ row, length row = d) (R_matrix (F:=F) d).
Proof.
  unfold R_matrix. apply Forall_fmap, Forall_forall. intros i _. simpl.
  by rewrite length_fmap, length_seq.
Qed.

Lemma col_R_matrix j d :
  (j < d)%nat →
  np.col j (R_matrix d)
  = (λ k, if Nat.eqb k j then R_sign k else f0) <$> seq 0 d.
Proof.
  intros Hj. unfold np.col, R_matrix. rewrite <- list_fmap_compose.
  apply fmap_seq_ext. intros k Hk. simpl.
  erewrite nth_lookup_Some; [reflexivity|].
  rewrite list_lookup_fmap, lookup_seq_lt by done. simpl.
  by rewrite Nat.eqb_sym.
Qed.

(** [R.dot(A)] scales row [i] of [A] by the [i]-th diagonal entry. *)
Lemma dot_R_l d c A :
  (0 < d)%nat → length A = d → Forall (λ row, length row = c) A →
  np.dot (R_matrix d) A
  = Ok (imap (λ i row, imap (λ j a, fmul (R_sign i) a) row) A).
Proof.
  intros Hd Hlen Hrows. unfold np.dot.
  rewrite (ncols_length (R_matrix d) d d), Hlen, Nat.eqb_refl;
    [|apply R_matrix_length|done|apply R_matrix_rows].
  f_equal. rewrite (ncols_length A d c) by done.
  rewrite (imap_seq_nth _ A []), Hlen. unfold R_matrix.
  rewrite <- list_fmap_compose. apply fmap_seq_ext. intros i Hi. simpl.
  assert (length (nth i A []) = c) as Hrow.
  { destruct (lookup_lt_is_Some_2 A i) as [row Erow]; [lia|].
    rewrite (nth_lookup_Some _ _ _ row Erow).
    by eapply (proj1 (Forall_lookup _ _) Hrows). }
  rewrite (imap_seq_nth _ _ f0), Hrow.
  apply fmap_seq_ext. intros j Hj.
  rewrite (vdot_unit_l (λ _, R_sign i) i 0 d)
    by (by rewrite length_col).
  replace (Nat.leb 0 i && Nat.ltb i (0 + d)) with true
    by (symmetry; apply andb_true_iff; split;
        [by apply Nat.leb_le; lia|apply Nat.ltb_lt; lia]).
  rewrite Nat.sub_0_r, nth_col by lia. done.
Qed.

(** [A.dot(R)] scales column [j] of [A] by the [j]-th diagonal entry. *)
Lemma dot_R_r d A :
  (0 < d)%nat → length A = d → Forall (λ row, length row = d) A →
  np.dot A (R_matrix d)
  = Ok (imap (λ i row, imap (λ j a, fmul a (R_sign j)) row) A).
Proof.
  intros Hd Hlen Hrows. unfold np.dot.
  rewrite (ncols_length A d d), R_matrix_length, Nat.eqb_refl by done.
  f_equal.
  rewrite (ncols_length (R_matrix d) d d);
    [|apply R_matrix_length|done|apply R_matrix_rows].
  apply list_eq. intros i.
  rewrite list_lookup_fmap, list_lookup_imap.
  destruct (A !! i) as [row|] eqn:Erow; [|done]. simpl. f_equal.
  assert (length row = d) as Hrow
    by (by eapply (proj1 (Forall_lookup _ _) Hrows)).
  rewrite (imap_seq_nth _ _ f0), Hrow.
  apply fmap_seq_ext. intros j Hj.
  rewrite col_R_matrix by lia.
  rewrite (vdot_unit_r (λ k, R_sign k) j 0 d) by done.
  replace (Nat.leb 0 j && Nat.ltb j (0 + d)) with true
    by (symmetry; apply andb_true_iff; split;
        [by apply Nat.leb_le; lia|apply Nat.ltb_lt; lia]).
  by rewrite Nat.sub_0_r.
Qed.

Lemma dotv_R d t :
  (0 < d)%nat → length t = d →
  np.dotv (R_matrix d) t = Ok (imap (λ i x, fmul (R_sign i) x) t).
Proof.
  intros Hd Hlen. unfold np.dotv.
  rewrite (ncols_length (R_matrix d) d d), Hlen, Nat.eqb_refl;
    [|apply R_matrix_length|done|apply R_matrix_rows].
  f_equal. rewrite (imap_seq_nth _ _ f0), Hlen. unfold R_matrix.
  rewrite <- list_fmap_compose. apply fmap_seq_ext. intros i Hi. simpl.
  rewrite (vdot_unit_l (λ _, R_sign i) i 0 d) by done.
  replace (Nat.leb 0 i && Nat.ltb i (0 + d)) with true
    by (symmetry; apply andb_true_iff; split;
        [by apply Nat.leb_le; lia|apply Nat.ltb_lt; lia]).
  by rewrite Nat.sub_0_r.
Qed.

Lemma R_sign_row i a : fmul (R_sign i) a = if Nat.ltb i 2 then fopp a else a.
Proof. unfold R_sign. destruct (Nat.ltb i 2); ring. Qed.

Lemma R_sign_both i j a :
  fmul (fmul (R_sign i) a) (R_sign j)
  = if xorb (Nat.ltb i 2) (Nat.ltb j 2) then fopp a else a.
Proof.
  unfold R_sign. destruct (Nat.ltb i 2), (Nat.ltb j 2); simpl; ring.
Qed.

(** [np.eye(d)] with [R[0, 0] = -1] and [R[1, 1] = -1] is [R]. *)
Lemma R_built d :
  (2 ≤ d)%nat →
  (R ← np.setitem (np.eye d) 0 0 (fopp f1); np.setitem R 1 1 (fopp f1))
  = Ok (R_matrix d).
Proof.
  intros Hd. destruct d as [|[|d]]; [lia..|].
  unfold np.eye, R_matrix. simpl. unfold np.setitem. simpl.
  unfold R_sign. simpl.
  assert (∀ (x y : list F) (l l' : list (list F)),
            x = y → l = l' → x :: l = y :: l') as Hcons
    by (by intros ???? -> ->).
  assert (∀ (x : F) (l l' : list F), l = l' → x :: l = x :: l') as Htail
    by (by intros ??? ->).
  f_equal. apply Hcons; [|apply Hcons].
  - do 2 apply Htail. apply fmap_seq_ext. intros k Hk.
    by destruct k as [|[|k]]; [lia..|].
  - do 2 apply Htail. apply fmap_seq_ext. intros k Hk.
    by destruct k as [|[|k]]; [lia..|].
  - apply (fmap_seq_ext (Y:=list F)). intros i Hi.
    by destruct i as [|[|i]]; [lia..|].
Qed.

Lemma linear_part_shape d c M :
  (d ≤ length M)%nat → Forall (λ row, length row = c) M → (d ≤ c)%nat →
  length (linear_part d M) = d
  ∧ Forall (λ row, length row = d) (linear_part d M).
Proof.
  intros Hrows Hcols Hd. unfold linear_part. split.
  - rewrite length_fmap, length_take. lia.
  - apply Forall_fmap, Forall_forall. intros row Hrow. simpl.
    rewrite length_take.
    rewrite (proj1 (Forall_forall _ _) (Forall_take _ d _ Hcols) row Hrow).
    lia.
Qed.

Lemma last_col_rows (rows : list (list F)) c :
  (0 < c)%nat → Forall (λ row, length row = c) rows →
  np.last_col rows = Ok ((λ row, default f0 (last row)) <$> rows).
Proof.
  intros Hc. induction 1 as [|row rows Hrow _ IH]; [done|].
  simpl. rewrite IH. unfold np.item_last.
  destruct (last row) as [x|] eqn:Elast; [done|].
  apply last_None in Elast. subst row. simpl in Hrow. lia.
Qed.

Lemma translation_part_shape d c M :
  (d ≤ length M)%nat → (0 < c)%nat → Forall (λ row, length row = c) M →
  length (translation_part d M) = d
  ∧ np.last_column d M = Ok (translation_part d M).
Proof.
  intros Hrows Hc Hcols. unfold translation_part, np.last_column. split.
  - rewrite length_fmap, length_take. lia.
  - apply (last_col_rows _ c Hc). by apply Forall_take.
Qed.

Lemma sign_flipped_matrix_product A :
  imap (λ i row, imap (λ j a, fmul a (R_sign j)) row)
    (imap (λ i row, imap (λ j a, fmul (R_sign i) a) row) A)
  = sign_flipped_matrix A.
Proof.
  unfold sign_flipped_matrix. apply list_eq. intros i.
  rewrite !list_lookup_imap. destruct (A !! i) as [row|]; [|done].
  simpl. f_equal. apply list_eq. intros j.
  rewrite !list_lookup_imap. destruct (row !! j) as [a|]; [|done].
  simpl. f_equal. apply R_sign_both.
Qed.

Lemma sign_flipped_vector_product t :
  imap (λ i x, fmul (R_sign i) x) t = sign_flipped_vector t.
Proof.
  unfold sign_flipped_vector. apply imap_ext. intros i x _.
  apply R_sign_row.
Qed.

Lemma imap_rows_shape (g : nat → nat → F → F) d A :
  length A = d → Forall (λ row, length row = d) A →
  length (imap (λ i row, imap (g i) row) A) = d
  ∧ Forall (λ row, length row = d) (imap (λ i row, imap (g i) row) A).
Proof.
  intros Hlen Hrows. split; [by rewrite length_imap|].
  apply Forall_lookup. intros i row. rewrite list_lookup_imap.
  destruct (A !! i) as [row0|] eqn:E; [|done]. intros [= <-].
  rewrite length_imap. by eapply (proj1 (Forall_lookup _ _) Hrows).
Qed.

End Conversion.


(** ** The monad, once more *)

Lemma wp_elim_not_ok {S A} (m : py S A) (s : S) (a : A) (s' : S) :
  wp m (λ r _, ∀ a', r ≠ Ok a') s → m s = (Ok a, s') → False.
Proof. unfold wp. intros Hwp E. rewrite E in Hwp. by apply (Hwp a). Qed.

Lemma wp_run_to {S A} (m : py S A) (s : S) (x : result A * S) :
  wp m (λ r s', (r, s') = x) s → m s = x.
Proof. unfold wp. by destruct (m s). Qed.

(** ** NiftyReg: runs without images, what a run keeps, where it writes *)

Section NiftyReg_more.
Context {F : Type} `{Scalar F} `{Imports F}.
Implicit Types (o : NiftyRegObject F) (fs : gmap string (file F))
  (tr : list event).

(** [NiftyReg._run] in full: it stops at the first image that is [None],
    after what it has done up to there. *)
Lemma NiftyReg_run_cases o fs tr :
  NiftyReg._run (State o fs tr)
  = match WrapperRegistration._fixed_sitk (super o),
          WrapperRegistration._moving_sitk (super o) with
    | None, _ =>
        (Raise (TypeError "WriteImage: wrong argument type"),
         State o (cleared o fs) (tr ++ [create_directory (_dir_tmp o) true]))
    | Some fixed, None =>
        (Raise (TypeError "WriteImage: wrong argument type"),
         State o (<[_fixed_str o := Nifti fixed]> (cleared o fs))
           (tr ++ [create_directory (_dir_tmp o) true;
                   WriteImage fixed (_fixed_str o)]))
    | Some fixed, Some moving =>
        (Ok tt, State o (prepared o fixed moving fs)
                  (tr ++ preparation o fixed moving))
    end.
Proof.
  destruct (WrapperRegistration._fixed_sitk (super o)) as [fixed|] eqn:Ef;
    [destruct (WrapperRegistration._moving_sitk (super o)) as [moving|]
       eqn:Em|].
  - by apply NiftyReg_run_prepares.
  - apply wp_run. unfold NiftyReg._run.
    wp_step. wp_step. cbn [self].
    wp_step. apply wp_ph_create_directory.
    wp_step. apply wp_sitk_WriteImage. rewrite Ef.
    wp_step. apply wp_sitk_WriteImage. rewrite Em.
    unfold cleared. by rewrite <- app_assoc.
  - apply wp_run. unfold NiftyReg._run.
    wp_step. wp_step. cbn [self].
    wp_step. apply wp_ph_create_directory.
    wp_step. apply wp_sitk_WriteImage. by rewrite Ef.
Qed.

Lemma RegAladin_run_stops o fs tr debug e s' :
  NiftyReg._run (State o fs tr) = (Raise e, s') →
  RegAladin._run debug (State o fs tr) = (Raise e, s').
Proof.
  intros E. apply wp_run. unfold RegAladin._run.
  wp_step. by eapply wp_eq; [exact E|].
Qed.

Lemma RegF3D_run_stops o fs tr debug e s' :
  NiftyReg._run (State o fs tr) = (Raise e, s') →
  RegF3D._run debug (State o fs tr) = (Raise e, s').
Proof.
  intros E. apply wp_run. unfold RegF3D._run.
  wp_step. by eapply wp_eq; [exact E|].
Qed.

(** X1.  A run of RegAladin or RegF3D on an instance whose fixed or moving
    image is None (the default of both constructors) raises, and it does
    so after the temporary directory has been created and cleared: with
    no fixed image nothing has been written, with a fixed image and no
    moving image the fixed image has been written.  Every other file
    below the directory is gone, the NiftyReg binary has not been called
    and the instance is as before. *)
Theorem run_without_images o fs tr (debug : Z) :
  WrapperRegistration._fixed_sitk (super o) = None
  ∨ WrapperRegistration._moving_sitk (super o) = None →
  ∃ e written fs',
    RegAladin._run debug (State o fs tr)
    = (Raise e,
       State o fs' (tr ++ create_directory (_dir_tmp o) true :: written))
    ∧ RegF3D._run debug (State o fs tr)
      = (Raise e,
         State o fs' (tr ++ create_directory (_dir_tmp o) true :: written))
    ∧ written
      = match WrapperRegistration._fixed_sitk (super o) with
        | Some fixed => [WriteImage fixed (_fixed_str o)]
        | None => []
        end
    ∧ binary_runs written = []
    ∧ (∀ p, in_dir (_dir_tmp o) p = true → p ≠ _fixed_str o →
            fs' !! p = None).
Proof.
  intros Hnone. pose proof (NiftyReg_run_cases o fs tr) as E.
  destruct (WrapperRegistration._fixed_sitk (super o)) as [fixed|].
  - destruct Hnone as [?|Hmoving]; [done|]. rewrite Hmoving in E.
    eexists _, _, _.
    split; [by apply RegAladin_run_stops|].
    split; [by apply RegF3D_run_stops|].
    split; [done|]. split; [done|].
    intros p Hin Hp. rewrite lookup_insert_ne by done.
    unfold cleared. by rewrite lookup_cleared, Hin.
  - eexists _, _, _.
    split; [by apply RegAladin_run_stops|].
    split; [by apply RegF3D_run_stops|].
    split; [done|]. split; [done|].
    intros p Hin _. unfold cleared. by rewrite lookup_cleared, Hin.
Qed.

(** *** What a run keeps *)

Lemma same_inputs_refl o : same_inputs o o.
Proof. by repeat split. Qed.

Lemma same_inputs_trans o1 o2 o3 :
  same_inputs o1 o2 → same_inputs o2 o3 → same_inputs o1 o3.
Proof.
  unfold same_inputs. intros H12 H23.
  repeat match goal with Hc : _ ∧ _ |- _ => destruct Hc as [? ?] end.
  repeat split; etrans; eauto.
Qed.

Lemma keeps_ret {A} (a : A) : keeps_inputs (F:=F) (mret a).
Proof. intros s. apply same_inputs_refl. Qed.

Lemma keeps_raise {A} e : keeps_inputs (F:=F) (A:=A) (raise e).
Proof. intros s. apply same_inputs_refl. Qed.

Lemma keeps_gets {A} (f : state F → A) : keeps_inputs (gets f).
Proof. intros s. apply same_inputs_refl. Qed.

Lemma keeps_lift {A} (r : result A) : keeps_inputs (F:=F) (lift r).
Proof. intros s. apply same_inputs_refl. Qed.

Lemma keeps_emit e : keeps_inputs (F:=F) (emit e).
Proof. intros s. apply same_inputs_refl. Qed.

Lemma keeps_set_files fs : keeps_inputs (set_files fs).
Proof. intros s. apply same_inputs_refl. Qed.

Lemma keeps_bind {A B} (m : py (state F) A) (f : A → py (state F) B) :
  keeps_inputs m → (∀ a, keeps_inputs (f a)) → keeps_inputs (m ≫= f).
Proof.
  intros Hm Hf s. specialize (Hm s).
  unfold mbind, py_mbind, py_bind.
  destruct (m s) as [[a|e] s1]; [|exact Hm].
  eapply same_inputs_trans; [exact Hm|apply Hf].
Qed.

Lemma keeps_when (c : bool) (m : py (state F) unit) :
  keeps_inputs m → keeps_inputs (when c m).
Proof. intros Hm. destruct c; [exact Hm|apply keeps_ret]. Qed.

Lemma keeps_bind_warped_moving_sitk image :
  keeps_inputs (NiftyReg.bind_warped_moving_sitk (F:=F) image).
Proof. intros s. by repeat split. Qed.

Lemma keeps_bind_registration_transform_sitk transform :
  keeps_inputs (NiftyReg.bind_registration_transform_sitk (F:=F) transform).
Proof. intros s. by repeat split. Qed.

Local Ltac keeps :=
  repeat first
    [ apply keeps_ret | apply keeps_raise | apply keeps_gets
    | apply keeps_lift | apply keeps_emit | apply keeps_set_files
    | apply keeps_bind_warped_moving_sitk
    | apply keeps_bind_registration_transform_sitk
    | apply keeps_when
    | apply keeps_bind; [|intros ?]
    | lazymatch goal with
      | |- keeps_inputs (match ?x with _ => _ end) => destruct x
      end ].

Lemma keeps_sitk_WriteImage image path :
  keeps_inputs (F:=F) (sitk_WriteImage image path).
Proof. unfold sitk_WriteImage. keeps. Qed.

Lemma keeps_sitk_ReadImage path : keeps_inputs (F:=F) (sitk_ReadImage path).
Proof. unfold sitk_ReadImage. keeps. Qed.

Lemma keeps_np_loadtxt path : keeps_inputs (F:=F) (np_loadtxt path).
Proof. unfold np_loadtxt. keeps. Qed.

Lemma keeps_nipype_run nreg : keeps_inputs (nipype_run nreg).
Proof. unfold nipype_run. keeps. Qed.

Lemma keeps_ph_create_directory dir delete_files :
  keeps_inputs (F:=F) (ph_create_directory dir delete_files).
Proof. unfold ph_create_directory. keeps. Qed.

Lemma keeps_getattr {A} name (f : NiftyRegObject F → attribute A) :
  keeps_inputs (getattr name f).
Proof. unfold getattr. keeps. Qed.

Local Ltac keeps_methods :=
  repeat first
    [ apply keeps_sitk_WriteImage | apply keeps_sitk_ReadImage
    | apply keeps_np_loadtxt | apply keeps_nipype_run
    | apply keeps_ph_create_directory | apply keeps_getattr
    | apply keeps_ret | apply keeps_raise | apply keeps_gets
    | apply keeps_lift | apply keeps_emit | apply keeps_set_files
    | apply keeps_bind_warped_moving_sitk
    | apply keeps_bind_registration_transform_sitk
    | apply keeps_when
    | apply keeps_bind; [|intros ?]
    | lazymatch goal with
      | |- keeps_inputs (match ?x with _ => _ end) => destruct x
      end ].

Lemma keeps_NiftyReg_run : keeps_inputs (NiftyReg._run (F:=F)).
Proof. unfold NiftyReg._run. keeps_methods. Qed.

Lemma keeps_convert_to_sitk_transform :
  keeps_inputs RegAladin._convert_to_sitk_transform.
Proof. unfold RegAladin._convert_to_sitk_transform. keeps_methods. Qed.

Lemma keeps_RegAladin_run debug : keeps_inputs (RegAladin._run debug).
Proof.
  unfold RegAladin._run.
  apply keeps_bind; [apply keeps_NiftyReg_run|intros _].
  apply keeps_bind; [apply keeps_gets|intros o].
  apply keeps_bind; [apply keeps_getattr|intros aff]. cbv zeta.
  apply keeps_bind; [keeps_methods|intros _].
  apply keeps_bind; [apply keeps_nipype_run|intros _].
  apply keeps_bind; [apply keeps_sitk_ReadImage|intros warped].
  apply keeps_bind; [apply keeps_bind_warped_moving_sitk|intros _].
  apply keeps_bind; [apply keeps_convert_to_sitk_transform|intros transform].
  apply keeps_bind_registration_transform_sitk.
Qed.

Lemma keeps_RegF3D_run debug : keeps_inputs (RegF3D._run debug).
Proof.
  unfold RegF3D._run.
  apply keeps_bind; [apply keeps_NiftyReg_run|intros _].
  apply keeps_bind; [apply keeps_gets|intros o].
  apply keeps_bind; [apply keeps_getattr|intros cpp]. cbv zeta.
  apply keeps_bind; [keeps_methods|intros _].
  apply keeps_bind; [apply keeps_nipype_run|intros _].
  apply keeps_bind; [apply keeps_sitk_ReadImage|intros warped].
  apply keeps_bind; [apply keeps_bind_warped_moving_sitk|intros _].
  apply keeps_bind; [apply keeps_sitk_ReadImage|intros grid].
  apply keeps_bind_registration_transform_sitk.
Qed.

(** X2.  A run of RegAladin or RegF3D, whether it returns or raises,
    leaves the images, the masks, the options, all the paths and the
    number of cores of the instance as they were: the only attributes it
    may bind are the warped image and the registration transform. *)
Theorem run_keeps_the_inputs (debug : Z) (s : state F) :
  same_inputs (self s) (self (RegAladin._run debug s).2)
  ∧ same_inputs (self s) (self (RegF3D._run debug s).2).
Proof. split; [apply keeps_RegAladin_run|apply keeps_RegF3D_run]. Qed.

Lemma same_inputs_specification o o' :
  same_inputs o o' →
  (∀ fixed moving, preparation o' fixed moving = preparation o fixed moving)
  ∧ (∀ fixed moving fs,
       prepared o' fixed moving fs = prepared o fixed moving fs)
  ∧ (∀ aff, aladin_inputs o' aff = aladin_inputs o aff)
  ∧ (∀ cpp, f3d_inputs o' cpp = f3d_inputs o cpp)
  ∧ (∀ subfolder, paths_bound subfolder o → paths_bound subfolder o').
Proof.
  intros (E0 & E1 & E2 & E3 & E4 & E5 & E6 & E7 & E8 & E9 & E10).
  unfold preparation, prepared, aladin_inputs, f3d_inputs, paths_bound.
  rewrite E0, E1, E2, E3, E4, E5, E6, E8. done.
Qed.

(** X3.  Runs can be repeated.  After a run of RegAladin (or RegF3D) that
    returned, a second run on the same instance makes the same calls up
    to and including the one of the binary: it clears the directory,
    writes the same images and masks, and hands the binary the same
    inputs.  The warped image the first run left on disk is gone by the
    time the binary is called again. *)
Theorem second_run_repeats_the_first
    (subfolder : string) o fs tr (debug : Z) (fixed moving : sitk_image)
    (s1 : state F) :
  paths_bound subfolder o →
  WrapperRegistration._fixed_sitk (super o) = Some fixed →
  WrapperRegistration._moving_sitk (super o) = Some moving →
  let repeats (run : py (state F) unit) (nreg : nreg_interface) :=
    run (State o fs tr) = (Ok tt, s1) →
    let calls :=
      (preparation o fixed moving ++ debug_print debug nreg
       ++ [nreg_run nreg])%list in
    ∃ res s2 rest1 rest2,
      trace s1 = (tr ++ calls ++ rest1)%list
      ∧ run s1 = (res, s2)
      ∧ trace s2 = (trace s1 ++ calls ++ rest2)%list
      ∧ forallb is_read rest1 = true
      ∧ forallb is_read rest2 = true
      ∧ prepared o fixed moving (files s1) !! _warped_moving_str o = None
      ∧ (res = Ok tt →
         niftyreg nreg (prepared o fixed moving (files s1))
         = Ok (files s2)) in
  (∀ aff, _registration_transform_str o = bound aff →
          repeats (RegAladin._run debug) (aladin_inputs o aff))
  ∧ (∀ cpp, _registration_control_point_grid_str o = bound cpp →
            repeats (RegF3D._run debug) (f3d_inputs o cpp)).
Proof.
  intros Hpaths Hfixed Hmoving repeats.
  assert (∀ fs1,
    prepared o fixed moving fs1 !! _warped_moving_str o = None) as Hgone.
  { intros fs1.
    destruct (prepared_files subfolder o fixed moving fs1 Hpaths)
      as (_ & _ & _ & _ & Lother).
    destruct (paths_bound_in_dir _ _ Hpaths) as (_ & _ & I3 & _).
    rewrite Lother, I3; [done|].
    destruct Hpaths as (_ & -> & -> & -> & -> & ->).
    rewrite !not_elem_of_cons. repeat split; try apply not_elem_of_nil.
    all: intros E; by apply os_path_join_inj in E. }
  split.
  - intros aff Haff Erun calls.
    destruct (wp_elim _ _ _
      (RegAladin_run_outcome o fs tr debug fixed moving aff
         Hfixed Hmoving Haff)) as (res1 & s1' & Erun' & rest1 & Htr1 & Hr1 & _).
    rewrite Erun in Erun'. injection Erun' as <- <-.
    pose proof (keeps_RegAladin_run debug (State o fs tr)) as Hkeep.
    rewrite Erun in Hkeep. cbn [snd self] in Hkeep.
    destruct (same_inputs_specification _ _ Hkeep)
      as (Eprep & Eprepared & Ealadin & _ & _).
    destruct s1 as [o1 fs1 tr1]. cbn [self files trace] in *.
    destruct Hkeep as (Esuper & _ & _ & _ & _ & _ & _ & _ & _ & Eaff & _).
    destruct (wp_elim _ _ _
      (RegAladin_run_outcome o1 fs1 tr1 debug fixed moving aff
         ltac:(by rewrite Esuper) ltac:(by rewrite Esuper)
         ltac:(by rewrite Eaff)))
      as (res & s2 & Erun2 & rest2 & Htr2 & Hr2 & Hok).
    rewrite Eprep, Ealadin, Eprepared in *.
    exists res, s2, rest1, rest2. subst calls.
    split; [by rewrite Htr1, <- !app_assoc|].
    split; [exact Erun2|].
    split; [by rewrite Htr2, <- !app_assoc|].
    split; [exact Hr1|]. split; [exact Hr2|]. split; [apply Hgone|].
    intros Hres. by destruct (Hok Hres) as (? & ? & ? & ? & _).
  - intros cpp Hcpp Erun calls.
    destruct (wp_elim _ _ _
      (RegF3D_run_outcome o fs tr debug fixed moving cpp
         Hfixed Hmoving Hcpp)) as (res1 & s1' & Erun' & rest1 & Htr1 & Hr1 & _).
    rewrite Erun in Erun'. injection Erun' as <- <-.
    pose proof (keeps_RegF3D_run debug (State o fs tr)) as Hkeep.
    rewrite Erun in Hkeep. cbn [snd self] in Hkeep.
    destruct (same_inputs_specification _ _ Hkeep)
      as (Eprep & Eprepared & _ & Ef3d & _).
    destruct s1 as [o1 fs1 tr1]. cbn [self files trace] in *.
    destruct Hkeep as (Esuper & _ & _ & _ & _ & _ & _ & _ & _ & _ & Ecpp).
    destruct (wp_elim _ _ _
      (RegF3D_run_outcome o1 fs1 tr1 debug fixed moving cpp
         ltac:(by rewrite Esuper) ltac:(by rewrite Esuper)
         ltac:(by rewrite Ecpp)))
      as (res & s2 & Erun2 & rest2 & Htr2 & Hr2 & Hok).
    rewrite Eprep, Ef3d, Eprepared in *.
    exists res, s2, rest1, rest2. subst calls.
    split; [by rewrite Htr1, <- !app_assoc|].
    split; [exact Erun2|].
    split; [by rewrite Htr2, <- !app_assoc|].
    split; [exact Hr1|]. split; [exact Hr2|]. split; [apply Hgone|].
    intros Hres. by destruct (Hok Hres) as (? & ? & ? & ? & _).
Qed.

(** *** The options on their way to the binary *)

Lemma binary_runs_app tr1 tr2 :
  binary_runs (tr1 ++ tr2) = (binary_runs tr1 ++ binary_runs tr2)%list.
Proof. apply omap_app. Qed.

Lemma binary_runs_reads rest :
  forallb is_read rest = true → binary_runs rest = [].
Proof.
  induction rest as [|e rest IH]; [done|]. simpl.
  intros [He Hrest]%andb_true_iff. unfold binary_runs in *. simpl.
  rewrite (IH Hrest). by destruct e.
Qed.

Lemma binary_runs_preparation o fixed moving :
  binary_runs (preparation o fixed moving) = [].
Proof.
  unfold preparation, mask_write.
  by destruct (WrapperRegistration._fixed_sitk_mask (super o)),
    (WrapperRegistration._moving_sitk_mask (super o)).
Qed.

Lemma binary_runs_debug_print debug nreg :
  binary_runs (debug_print debug nreg) = [].
Proof. unfold debug_print. by destruct (Z.eqb debug 0). Qed.

(** A run that gets as far as the binary calls it once. *)
Lemma binary_runs_of_a_run tr o fixed moving debug nreg rest :
  forallb is_read rest = true →
  binary_runs (tr ++ preparation o fixed moving ++ debug_print debug nreg
               ++ nreg_run nreg :: rest)
  = (binary_runs tr ++ [nreg])%list.
Proof.
  intros Hreads.
  rewrite !binary_runs_app, binary_runs_preparation,
    binary_runs_debug_print.
  change (binary_runs (nreg_run nreg :: rest))
    with (nreg :: binary_runs rest).
  by rewrite (binary_runs_reads rest Hreads).
Qed.

(** X4.  The options set by [set_options] are the ones a run passes on.
    After [set_options(options)] on an instance with a fixed and a moving
    image, a run of RegAladin (or RegF3D) calls the binary exactly once,
    with [args] set to [options]; and [get_options] after the run, whether
    it returned or raised, still returns [options]. *)
Theorem options_reach_the_binary o fs tr (debug : Z) (options : string)
    (fixed moving : sitk_image) :
  WrapperRegistration._fixed_sitk (super o) = Some fixed →
  WrapperRegistration._moving_sitk (super o) = Some moving →
  let s0 :=
    (inherited (WrapperRegistration.set_options options) (State o fs tr)).2 in
  let passes (run : py (state F) unit) (t : nreg_tool) :=
    ∃ res s' nreg,
      run s0 = (res, s')
      ∧ binary_runs (trace s') = (binary_runs tr ++ [nreg])%list
      ∧ tool nreg = t
      ∧ args nreg = Some options
      ∧ inherited WrapperRegistration.get_options s' = (Ok options, s') in
  (∀ aff, _registration_transform_str o = bound aff →
          passes (RegAladin._run debug) reg_aladin)
  ∧ (∀ cpp, _registration_control_point_grid_str o = bound cpp →
            passes (RegF3D._run debug) reg_f3d).
Proof.
  intros Hfixed Hmoving s0 passes.
  assert (∀ s' : state F,
    super (self s') = super (self s0) →
    inherited WrapperRegistration.get_options s' = (Ok options, s'))
    as Hget.
  { intros [[b ? ? ? ? ? ? ? ? ? ? ? ?] fs' tr'] Hsuper.
    cbn in Hsuper. subst b. reflexivity. }
  split.
  - intros aff Haff.
    destruct (wp_elim _ _ _
      (RegAladin_run_outcome (self s0) (files s0) (trace s0) debug
         fixed moving aff Hfixed Hmoving Haff))
      as (res & s' & Erun & rest & Htr & Hreads & _).
    exists res, s', (aladin_inputs (self s0) aff).
    split; [exact Erun|]. split.
    { rewrite Htr. by apply binary_runs_of_a_run. }
    split; [done|]. split; [done|].
    apply Hget.
    pose proof (keeps_RegAladin_run debug
                  (State (self s0) (files s0) (trace s0))) as Hkeep.
    rewrite Erun in Hkeep. apply Hkeep.
  - intros cpp Hcpp.
    destruct (wp_elim _ _ _
      (RegF3D_run_outcome (self s0) (files s0) (trace s0) debug
         fixed moving cpp Hfixed Hmoving Hcpp))
      as (res & s' & Erun & rest & Htr & Hreads & _).
    exists res, s', (f3d_inputs (self s0) cpp).
    split; [exact Erun|]. split.
    { rewrite Htr. by apply binary_runs_of_a_run. }
    split; [done|]. split; [done|].
    apply Hget.
    pose proof (keeps_RegF3D_run debug
                  (State (self s0) (files s0) (trace s0))) as Hkeep.
    rewrite Erun in Hkeep. apply Hkeep.
Qed.

(** *** The results of a run *)

(** A run that returns had a fixed and a moving image to work on, and a
    path for its transform. *)
Lemma RegAladin_run_returns o fs tr debug s' :
  RegAladin._run debug (State o fs tr) = (Ok tt, s') →
  ∃ fixed moving aff,
    WrapperRegistration._fixed_sitk (super o) = Some fixed
    ∧ WrapperRegistration._moving_sitk (super o) = Some moving
    ∧ _registration_transform_str o = bound aff.
Proof.
  intros Erun. pose proof (NiftyReg_run_cases o fs tr) as E.
  destruct (WrapperRegistration._fixed_sitk (super o)) as [fixed|];
    [destruct (WrapperRegistration._moving_sitk (super o)) as [moving|]|].
  2,3: by rewrite (RegAladin_run_stops _ _ _ _ _ _ E) in Erun.
  destruct (_registration_transform_str o) as [|aff] eqn:Eaff;
    [|by eexists _, _, _].
  exfalso. revert Erun. apply wp_elim_not_ok. unfold RegAladin._run.
  wp_step. eapply wp_eq; [exact E|]. cbv beta iota.
  wp_step. wp_step. cbn [self]. wp_step. apply wp_getattr. by rewrite Eaff.
Qed.

Lemma RegF3D_run_returns o fs tr debug s' :
  RegF3D._run debug (State o fs tr) = (Ok tt, s') →
  ∃ fixed moving cpp,
    WrapperRegistration._fixed_sitk (super o) = Some fixed
    ∧ WrapperRegistration._moving_sitk (super o) = Some moving
    ∧ _registration_control_point_grid_str o = bound cpp.
Proof.
  intros Erun. pose proof (NiftyReg_run_cases o fs tr) as E.
  destruct (WrapperRegistration._fixed_sitk (super o)) as [fixed|];
    [destruct (WrapperRegistration._moving_sitk (super o)) as [moving|]|].
  2,3: by rewrite (RegF3D_run_stops _ _ _ _ _ _ E) in Erun.
  destruct (_registration_control_point_grid_str o) as [|cpp] eqn:Ecpp;
    [|by eexists _, _, _].
  exfalso. revert Erun. apply wp_elim_not_ok. unfold RegF3D._run.
  wp_step. eapply wp_eq; [exact E|]. cbv beta iota.
  wp_step. wp_step. cbn [self]. wp_step. apply wp_getattr. by rewrite Ecpp.
Qed.

(** X5.  [_get_warped_moving_sitk] needs a run.  While the attribute
    [_warped_moving_sitk] is not bound the method raises AttributeError;
    after a run of RegAladin (or RegF3D) that returned, it returns the
    image that the run left in [warped_moving.nii.gz].  In both cases it
    leaves the instance and the files alone and makes no call. *)
Theorem warped_moving_image_needs_a_run o fs tr (debug : Z) :
  (_warped_moving_sitk o = unbound →
     ∃ msg,
       RegAladin._get_warped_moving_sitk (State o fs tr)
       = (Raise (AttributeError msg), State o fs tr)
       ∧ RegF3D._get_warped_moving_sitk (State o fs tr)
         = (Raise (AttributeError msg), State o fs tr))
  ∧ (∀ s', RegAladin._run debug (State o fs tr) = (Ok tt, s') →
       ∃ warped,
         files s' !! _warped_moving_str o = Some (Nifti warped)
         ∧ RegAladin._get_warped_moving_sitk s' = (Ok warped, s'))
  ∧ (∀ s', RegF3D._run debug (State o fs tr) = (Ok tt, s') →
       ∃ warped,
         files s' !! _warped_moving_str o = Some (Nifti warped)
         ∧ RegF3D._get_warped_moving_sitk s' = (Ok warped, s')).
Proof.
  split; [|split].
  - intros Hunbound. eexists. split.
    + apply wp_run. apply wp_getattr. rewrite Hunbound. reflexivity.
    + apply wp_run. apply wp_getattr. rewrite Hunbound. reflexivity.
  - intros s' Erun.
    destruct (RegAladin_run_returns _ _ _ _ _ Erun)
      as (fixed & moving & aff & Hfixed & Hmoving & Haff).
    destruct (wp_elim _ _ _
      (RegAladin_run_outcome o fs tr debug fixed moving aff
         Hfixed Hmoving Haff)) as (res & s0 & Erun' & rest & _ & _ & Hok).
    rewrite Erun in Erun'. injection Erun' as <- <-.
    destruct (Hok eq_refl) as (warped & _ & _ & _ & Ew & _ & _ & Bw & _).
    exists warped. split; [exact Ew|].
    destruct s' as [o' fs' tr']. cbn [self] in Bw.
    apply wp_run. apply wp_getattr. by rewrite Bw.
  - intros s' Erun.
    destruct (RegF3D_run_returns _ _ _ _ _ Erun)
      as (fixed & moving & cpp & Hfixed & Hmoving & Hcpp).
    destruct (wp_elim _ _ _
      (RegF3D_run_outcome o fs tr debug fixed moving cpp
         Hfixed Hmoving Hcpp)) as (res & s0 & Erun' & rest & _ & _ & Hok).
    rewrite Erun in Erun'. injection Erun' as <- <-.
    destruct (Hok eq_refl) as (warped & _ & _ & Ew & _ & Bw & _).
    exists warped. split; [exact Ew|].
    destruct s' as [o' fs' tr']. cbn [self] in Bw.
    apply wp_run. apply wp_getattr. by rewrite Bw.
Qed.

(** X6.  What a failing run leaves behind.  When the NiftyReg binary
    itself fails, the run raises the binary's error, the instance keeps
    the results it had (or had not) before, and the directory holds the
    freshly written inputs.  When the binary returns and has written the
    warped image but not the transform file (RegAladin) or the control
    point grid (RegF3D), the run raises after it has bound the new warped
    image: the instance then holds the warped image of this run together
    with the transform it had before. *)
Theorem failed_run_and_the_results o fs tr (debug : Z)
    (fixed moving : sitk_image) :
  WrapperRegistration._fixed_sitk (super o) = Some fixed →
  WrapperRegistration._moving_sitk (super o) = Some moving →
  let fails (run : py (state F) unit) (nreg : nreg_interface)
        (path : string) :=
    (∀ e, niftyreg nreg (prepared o fixed moving fs) = Raise e →
       ∃ s',
         run (State o fs tr) = (Raise e, s')
         ∧ files s' = prepared o fixed moving fs
         ∧ _warped_moving_sitk (self s') = _warped_moving_sitk o
         ∧ _registration_transform_sitk (self s')
           = _registration_transform_sitk o)
    ∧ (∀ fs2 warped,
         niftyreg nreg (prepared o fixed moving fs) = Ok fs2 →
         fs2 !! _warped_moving_str o = Some (Nifti warped) →
         fs2 !! path = None →
         ∃ e s',
           run (State o fs tr) = (Raise e, s')
           ∧ files s' = fs2
           ∧ _warped_moving_sitk (self s') = bound warped
           ∧ _registration_transform_sitk (self s')
             = _registration_transform_sitk o) in
  (∀ aff, _registration_transform_str o = bound aff →
          fails (RegAladin._run debug) (aladin_inputs o aff) aff)
  ∧ (∀ cpp, _registration_control_point_grid_str o = bound cpp →
            fails (RegF3D._run debug) (f3d_inputs o cpp) cpp).
Proof.
  intros Hfixed Hmoving fails. split.
  - intros aff Haff. split.
    + intros e Etool. eexists. split.
      { apply wp_run. unfold RegAladin._run.
        wp_step. eapply wp_eq; [by apply NiftyReg_run_prepares|].
        cbv beta iota. wp_step. wp_step. cbn [self].
        wp_step. apply wp_getattr. rewrite Haff. cbv zeta.
        rewrite RegAladin_inputs.
        wp_step. apply wp_debug_print.
        wp_step. apply wp_nipype_run. by rewrite Etool. }
      done.
    + intros fs2 warped Etool Ewarped Enone. eexists _, _. split.
      { apply wp_run. unfold RegAladin._run.
        wp_step. eapply wp_eq; [by apply NiftyReg_run_prepares|].
        cbv beta iota. wp_step. wp_step. cbn [self].
        wp_step. apply wp_getattr. rewrite Haff. cbv zeta.
        rewrite RegAladin_inputs.
        wp_step. apply wp_debug_print.
        wp_step. apply wp_nipype_run. rewrite Etool.
        wp_step. apply wp_sitk_ReadImage. rewrite Ewarped.
        wp_step. unfold NiftyReg.bind_warped_moving_sitk, set_self.
        wp_step. wp_step. wp_step. cbn [self files trace].
        wp_step. eapply wp_convert_to_sitk_transform; [done..|].
        by rewrite Enone. }
      done.
  - intros cpp Hcpp. split.
    + intros e Etool. eexists. split.
      { apply wp_run. unfold RegF3D._run.
        wp_step. eapply wp_eq; [by apply NiftyReg_run_prepares|].
        cbv beta iota. wp_step. wp_step. cbn [self].
        wp_step. apply wp_getattr. rewrite Hcpp. cbv zeta.
        rewrite RegF3D_inputs.
        wp_step. apply wp_debug_print.
        wp_step. apply wp_nipype_run. by rewrite Etool. }
      done.
    + intros fs2 warped Etool Ewarped Enone. eexists _, _. split.
      { apply wp_run. unfold RegF3D._run.
        wp_step. eapply wp_eq; [by apply NiftyReg_run_prepares|].
        cbv beta iota. wp_step. wp_step. cbn [self].
        wp_step. apply wp_getattr. rewrite Hcpp. cbv zeta.
        rewrite RegF3D_inputs.
        wp_step. apply wp_debug_print.
        wp_step. apply wp_nipype_run. rewrite Etool.
        wp_step. apply wp_sitk_ReadImage. rewrite Ewarped.
        wp_step. unfold NiftyReg.bind_warped_moving_sitk, set_self.
        wp_step. wp_step. wp_step. cbn [self files trace].
        wp_step. apply wp_sitk_ReadImage. by rewrite Enone. }
      done.
Qed.

(** *** The temporary directory *)

(** Whatever the images are, [NiftyReg._run] starts by creating and
    clearing its directory, writes to its own four paths at most, and
    changes no file elsewhere. *)
Lemma NiftyReg_run_files o fs tr :
  ∃ fs1 events,
    (NiftyReg._run (State o fs tr)).2
    = State o fs1 (tr ++ create_directory (_dir_tmp o) true :: events)
    ∧ (∀ p, p ∈ written_paths events →
            p ∈ [_fixed_str o; _moving_str o; _fixed_mask_str o;
                 _moving_mask_str o])
    ∧ binary_runs events = []
    ∧ (∀ p, p ∉ [_fixed_str o; _moving_str o; _fixed_mask_str o;
                 _moving_mask_str o] →
            fs1 !! p = if in_dir (_dir_tmp o) p then None else fs !! p).
Proof.
  rewrite NiftyReg_run_cases.
  destruct (WrapperRegistration._fixed_sitk (super o)) as [fixed|];
    [destruct (WrapperRegistration._moving_sitk (super o)) as [moving|]|].
  - eexists _, _. split; [reflexivity|]. split; [|split].
    + intros p. unfold mask_write.
      destruct (WrapperRegistration._fixed_sitk_mask (super o)),
        (WrapperRegistration._moving_sitk_mask (super o)); cbn;
        rewrite ?elem_of_cons, ?elem_of_nil; tauto.
    + unfold mask_write.
      by destruct (WrapperRegistration._fixed_sitk_mask (super o)),
        (WrapperRegistration._moving_sitk_mask (super o)).
    + intros p Hp. rewrite !not_elem_of_cons in Hp.
      destruct Hp as (? & ? & ? & ? & _). by apply lookup_prepared_other.
  - eexists _, _. split; [reflexivity|]. split; [|split; [done|]].
    + intros p. cbn. rewrite ?elem_of_cons, ?elem_of_nil. tauto.
    + intros p Hp. rewrite !not_elem_of_cons in Hp.
      destruct Hp as (? & _). rewrite lookup_insert_ne by done.
      apply lookup_cleared.
  - eexists _, _. split; [reflexivity|]. split; [|split; [done|]].
    + intros p. cbn. by rewrite elem_of_nil.
    + intros p Hp. apply lookup_cleared.
Qed.



(** X9.  No two roles share a file.  For every instance a constructor
    makes, whatever [DIR_TMP] and the subfolder are, the paths of the
    fixed image, the moving image, the warped image, the two masks, the
    warped mask and the transform file (RegAladin) or the control point
    grid (RegF3D) are seven different files, all below the directory of
    the instance. *)
Theorem paths_are_distinct_files
    fixed moving fixed_mask moving_mask (options subfolder : string)
    (omp_cores : Z) :
  let distinct (o : NiftyRegObject F) (result : attribute string) :=
    ∃ path,
      result = bound path
      ∧ NoDup [_fixed_str o; _moving_str o; _warped_moving_str o;
               _fixed_mask_str o; _moving_mask_str o;
               _warped_moving_mask_str o; path]
      ∧ Forall (λ p, in_dir (_dir_tmp o) p = true)
          [_fixed_str o; _moving_str o; _warped_moving_str o;
           _fixed_mask_str o; _moving_mask_str o;
           _warped_moving_mask_str o; path] in
  let aladin := RegAladin.__init__ fixed moving fixed_mask moving_mask
                  options subfolder omp_cores in
  let f3d := RegF3D.__init__ fixed moving fixed_mask moving_mask
               options subfolder omp_cores in
  distinct aladin (_registration_transform_str aladin)
  ∧ distinct f3d (_registration_control_point_grid_str f3d).
Proof.
  intros distinct aladin f3d.
  assert (∀ dir (names : list string),
    NoDup names → Forall (λ n, String.prefix "/" n = false) names →
    NoDup (os_path_join dir <$> names)
    ∧ Forall (λ p, in_dir dir p = true) (os_path_join dir <$> names))
    as Hjoin.
  { intros dir names Hnodup Hrel. split.
    - induction Hnodup as [|n names Hn Hnodup IH]; [constructor|].
      inversion Hrel as [|? ? Hn_rel Hrel']; subst. cbn.
      constructor; [|by apply IH].
      rewrite list_elem_of_fmap. intros (n' & E & Hn').
      apply os_path_join_inj in E; [congruence|done|].
      by eapply (proj1 (Forall_forall _ _) Hrel').
    - apply Forall_fmap. eapply Forall_impl; [exact Hrel|].
      intros n Hn. by apply in_dir_join. }
  split.
  - eexists. split; [reflexivity|].
    apply (Hjoin (_dir_tmp aladin)
             ["fixed.nii.gz"; "moving.nii.gz"; "warped_moving.nii.gz";
              "fixed_mask.nii.gz"; "moving_mask.nii.gz";
              "warped_mask.nii.gz"; "registration_transform.txt"]).
    + apply (bool_decide_unpack _). by vm_compute.
    + by repeat constructor.
  - eexists. split; [reflexivity|].
    apply (Hjoin (_dir_tmp f3d)
             ["fixed.nii.gz"; "moving.nii.gz"; "warped_moving.nii.gz";
              "fixed_mask.nii.gz"; "moving_mask.nii.gz";
              "warped_mask.nii.gz"; "registration_cpp.nii.gz"]).
    + apply (bool_decide_unpack _). by vm_compute.
    + by repeat constructor.
Qed.
End NiftyReg_more.

(** ** The conversion of the affine matrix: sizes *)

Section Conversion_sizes.
Context {F : Type} `{Scalar F}.
Implicit Types (A B M : list (list F)) (v t : list F) (d c : nat).

Lemma dot_shape A B :
  np.ncols A = length B →
  ∃ C, np.dot A B = Ok C
       ∧ length C = length A
       ∧ Forall (λ row, length row = np.ncols B) C.
Proof.
  intros Hshape. unfold np.dot. rewrite Hshape, Nat.eqb_refl.
  eexists. split; [reflexivity|]. split; [by rewrite length_fmap|].
  apply Forall_fmap, Forall_forall. intros row _. simpl.
  by rewrite length_fmap, length_seq.
Qed.

Lemma dot_not_aligned A B :
  np.ncols A ≠ length B →
  np.dot A B = Raise (ValueError "shapes not aligned").
Proof.
  intros Hshape. unfold np.dot.
  by destruct (Nat.eqb_spec (np.ncols A) (length B)).
Qed.

Lemma dotv_shape A v :
  np.ncols A = length v →
  ∃ w, np.dotv A v = Ok w ∧ length w = length A.
Proof.
  intros Hshape. unfold np.dotv. rewrite Hshape, Nat.eqb_refl.
  eexists. split; [reflexivity|]. by rewrite length_fmap.
Qed.

Lemma flatten_length A c :
  Forall (λ row, length row = c) A →
  length (np.flatten A) = (length A * c)%nat.
Proof.
  unfold np.flatten. induction 1 as [|row A Hrow _ IH]; [done|].
  simpl. rewrite length_app, IH, Hrow. done.
Qed.

Lemma ncols_rows A c :
  (0 < length A)%nat → Forall (λ row, length row = c) A → np.ncols A = c.
Proof.
  intros Hlen Hrows. destruct A as [|row A]; [simpl in Hlen; lia|].
  by inversion Hrows.
Qed.

Lemma block_shape d c M :
  Forall (λ row, length row = c) M →
  length (np.block d M) = (d `min` length M)%nat
  ∧ Forall (λ row, length row = (d `min` c)%nat) (np.block d M).
Proof.
  intros Hrows. unfold np.block. split.
  - by rewrite length_fmap, length_take.
  - apply Forall_fmap, Forall_forall. intros row Hrow. simpl.
    rewrite length_take.
    by rewrite (proj1 (Forall_forall _ _) (Forall_take _ d _ Hrows) row Hrow).
Qed.

Lemma last_column_shape d c M :
  (0 < c)%nat → Forall (λ row, length row = c) M →
  ∃ t, np.last_column d M = Ok t ∧ length t = (d `min` length M)%nat.
Proof.
  intros Hc Hrows. unfold np.last_column.
  rewrite (last_col_rows _ c Hc) by (by apply Forall_take).
  eexists. split; [reflexivity|]. by rewrite length_fmap, length_take.
Qed.

End Conversion_sizes.

(** ** The conversion of the affine matrix: read backwards *)

Section Conversion_back.
Context {F : Type} `{Scalar F}.
Hypothesis Fring : ring_theory f0 f1 fadd fmul fsub fopp (@eq F).
Add Ring Fring_back : Fring.

Implicit Types (A M : list (list F)) (t : list F) (d c : nat).

(** The conversion of a matrix that is large enough, in closed form. *)
Lemma to_sitk_physical_flips d c M :
  (2 ≤ d)%nat → (d ≤ length M)%nat →
  Forall (λ row, length row = c) M → (d ≤ c)%nat →
  RegAladin.to_sitk_physical d M
  = Ok (AffineTransform (np.flatten (sign_flipped_matrix (linear_part d M)))
          (sign_flipped_vector (translation_part d M))).
Proof.
  intros Hd Hrows Hcols Hc.
  destruct (linear_part_shape d c M Hrows Hcols Hc) as [HA1 HA2].
  destruct (translation_part_shape d c M Hrows ltac:(lia) Hcols)
    as [Ht1 Ht2].
  pose proof (dot_R_l Fring d d _ ltac:(lia) HA1 HA2) as Hleft.
  destruct (imap_rows_shape (λ i j a, fmul (R_sign i) a) d _ HA1 HA2)
    as [HRA1 HRA2].
  pose proof (dot_R_r Fring d _ ltac:(lia) HRA1 HRA2) as Hright.
  rewrite (sign_flipped_matrix_product Fring) in Hright.
  pose proof (dotv_R Fring d _ ltac:(lia) Ht1) as Hvec.
  rewrite (sign_flipped_vector_product Fring) in Hvec.
  unfold RegAladin.to_sitk_physical.
  change (np.block d M) with (linear_part d M). rewrite Ht2.
  pose proof (R_built d Hd) as HR.
  unfold mbind, result_mbind in HR |- *.
  destruct (np.setitem (np.eye d) 0 0 (fopp f1)) as [R0|]; [|done].
  rewrite HR. by rewrite Hleft, Hright, Hvec.
Qed.

Lemma sign_flipped_matrix_twice A :
  sign_flipped_matrix (sign_flipped_matrix A) = A.
Proof.
  unfold sign_flipped_matrix. apply list_eq. intros i.
  rewrite !list_lookup_imap. destruct (A !! i) as [row|]; [|done].
  simpl. f_equal. apply list_eq. intros j.
  rewrite !list_lookup_imap. destruct (row !! j) as [a|]; [|done].
  simpl. f_equal. destruct (xorb _ _); [ring|done].
Qed.

Lemma sign_flipped_vector_twice t :
  sign_flipped_vector (sign_flipped_vector t) = t.
Proof.
  unfold sign_flipped_vector. apply list_eq. intros i.
  rewrite !list_lookup_imap. destruct (t !! i) as [x|]; [|done].
  simpl. f_equal. destruct (Nat.ltb i 2); [ring|done].
Qed.

Lemma homogeneous_shape d A t :
  length A = d → Forall (λ row, length row = d) A → length t = d →
  length (homogeneous A t) = d
  ∧ Forall (λ row, length row = S d) (homogeneous A t)
  ∧ linear_part d (homogeneous A t) = A
  ∧ translation_part d (homogeneous A t) = t.
Proof.
  intros HA Hrows Ht. unfold homogeneous.
  assert (length (zip_with (λ row x, (row ++ [x])%list) A t) = d) as Hlen
    by (rewrite length_zip_with; lia).
  split; [exact Hlen|]. split; [|split].
  - apply Forall_lookup. intros i row. rewrite lookup_zip_with.
    destruct (A !! i) as [r|] eqn:Er; [|done]. simpl.
    destruct (t !! i) as [x|]; [|done]. simpl. intros [= <-].
    rewrite length_app. simpl.
    rewrite (proj1 (Forall_lookup _ _) Hrows i r Er). lia.
  - unfold linear_part. rewrite take_ge by lia.
    apply list_eq. intros i. rewrite list_lookup_fmap, lookup_zip_with.
    destruct (A !! i) as [r|] eqn:Er; [|done]. simpl.
    destruct (t !! i) as [x|] eqn:Ex.
    + simpl. f_equal. rewrite take_app_le by
        (rewrite (proj1 (Forall_lookup _ _) Hrows i r Er); lia).
      apply take_ge. rewrite (proj1 (Forall_lookup _ _) Hrows i r Er). lia.
    + apply lookup_ge_None in Ex. apply lookup_lt_Some in Er. lia.
  - unfold translation_part. rewrite take_ge by lia.
    apply list_eq. intros i. rewrite list_lookup_fmap, lookup_zip_with.
    destruct (t !! i) as [x|] eqn:Ex.
    + destruct (A !! i) as [r|] eqn:Er.
      * simpl. by rewrite last_snoc.
      * apply lookup_ge_None in Er. apply lookup_lt_Some in Ex. lia.
    + by destruct (A !! i).
Qed.

End Conversion_back.

(** ** Resampling a mask *)

Section Resampling.
Context {F : Type} `{Imports F} `{ResampleImports F}.
Implicit Types (o : NiftyRegObject F) (fs : gmap string (file F))
  (tr : list resample_event).

Lemma wp_registration_call {A} (m : py (state F) A)
    (Q : result A → resample_state F → Prop) o fs tr r o' fs' events :
  m (State o fs []) = (r, State o' fs' events) →
  Q r (ResampleState o' fs' (tr ++ (during_registration <$> events))) →
  wp (registration_call m) Q (ResampleState o fs tr).
Proof.
  intros E HQ. unfold wp, registration_call. cbn [rself rfiles rtrace].
  by rewrite E.
Qed.

Lemma wp_resample_emit e (Q : result unit → resample_state F → Prop)
    o fs tr :
  Q (Ok tt) (ResampleState o fs (tr ++ [e])) →
  wp (resample_emit e) Q (ResampleState o fs tr).
Proof. done. Qed.

Lemma wp_nipype_run_resample nreg
    (Q : result unit → resample_state F → Prop) o fs tr :
  match reg_resample nreg fs with
  | Ok fs' => Q (Ok tt) (ResampleState o fs' (tr ++ [resample_run nreg]))
  | Raise e => Q (Raise e) (ResampleState o fs (tr ++ [resample_run nreg]))
  end →
  wp (nipype_run_resample nreg) Q (ResampleState o fs tr).
Proof.
  intros HQ. unfold nipype_run_resample.
  wp_step. apply wp_resample_emit. wp_step. wp_step. wp_step. wp_step.
  cbn [rfiles]. destruct (reg_resample nreg fs); [by wp_step|done].
Qed.

Lemma wp_sitk_ReadImage_as path pixel_type
    (Q : result sitk_image → resample_state F → Prop) o fs tr :
  Q (match fs !! path with
     | Some (Nifti img) => Ok (converted img pixel_type)
     | _ => Raise (RuntimeError "ReadImage: unable to read the file")
     end)
    (ResampleState o fs (tr ++ [ReadImage_as path pixel_type])) →
  wp (sitk_ReadImage_as path pixel_type) Q (ResampleState o fs tr).
Proof.
  intros HQ. unfold sitk_ReadImage_as.
  wp_step. apply wp_resample_emit. wp_step. wp_step. cbn [rfiles].
  destruct (fs !! path) as [[img|rows]|]; by wp_step.
Qed.

Lemma get_deformed_image_sitk_outcome o fs tr fixed moving
    (interpolation_order debug : Z) cpp :
  _registration_control_point_grid_str o = bound cpp →
  let nreg := resample_inputs o cpp interpolation_order in
  let fs1 := <[_moving_str o := Nifti moving]>
               (<[_fixed_str o := Nifti fixed]> fs) in
  let before :=
    (resample_writes o fixed moving
     ++ resample_debug_print debug nreg ++ [resample_run nreg])%list in
  RegF3D_masks.get_deformed_image_sitk (Some fixed) (Some moving)
    interpolation_order debug (ResampleState o fs tr)
  = match reg_resample nreg fs1 with
    | Ok fs2 =>
        (match fs2 !! _warped_moving_str o with
         | Some (Nifti img) => Ok (converted img (GetPixelIDValue moving))
         | _ => Raise (RuntimeError "ReadImage: unable to read the file")
         end,
         ResampleState o fs2
           (tr ++ before
            ++ [ReadImage_as (_warped_moving_str o)
                  (GetPixelIDValue moving)]))
    | Raise e => (Raise e, ResampleState o fs1 (tr ++ before))
    end.
Proof.
  intros Hcpp nreg fs1 before. apply wp_run_to.
  unfold RegF3D_masks.get_deformed_image_sitk.
  wp_step. wp_step. cbn [rself].
  wp_step. eapply wp_registration_call.
  { apply wp_run. apply wp_sitk_WriteImage. reflexivity. }
  cbv beta iota. wp_step. eapply wp_registration_call.
  { apply wp_run. apply wp_sitk_WriteImage. reflexivity. }
  cbv beta iota. wp_step. eapply wp_registration_call.
  { apply wp_run. apply wp_getattr. rewrite Hcpp. reflexivity. }
  cbv beta iota zeta. fold (resample_inputs o cpp interpolation_order). fold nreg.
  wp_step.
  assert (∀ Q : result unit → resample_state F → Prop,
    ∀ fs0 tr0,
    Q (Ok tt) (ResampleState o fs0 (tr0 ++ resample_debug_print debug nreg)) →
    wp (when (negb (Z.eqb debug 0))
          (registration_call (emit (print (resample_cmdline nreg))))) Q
      (ResampleState o fs0 tr0)) as Hprint.
  { intros Q fs0 tr0 HQ. unfold resample_debug_print in HQ.
    destruct (Z.eqb debug 0); simpl.
    - rewrite app_nil_r in HQ. by wp_step.
    - by eapply wp_registration_call; [reflexivity|]. }
  apply Hprint. wp_step. apply wp_nipype_run_resample.
  subst before. unfold resample_writes. cbn [fmap list_fmap app].
  rewrite <- !app_assoc. cbn [app].
  fold fs1. destruct (reg_resample nreg fs1) as [fs2|e].
  - apply wp_sitk_ReadImage_as.
    rewrite <- app_assoc. cbn [app]. by rewrite <- app_assoc.
  - done.
Qed.

Lemma get_deformed_image_sitk_no_moving o fs tr fixed
    (interpolation_order debug : Z) :
  RegF3D_masks.get_deformed_image_sitk (Some fixed) None
    interpolation_order debug (ResampleState o fs tr)
  = (Raise (TypeError "WriteImage: wrong argument type"),
     ResampleState o (<[_fixed_str o := Nifti fixed]> fs)
       (tr ++ [during_registration (WriteImage fixed (_fixed_str o))])).
Proof.
  apply wp_run.
  unfold RegF3D_masks.get_deformed_image_sitk.
  wp_step. wp_step. cbn [rself].
  wp_step. eapply wp_registration_call.
  { apply wp_run. apply wp_sitk_WriteImage. reflexivity. }
  cbv beta iota. wp_step. eapply wp_registration_call.
  { apply wp_run. apply wp_sitk_WriteImage. reflexivity. }
  cbn [fmap list_fmap]. by rewrite app_nil_r.
Qed.

Lemma get_deformed_image_sitk_no_fixed o fs tr moving
    (interpolation_order debug : Z) :
  RegF3D_masks.get_deformed_image_sitk None moving
    interpolation_order debug (ResampleState o fs tr)
  = (Raise (TypeError "WriteImage: wrong argument type"),
     ResampleState o fs tr).
Proof.
  apply wp_run.
  unfold RegF3D_masks.get_deformed_image_sitk.
  wp_step. wp_step. cbn [rself].
  wp_step. eapply wp_registration_call.
  { apply wp_run. apply wp_sitk_WriteImage. reflexivity. }
  cbn [fmap list_fmap]. by rewrite app_nil_r.
Qed.



Lemma get_deformed_image_sitk_no_grid o fs tr fixed moving
    (interpolation_order debug : Z) :
  _registration_control_point_grid_str o = unbound →
  RegF3D_masks.get_deformed_image_sitk (Some fixed) (Some moving)
    interpolation_order debug (ResampleState o fs tr)
  = (Raise (AttributeError
              "object has no attribute '_registration_control_point_grid_str'"),
     ResampleState o
       (<[_moving_str o := Nifti moving]>
          (<[_fixed_str o := Nifti fixed]> fs))
       (tr ++ resample_writes o fixed moving)).
Proof.
  intros Hcpp. apply wp_run.
  unfold RegF3D_masks.get_deformed_image_sitk.
  wp_step. wp_step. cbn [rself].
  wp_step. eapply wp_registration_call.
  { apply wp_run. apply wp_sitk_WriteImage. reflexivity. }
  cbv beta iota. wp_step. eapply wp_registration_call.
  { apply wp_run. apply wp_sitk_WriteImage. reflexivity. }
  cbv beta iota. wp_step. eapply wp_registration_call.
  { apply wp_run. apply wp_getattr. rewrite Hcpp. reflexivity. }
  cbn [fmap list_fmap]. rewrite app_nil_r, <- !app_assoc. reflexivity.
Qed.



(** X16.  The mask accessors of RegAladin work in memory.  Both
    [_get_transformed_fixed_sitk_mask] and [_get_warped_moving_sitk_mask]
    first ask the inherited accessor for the registration transform and
    pass its error on; neither writes a file, calls a binary or changes
    the instance.  With a transform, [_get_warped_moving_sitk_mask]
    raises AttributeError when there is no moving mask, and otherwise is
    [sitk.Resample] of the mask onto the fixed image with nearest
    neighbour interpolation, default value 0 and the pixel type of the
    mask. *)
Theorem warped_mask_of_RegAladin (s : state F) :
  let o := self s in
  (∀ e, get_registration_transform_sitk o = Raise e →
     RegAladin._get_transformed_fixed_sitk_mask s = (Raise e, s)
     ∧ RegAladin_masks._get_warped_moving_sitk_mask s = (Raise e, s))
  ∧ (∀ transform, get_registration_transform_sitk o = Ok transform →
       RegAladin._get_transformed_fixed_sitk_mask s
       = (get_transformed_sitk_image
            (WrapperRegistration._fixed_sitk_mask (super o)) transform, s)
       ∧ (WrapperRegistration._moving_sitk_mask (super o) = None →
          ∃ msg,
            RegAladin_masks._get_warped_moving_sitk_mask s
            = (Raise (AttributeError msg), s))
       ∧ (∀ mask,
            WrapperRegistration._moving_sitk_mask (super o) = Some mask →
            RegAladin_masks._get_warped_moving_sitk_mask s
            = (sitk_Resample mask
                 (WrapperRegistration._fixed_sitk (super o)) transform
                 sitkNearestNeighbor 0 (GetPixelIDValue mask), s))).
Proof.
  intros o. split.
  - intros e He. split.
    + apply wp_run. unfold RegAladin._get_transformed_fixed_sitk_mask.
      wp_step. wp_step. wp_step. wp_step. fold o. by rewrite He.
    + apply wp_run. unfold RegAladin_masks._get_warped_moving_sitk_mask.
      wp_step. wp_step. cbv zeta. wp_step. wp_step. fold o.
      by rewrite He.
  - intros transform Ht. split; [|split].
    + apply wp_run. unfold RegAladin._get_transformed_fixed_sitk_mask.
      wp_step. wp_step. wp_step. wp_step. fold o. rewrite Ht.
      by wp_step.
    + intros Hmask. eexists. apply wp_run.
      unfold RegAladin_masks._get_warped_moving_sitk_mask.
      wp_step. wp_step. cbv zeta. wp_step. wp_step. fold o.
      rewrite Ht, Hmask. by wp_step.
    + intros mask Hmask. apply wp_run.
      unfold RegAladin_masks._get_warped_moving_sitk_mask.
      wp_step. wp_step. cbv zeta. wp_step. wp_step. fold o.
      rewrite Ht, Hmask. by wp_step.
Qed.
End Resampling.

(** ** WrapItkRegistration: the results of a run *)

Section WrapItkRegistration_results.
Context `{ItkImports}.
Import WrapItkRegistration.

Lemma same_parameters_refl o : same_parameters o o.
Proof. by repeat split. Qed.

Lemma results_of_refl o : results_of o o.
Proof. split; [apply same_parameters_refl|done]. Qed.

Lemma results_bind_registration_transform_itk o i s t v
    (Q : result unit → state → Prop) o0 tr :
  with_results o i s t o0 →
  (∀ o', with_results o (bound v) s t o' → Q (Ok tt) (State o' tr)) →
  wp (bind_registration_transform_itk v) Q (State o0 tr).
Proof.
  intros (Hp & Hi & Hs & Ht) HQ. apply HQ.
  split; [exact Hp|]. split; [reflexivity|]. split; [exact Hs|exact Ht].
Qed.

Lemma results_bind_registration_transform_sitk o i s t v
    (Q : result unit → state → Prop) o0 tr :
  with_results o i s t o0 →
  (∀ o', with_results o i (bound v) t o' → Q (Ok tt) (State o' tr)) →
  wp (bind_registration_transform_sitk v) Q (State o0 tr).
Proof.
  intros (Hp & Hi & Hs & Ht) HQ. apply HQ.
  split; [exact Hp|]. split; [exact Hi|]. split; [reflexivity|exact Ht].
Qed.

Lemma results_bind_computational_time o i s t v
    (Q : result unit → state → Prop) o0 tr :
  with_results o i s t o0 →
  (∀ o', with_results o i s v o' → Q (Ok tt) (State o' tr)) →
  wp (bind_computational_time v) Q (State o0 tr).
Proof.
  intros (Hp & Hi & Hs & Ht) HQ. apply HQ.
  split; [exact Hp|]. split; [exact Hi|]. split; [exact Hs|reflexivity].
Qed.

Lemma results_cast_mask o i s t (mask : itk.value)
    (Q : result itk.value → state → Prop) o0 tr :
  with_results o i s t o0 →
  (∀ o', with_results o i s t o' →
     Q (match mask with
        | itk.image _ buffer =>
            Ok (itk.image (itk.output_type (_mask_caster o)) buffer)
        | _ => Raise (RuntimeError "CastImageFilter: input is not an image")
        end) (State o' tr)) →
  wp (cast_mask mask) Q (State o0 tr).
Proof.
  intros Hres HQ. unfold cast_mask, mask_caster_SetInput.
  do 5 wp_step.
  cbn [self trace]. unfold itk.GetOutput.
  cbn [itk.Input itk.SetInput itk.output_type _mask_caster].
  match goal with
  | |- Q _ (State ?o' _) =>
      assert (with_results o i s t o') as Hres'
        by (destruct Hres as (Hp & Hi & Hs & Ht);
            split; [exact Hp|]; split; [exact Hi|]; split;
            [exact Hs|exact Ht]);
      specialize (HQ o' Hres')
  end.
  destruct Hres as (Hp & _). unfold same_parameters in Hp.
  repeat match type of Hp with _ ∧ _ => destruct Hp as [_ Hp] end.
  rewrite Hp. destruct mask; exact HQ.
Qed.

Lemma results_attach o i s t (mask : itk.value)
    (set : itk.mask_spatial_object → itk.metric → itk.metric)
    (metric : itk.metric) (Q : result itk.metric → state → Prop) o0 tr :
  with_results o i s t o0 →
  (∀ o', with_results o i s t o' →
     match mask with
     | itk.object _ =>
         Q (Raise (RuntimeError "CastImageFilter: input is not an image"))
           (State o' tr)
     | _ =>
         Q (Ok (from_option (λ m, set m metric) metric (mask_object o mask)))
           (State o' tr)
     end) →
  wp (if negb (itk.is_None mask) then
        v ← cast_mask mask;
        mret (set (itk.SetImage v
                     (itk.ImageMaskSpatialObject (_dimension o) None))
                metric)
      else mret metric) Q (State o0 tr).
Proof.
  intros Hres HQ. destruct mask as [|ty buffer|cls]; simpl.
  - wp_step. by apply (HQ o0).
  - wp_step. apply (results_cast_mask o i s t); [done|].
    intros o' Ho'. wp_step. by apply (HQ o').
  - wp_step. apply (results_cast_mask o i s t); [done|].
    intros o' Ho'. by apply (HQ o').
Qed.

Lemma wp_emits (events : list event) (m : py state unit)
    (Q : result unit → state → Prop) o tr :
  (∀ o0 tr0, m (State o0 tr0) = (Ok tt, State o0 (tr0 ++ events))) →
  Q (Ok tt) (State o (tr ++ events)) →
  wp m Q (State o tr).
Proof. intros Hm HQ. unfold wp. by rewrite Hm. Qed.

Lemma emit_then (e : event) (events : list event) (m : py state unit) :
  (∀ o0 tr0, m (State o0 tr0) = (Ok tt, State o0 (tr0 ++ events))) →
  ∀ o0 tr0,
    (emit e;; m) (State o0 tr0) = (Ok tt, State o0 (tr0 ++ e :: events)).
Proof.
  intros Hm o0 tr0. unfold mbind, py_mbind, py_bind. cbn.
  rewrite Hm. by rewrite <- app_assoc.
Qed.

Lemma emit_last (e : event) :
  ∀ o0 tr0, emit e (State o0 tr0) = (Ok tt, State o0 (tr0 ++ [e])).
Proof. done. Qed.

Lemma when_then (c : bool) (events rest : list event)
    (m1 m2 : py state unit) :
  (∀ o0 tr0, m1 (State o0 tr0) = (Ok tt, State o0 (tr0 ++ events))) →
  (∀ o0 tr0, m2 (State o0 tr0) = (Ok tt, State o0 (tr0 ++ rest))) →
  ∀ o0 tr0,
    (when c m1;; m2) (State o0 tr0)
    = (Ok tt, State o0 (tr0 ++ (if c then events else []) ++ rest)).
Proof.
  intros H1 H2 o0 tr0. unfold mbind, py_mbind, py_bind.
  destruct c; cbn.
  - rewrite H1, H2. by rewrite <- app_assoc.
  - by rewrite H2.
Qed.

Lemma when_emits (c : bool) (events : list event) (m : py state unit) :
  (∀ o0 tr0, m (State o0 tr0) = (Ok tt, State o0 (tr0 ++ events))) →
  ∀ o0 tr0,
    when c m (State o0 tr0)
    = (Ok tt, State o0 (tr0 ++ (if c then events else []))).
Proof.
  intros Hm o0 tr0. destruct c; cbn; [apply Hm|by rewrite app_nil_r].
Qed.

Lemma report_settings_block o :
  ∀ o0 tr0,
    when (negb (Z.eqb (_verbose o) 0))
      (emit (print_info "Registration: WrapITK" true);;
       emit (print_info ("Transform Model: " +:+ _registration_type o) true);;
       emit (print_info ("Interpolator: " +:+ _interpolator o) true);;
       emit (print_info ("Metric: " +:+ _metric o) true);;
       emit (print_info ("CenteredTransformInitializer: " +:+
                         str_optional (_initializer_type o)) true);;
       emit (print_info ("Optimizer: " +:+ _optimizer o) true);;
       emit (print_info ("Use Multiresolution Framework: " +:+
                         str_bool (_use_multiresolution_framework o))
               (negb (_use_multiresolution_framework o)));;
       when (_use_multiresolution_framework o)
         (emit (print (" (" +:+ "shrink factors = " +:+
                       str_list (_shrink_factors o) +:+ ", " +:+
                       "smoothing sigmas = " +:+
                       str_list (_smoothing_sigmas o) +:+ ")")));;
       emit (print_info ("Use Fixed Mask: " +:+
                         str_bool (negb (itk.is_None (_fixed_itk_mask o))))
               true);;
       emit (print_info ("Use Moving Mask: " +:+
                         str_bool (negb (itk.is_None (_moving_itk_mask o))))
               true)) (State o0 tr0)
    = (Ok tt, State o0 (tr0 ++ report_settings o)).
Proof.
  intros o0 tr0. unfold report_settings.
  rewrite <- (negb_involutive (Z.eqb (_verbose o) 0)).
  destruct (negb (Z.eqb (_verbose o) 0)); cbn [negb when];
    [|by rewrite app_nil_r].
  do 7 apply emit_then.
  intros o1 tr1. rewrite (when_then _ _ _ _ _ (emit_last _)
    (emit_then _ _ _ (emit_last _))). reflexivity.
Qed.

Lemma report_result_block o (done_ : itk.outcome itk_transform) :
  ∀ o0 tr0,
    when (negb (Z.eqb (_verbose o) 0))
      (emit (print_info "Summary Registration Method Result:" true);;
       emit (print_info (tab +:+ "Optimizer's stopping condition: " +:+
                         itk.GetStopConditionDescription done_) true);;
       emit (print_info (tab +:+ "Final metric value: " +:+
                         itk.GetValue done_) true);;
       emit (print_sitk_transform
               (get_sitk_from_itk_transform (itk.GetTransform done_))))
      (State o0 tr0)
    = (Ok tt, State o0 (tr0 ++ report_result o done_)).
Proof.
  intros o0 tr0. unfold report_result.
  rewrite <- (negb_involutive (Z.eqb (_verbose o) 0)).
  destruct (negb (Z.eqb (_verbose o) 0)); cbn [negb when];
    [|by rewrite app_nil_r].
  do 3 apply emit_then. apply emit_last.
Qed.

Lemma metric_class_of_known o :
  is_Some (metric_class_of o) ↔ known_metric (_metric o) = true.
Proof.
  unfold metric_class_of, known_metric.
  repeat case_bool_decide; simpl; rewrite <- ?not_eq_None_Some;
    intuition congruence.
Qed.

(** [_run_v3] in full: where it stops and with what error, or which
    pipeline it executes, what it prints and what it binds. *)
Lemma run_v3_in_full o tr :
  wp _run_v3 (λ res s',
    match rejection o with
    | Some e => res = Raise e ∧ trace s' = tr ∧ results_of o (self s')
    | None =>
        ∃ r,
          pipeline o = Some r
          ∧ match Update r with
            | Ok done_ =>
                res = Ok tt
                ∧ trace s'
                  = (tr ++ registration_Update r
                        :: report_settings o ++ report_result o done_)%list
                ∧ with_results o
                    (bound (Some (itk.GetTransform done_)))
                    (bound (Some (get_sitk_from_itk_transform
                                    (itk.GetTransform done_))))
                    (_computational_time o) (self s')
            | Raise e =>
                res = Raise e
                ∧ trace s' = (tr ++ [registration_Update r])%list
                ∧ results_of o (self s')
            end
    end) (State o tr).
Proof.
  pose proof (results_of_refl o) as Hres.
  pose proof (report_settings_block o) as Hsettings.
  unfold _run_v3, rejection.
  wp_step. wp_step. cbv beta zeta. cbn [self trace].
  match type of Hsettings with
  | ∀ o0 tr0, ?block _ = _ => set (settings := block) in *
  end.
  wp_step. apply wp_transform_type.
  destruct (transform_model _ _ _) as [transform_type|] eqn:Emodel;
    [|done].
  match goal with
  | |- wp (let '(_, _) := ?p in _) _ _ =>
      destruct p as [metric_type interpolator] eqn:Emetric
  end.
  assert (metric_type = metric_class_of o
          ∧ interpolator = interpolator_of o) as [-> ->].
  { revert Emetric. unfold metric_class_of, interpolator_of.
    repeat case_bool_decide; intros [= <- <-]; done || congruence. }
  clear Emetric.
  pose proof (metric_class_of_known o) as Hknown.
  wp_step. case_bool_decide as Eopt; [wp_step|by wp_step].
  cbn [negb].
  wp_step. apply wp_when; [by intros ->; wp_step|intros Escales].
  rewrite Escales.
  wp_step.
  destruct (metric_class_of o) as [metric_class|] eqn:Eclass; wp_step.
  2:{ destruct (known_metric _); [|done].
      destruct Hknown as [_ Hk]. by destruct (Hk eq_refl). }
  replace (known_metric (_metric o)) with true
    by (symmetry; apply Hknown; eauto).
  cbn [negb].
  wp_step. eapply (results_attach o); [exact Hres|]. intros o1 Ho1.
  destruct (_moving_itk_mask o) as [|mty mbuf|mcls] eqn:Emoving;
    [| |done].
  all: wp_step; eapply (results_attach o); [exact Ho1|]; intros o2 Ho2.
  all: destruct (_fixed_itk_mask o) as [|fty fbuf|fcls] eqn:Efixed;
    [| |done].
  all: cbn [is_object orb].
  all: wp_step; apply wp_when; [by intros ->; wp_step|intros Emulti].
  all: rewrite Emulti.
  all: destruct (_initializer_type o) as [initializer_type|] eqn:Einit.
  all: wp_step; apply wp_emit; wp_step; wp_step.
  all: match goal with
       | |- context [Update ?r] => set (reg := r)
       end.
  all: assert (pipeline o = Some reg) as Hpipe
    by (unfold pipeline, initializer_of;
        rewrite Emodel, Eclass, Emoving, Efixed, Einit; reflexivity).
  all: destruct (Update reg) as [done_|e] eqn:EU;
    [|by exists reg; split; [exact Hpipe|]; rewrite EU].
  all: wp_step;
    eapply (results_bind_registration_transform_itk o); [exact Ho2|];
    intros o3 Ho3.
  all: wp_step; (eapply wp_emits; [exact Hsettings|]).
  all: wp_step;
    eapply (results_bind_registration_transform_sitk o); [exact Ho3|];
    intros o4 Ho4.
  all: (eapply wp_emits; [apply report_result_block|]).
  all: exists reg; (split; [exact Hpipe|]); rewrite EU.
  all: split; [done|]; split; [|exact Ho4].
  all: cbn [trace]; by rewrite <- !app_assoc.
Qed.

(** [run] in full: the four type guards, then [_run_v3], then the
    computational time, which is recorded only when [_run_v3] returns. *)
Lemma run_in_full o tr :
  wp run (λ res s',
    match run_rejection o with
    | Some e => res = Raise e ∧ trace s' = tr ∧ results_of o (self s')
    | None =>
        ∃ r,
          pipeline o = Some r
          ∧ match Update r with
            | Ok done_ =>
                res = Ok tt
                ∧ trace s'
                  = (tr ++ registration_Update r
                        :: report_settings o ++ report_result o done_)%list
                ∧ with_results o
                    (bound (Some (itk.GetTransform done_)))
                    (bound (Some (get_sitk_from_itk_transform
                                    (itk.GetTransform done_))))
                    (stop_timing start_timing) (self s')
            | Raise e =>
                res = Raise e
                ∧ trace s' = (tr ++ [registration_Update r])%list
                ∧ results_of o (self s')
            end
    end) (State o tr).
Proof.
  pose proof (results_of_refl o) as Hres.
  unfold run, run_rejection.
  wp_step. wp_step. cbv beta zeta. cbn [self trace].
  do 4 (wp_step; apply wp_when; [by intros ->; wp_step|intros ->]).
  wp_step. eapply wp_mono; [apply run_v3_in_full|].
  intros res [o' tr'] Hpost. cbn [self trace] in Hpost.
  destruct (rejection o) as [e|].
  - by destruct Hpost as (-> & -> & ?).
  - destruct Hpost as (r & Hpipe & Hpost).
    destruct (Update r) as [done_|e] eqn:EU.
    + destruct Hpost as (-> & -> & Ho').
      eapply (results_bind_computational_time o); [exact Ho'|].
      intros o'' Ho''. exists r. split; [exact Hpipe|]. by rewrite EU.
    + destruct Hpost as (-> & -> & Ho').
      exists r. split; [exact Hpipe|]. by rewrite EU.
Qed.

(** The outcome of [run] has one of three shapes. *)
Lemma run_cases o tr :
  let res := (run (State o tr)).1 in
  let s' := (run (State o tr)).2 in
  (∃ e, run_rejection o = Some e
        ∧ res = Raise e ∧ trace s' = tr ∧ results_of o (self s'))
  ∨ (∃ r e, run_rejection o = None ∧ pipeline o = Some r
            ∧ Update r = Raise e
            ∧ res = Raise e
            ∧ trace s' = (tr ++ [registration_Update r])%list
            ∧ results_of o (self s'))
  ∨ (∃ r done_, run_rejection o = None ∧ pipeline o = Some r
                ∧ Update r = Ok done_
                ∧ res = Ok tt
                ∧ trace s'
                  = (tr ++ registration_Update r
                        :: report_settings o ++ report_result o done_)%list
                ∧ with_results o
                    (bound (Some (itk.GetTransform done_)))
                    (bound (Some (get_sitk_from_itk_transform
                                    (itk.GetTransform done_))))
                    (stop_timing start_timing) (self s')).
Proof.
  intros res s'. pose proof (run_in_full o tr) as Hrun.
  unfold wp in Hrun. fold res s' in Hrun.
  destruct (run_rejection o) as [e|]; [left; by exists e|].
  destruct Hrun as (r & Hpipe & Hrun).
  destruct (Update r) as [done_|e] eqn:EU.
  - right; right. by exists r, done_.
  - right; left. by exists r, e.
Qed.

Lemma run_rejection_None o :
  run_rejection o = None →
  passes_type_checks o = true
  ∧ is_Some (transform_model (_registration_type o) (_dimension o)
               (_pixel_type o))
  ∧ _optimizer o = "RegularStepGradientDescent"
  ∧ _optimizer_scales o = None
  ∧ known_metric (_metric o) = true
  ∧ _use_multiresolution_framework o = false.
Proof.
  unfold run_rejection, rejection, passes_type_checks.
  destruct (itk.isinstance (_fixed_itk o) _); [|done].
  destruct (itk.isinstance (_moving_itk o) _); [|done].
  destruct (negb (itk.is_None (_fixed_itk_mask o))
            && negb (itk.isinstance (_fixed_itk_mask o) _)) eqn:Ef;
    [done|].
  destruct (negb (itk.is_None (_moving_itk_mask o))
            && negb (itk.isinstance (_moving_itk_mask o) _)) eqn:Em;
    [done|].
  destruct (transform_model _ _ _); [|done].
  case_bool_decide; [|done]. cbn [negb].
  destruct (_optimizer_scales o); [done|]. cbn [is_not_None].
  destruct (known_metric _); [|done]. cbn [negb].
  destruct (is_object _ || is_object _); [done|].
  destruct (_use_multiresolution_framework o); [done|].
  intros _. repeat split; eauto.
  destruct (itk.is_None (_fixed_itk_mask o)),
    (itk.isinstance (_fixed_itk_mask o) _),
    (itk.is_None (_moving_itk_mask o)),
    (itk.isinstance (_moving_itk_mask o) _); done.
Qed.

Lemma executed_report r o (done_ : itk.outcome itk_transform) :
  executed (registration_Update r
            :: report_settings o ++ report_result o done_) = [r].
Proof.
  unfold report_settings, report_result.
  by destruct (Z.eqb (_verbose o) 0), (_use_multiresolution_framework o).
Qed.

(** Whatever [run] executes is the pipeline of the instance. *)
Lemma run_executed_pipeline o tr r :
  r ∈ executed (trace (run (State o tr)).2) →
  r ∈ executed tr ∨ (pipeline o = Some r ∧ run_rejection o = None).
Proof.
  destruct (run_cases o tr)
    as [(e & Hrej & _ & Htr & _)
       |[(r' & e & Hrej & Hpipe & _ & _ & Htr & _)
        |(r' & done_ & Hrej & Hpipe & _ & _ & Htr & _)]];
    rewrite Htr; [by left| |].
  - rewrite executed_app.
    change (executed [registration_Update r']) with [r'].
    rewrite elem_of_app, list_elem_of_singleton.
    intros [?| ->]; [by left|by right].
  - rewrite executed_app, executed_report.
    rewrite elem_of_app, list_elem_of_singleton.
    intros [?| ->]; [by left|by right].
Qed.

Lemma getters_read_the_results o' tr' :
  (get_registration_transform_itk (State o' tr')
   = (match _registration_transform_itk o' with
      | bound (Some transform) => Ok transform
      | bound None => Raise (UnboundLocalError "Execute 'run' first.")
      | unbound =>
          Raise (AttributeError
            "'WrapItkRegistration' object has no attribute '_registration_transform_itk'")
      end, State o' tr'))
  ∧ (get_registration_transform_sitk (State o' tr')
     = (match _registration_transform_sitk o' with
        | bound (Some transform) => Ok transform
        | bound None => Raise (UnboundLocalError "Execute 'run' first.")
        | unbound =>
            Raise (AttributeError
              "'WrapItkRegistration' object has no attribute '_registration_transform_sitk'")
        end, State o' tr'))
  ∧ get_computational_time (State o' tr')
    = (Ok (_computational_time o'), State o' tr').
Proof.
  split; [|split; [|done]].
  - unfold get_registration_transform_itk, getattr, mbind, py_mbind,
      py_bind. cbn.
    by destruct (_registration_transform_itk o') as [|[?|]].
  - unfold get_registration_transform_sitk, getattr, mbind, py_mbind,
      py_bind. cbn.
    by destruct (_registration_transform_sitk o') as [|[?|]].
Qed.

(** X17.  After a run that returned, both getters return: the ITK
    transform is the one of the registration that was executed, the
    SimpleITK transform is its conversion by
    [sitkh.get_sitk_from_itk_transform], and the computational time is
    the one measured from the start of the run.  Exactly one
    registration has been executed, and the parameters of the instance
    are as before. *)
Theorem getters_after_a_run o tr s' :
  run (State o tr) = (Ok tt, s') →
  ∃ r done_,
    executed (trace s') = (executed tr ++ [r])%list
    ∧ Update r = Ok done_
    ∧ get_registration_transform_itk s'
      = (Ok (itk.GetTransform done_), s')
    ∧ get_registration_transform_sitk s'
      = (Ok (get_sitk_from_itk_transform (itk.GetTransform done_)), s')
    ∧ get_computational_time s' = (Ok (stop_timing start_timing), s')
    ∧ same_parameters o (self s').
Proof.
  intros Erun.
  destruct (run_cases o tr)
    as [(e & _ & Hres & _)
       |[(r & e & _ & _ & _ & Hres & _)
        |(r & done_ & _ & _ & EU & _ & Htr & Hp & Hi & Hs & Ht)]];
    rewrite Erun in *; cbn [fst snd] in *; [done..|].
  exists r, done_. destruct s' as [o' tr']. cbn [self trace] in *.
  destruct (getters_read_the_results o' tr') as (Gi & Gs & Gt).
  rewrite Gi, Gs, Gt, Hi, Hs, Ht, Htr.
  split; [by rewrite executed_app, executed_report|].
  split; [exact EU|]. do 3 (split; [reflexivity|]). exact Hp.
Qed.

(** X18.  A run that raises, be it at one of its checks or in the
    registration itself, leaves the results of the instance as they were:
    the two transform getters and [get_computational_time] answer as they
    did before the run, and the parameters are unchanged.  So a failed
    run does not lose the results of an earlier one. *)
Theorem failed_run_keeps_the_results o tr e s' :
  run (State o tr) = (Raise e, s') →
  (get_registration_transform_itk s').1
  = (get_registration_transform_itk (State o tr)).1
  ∧ (get_registration_transform_sitk s').1
    = (get_registration_transform_sitk (State o tr)).1
  ∧ (get_computational_time s').1
    = (get_computational_time (State o tr)).1
  ∧ same_parameters o (self s').
Proof.
  intros Erun.
  assert (results_of o (self s')) as (Hp & Hi & Hs & Ht).
  { destruct (run_cases o tr)
      as [(e' & _ & _ & _ & Hres)
         |[(r & e' & _ & _ & _ & _ & _ & Hres)
          |(r & done_ & _ & _ & _ & Hres & _)]];
      rewrite Erun in *; cbn [fst snd] in *; done. }
  destruct s' as [o' tr']. cbn [self] in *.
  destruct (getters_read_the_results o' tr') as (Gi & Gs & Gt).
  destruct (getters_read_the_results o tr) as (Gi0 & Gs0 & Gt0).
  rewrite Gi, Gs, Gt, Gi0, Gs0, Gt0, Hi, Hs, Ht. done.
Qed.

(** X19.  What a run prints.  Everything a run prints comes after the
    registration has been executed: a run that raises prints nothing,
    even when verbose.  A run that returns prints nothing when [verbose]
    is 0, and otherwise the settings and the summary of the result.  The
    line with the shrink factors and smoothing sigmas is never printed by
    [run]. *)
Theorem report_of_a_run o tr :
  ∃ events,
    trace (run (State o tr)).2 = (tr ++ events)%list
    ∧ (∀ text, print text ∉ events)
    ∧ (∀ e, (run (State o tr)).1 = Raise e →
            events = [] ∨ ∃ r, events = [registration_Update r])
    ∧ ((run (State o tr)).1 = Ok tt →
       ∃ r done_,
         Update r = Ok done_
         ∧ events
           = if Z.eqb (_verbose o) 0 then [registration_Update r]
             else
               [registration_Update r;
                print_info "Registration: WrapITK" true;
                print_info ("Transform Model: " +:+ _registration_type o)
                  true;
                print_info ("Interpolator: " +:+ _interpolator o) true;
                print_info ("Metric: " +:+ _metric o) true;
                print_info ("CenteredTransformInitializer: " +:+
                            str_optional (_initializer_type o)) true;
                print_info ("Optimizer: " +:+ _optimizer o) true;
                print_info "Use Multiresolution Framework: False" true;
                print_info ("Use Fixed Mask: " +:+
                            str_bool
                              (negb (itk.is_None (_fixed_itk_mask o))))
                  true;
                print_info ("Use Moving Mask: " +:+
                            str_bool
                              (negb (itk.is_None (_moving_itk_mask o))))
                  true;
                print_info "Summary Registration Method Result:" true;
                print_info (tab +:+ "Optimizer's stopping condition: " +:+
                            itk.GetStopConditionDescription done_) true;
                print_info (tab +:+ "Final metric value: " +:+
                            itk.GetValue done_) true;
                print_sitk_transform
                  (get_sitk_from_itk_transform (itk.GetTransform done_))]).
Proof.
  destruct (run_cases o tr)
    as [(e & _ & Hres & Htr & _)
       |[(r & e & _ & _ & _ & Hres & Htr & _)
        |(r & done_ & Hrej & _ & EU & Hres & Htr & _)]].
  - exists []. rewrite app_nil_r. split; [exact Htr|].
    split; [intros text; apply not_elem_of_nil|].
    split; [by left|]. by rewrite Hres.
  - exists [registration_Update r]. split; [exact Htr|].
    split; [intros text; rewrite list_elem_of_singleton; discriminate|].
    split; [right; by exists r|]. by rewrite Hres.
  - destruct (run_rejection_None o Hrej) as (_ & _ & _ & _ & _ & Emulti).
    eexists. split; [exact Htr|]. split; [|split].
    + intros text. unfold report_settings, report_result. rewrite Emulti.
      destruct (Z.eqb (_verbose o) 0); cbn [app];
        rewrite ?elem_of_cons, elem_of_nil; intuition discriminate.
    + intros e. by rewrite Hres.
    + intros _. exists r, done_. split; [exact EU|].
      unfold report_settings, report_result. rewrite Emulti.
      destruct (Z.eqb (_verbose o) 0); reflexivity.
Qed.

(** X20.  The multi-resolution schedule has no effect on a run.  Two
    instances that differ only in their shrink factors and smoothing
    sigmas give the same result, the same executed pipeline and the same
    output; whatever schedule is given, [run] behaves as for any other. *)
Theorem schedule_has_no_effect o (shrink_factors smoothing_sigmas : list Z)
    tr :
  let o' := with_schedule shrink_factors smoothing_sigmas o in
  _shrink_factors o' = shrink_factors
  ∧ _smoothing_sigmas o' = smoothing_sigmas
  ∧ (run (State o' tr)).1 = (run (State o tr)).1
  ∧ trace (run (State o' tr)).2 = trace (run (State o tr)).2.
Proof.
  intros o'.
  assert (run_rejection o' = run_rejection o ∧ pipeline o' = pipeline o
          ∧ (_use_multiresolution_framework o = false →
             report_settings o' = report_settings o)
          ∧ (∀ done_, report_result o' done_ = report_result o done_))
    as (Erej & Epipe & Esettings & Eresult).
  { subst o'. destruct o. cbn. repeat split.
    intros Emulti. unfold report_settings. cbn. by rewrite Emulti. }
  split; [by destruct o|]. split; [by destruct o|].
  destruct (run_cases o tr)
    as [(e & Hrej & Hres & Htr & _)
       |[(r & e & Hrej & Hpipe & EU & Hres & Htr & _)
        |(r & done_ & Hrej & Hpipe & EU & Hres & Htr & _)]];
    destruct (run_cases o' tr)
    as [(e' & Hrej' & Hres' & Htr' & _)
       |[(r' & e' & Hrej' & Hpipe' & EU' & Hres' & Htr' & _)
        |(r' & done' & Hrej' & Hpipe' & EU' & Hres' & Htr' & _)]];
    rewrite Hres, Hres', Htr, Htr'; rewrite Erej, Hrej in Hrej';
    try discriminate Hrej'.
  - by injection Hrej' as <-.
  - rewrite Epipe, Hpipe in Hpipe'. injection Hpipe' as <-.
    rewrite EU in EU'. by injection EU' as <-.
  - rewrite Epipe, Hpipe in Hpipe'. injection Hpipe' as <-.
    rewrite EU in EU'. discriminate EU'.
  - rewrite Epipe, Hpipe in Hpipe'. injection Hpipe' as <-.
    rewrite EU in EU'. discriminate EU'.
  - rewrite Epipe, Hpipe in Hpipe'. injection Hpipe' as <-.
    rewrite EU in EU'. injection EU' as <-.
    destruct (run_rejection_None o Hrej) as (_ & _ & _ & _ & _ & Emulti).
    by rewrite (Esettings Emulti), Eresult.
Qed.

(** X21.  The interpolator of the pipeline.  When the constructor was
    given an interpolator object
    ([itk_oriented_gaussian_interpolate_image_filter]), every pipeline
    [run] executes uses that object and the [interpolator] string plays
    no part; otherwise the interpolator is a new object of the class
    [itk.<interpolator>InterpolateImageFunction] over the image type and
    the pixel type.  In both cases the moving image is set as its input
    image exactly when the metric is 'MattesMutualInformation'. *)
Theorem interpolator_of_the_pipeline o tr r :
  r ∈ executed (trace (run (State o tr)).2) →
  r ∈ executed tr ∨
  ∃ i,
    itk.Interpolator_ r = Some i
    ∧ (∀ given,
         _itk_oriented_gaussian_interpolate_image_filter o = Some given →
         itk.interpolator_class i = itk.interpolator_class given
         ∧ (_metric o ≠ "MattesMutualInformation" → i = given))
    ∧ (_itk_oriented_gaussian_interpolate_image_filter o = None →
       itk.interpolator_class i
       = itk.Template (_interpolator o +:+ "InterpolateImageFunction")
           [itk.of_image (_image_type o); itk.of_pixel (_pixel_type o)]
       ∧ (_metric o ≠ "MattesMutualInformation" → itk.InputImage i = None))
    ∧ (_metric o = "MattesMutualInformation" →
       itk.InputImage i = Some (_moving_itk o)).
Proof.
  intros Hr.
  destruct (run_executed_pipeline o tr r Hr) as [?|[Hpipe _]];
    [by left|right].
  unfold pipeline in Hpipe.
  destruct (transform_model _ _ _) as [c|]; [|done].
  destruct (metric_class_of o) as [m|]; [|done].
  injection Hpipe as <-. exists (interpolator_of o).
  split; [done|]. unfold interpolator_of.
  split; [|split].
  - intros given ->. by case_bool_decide.
  - intros ->. by case_bool_decide.
  - intros ->. by rewrite bool_decide_eq_true_2.
Qed.

(** X22.  The initial transform of the pipeline.  Without an initializer
    type the initial transform is a new transform of the registration
    type.  With one, it takes matrix, translation and center from a
    CenteredTransformInitializer run on the fixed and the moving image:
    by moments when the initializer type is 'MOMENTS', by geometry for
    every other value; and the transform it initializes is
    CenteredRigid2DTransform when the dimension is 2 and
    VersorRigid3DTransform for every other dimension, whatever the
    registration type.  The same transform is given to the registration
    as its transform and as its initial parameters. *)
Theorem initial_transform_of_the_pipeline o tr r :
  r ∈ executed (trace (run (State o tr)).2) →
  r ∈ executed tr ∨
  ∃ c initial,
    transform_model (_registration_type o) (_dimension o) (_pixel_type o)
    = Some c
    ∧ itk.Transform_ r = Some (itk.Transform c initial)
    ∧ itk.InitialTransformParameters r = Some (itk.Transform c initial)
    ∧ (_initializer_type o = None ↔ initial = None)
    ∧ (∀ initializer_type,
         _initializer_type o = Some initializer_type →
         ∃ initializer,
           initial = Some initializer
           ∧ itk.Moments initializer
             = bool_decide (initializer_type = "MOMENTS")
           ∧ itk.initializer_FixedImage initializer = _fixed_itk o
           ∧ itk.initializer_MovingImage initializer = _moving_itk o
           ∧ itk.initialized_transform initializer
             = itk.Template
                 (if bool_decide (_dimension o = 2)
                  then "CenteredRigid2DTransform"
                  else "VersorRigid3DTransform")
                 [itk.of_pixel (_pixel_type o)]).
Proof.
  intros Hr.
  destruct (run_executed_pipeline o tr r Hr) as [?|[Hpipe _]];
    [by left|right].
  unfold pipeline in Hpipe.
  destruct (transform_model _ _ _) as [c|]; [|done].
  destruct (metric_class_of o) as [m|]; [|done].
  injection Hpipe as <-. exists c, (initializer_of o).
  split; [done|]. split; [done|]. split; [done|].
  unfold initializer_of.
  destruct (_initializer_type o) as [ty|]; split; try done.
  intros ? [= <-]. eexists. split; [reflexivity|].
  cbn [itk.Moments itk.initializer_FixedImage itk.initializer_MovingImage
       itk.initialized_transform].
  do 3 (split; [reflexivity|]). by case_bool_decide.
Qed.


(** X24.  A mask has to be an image of the type of the images.  When the
    fixed and the moving image pass their guards, a fixed mask that is
    neither None nor an [itk.Image] of pixel type [pixel_type] and
    dimension [dimension] makes [run] raise ValueError('Fixed image mask
    must be of type itk.Image'); with an acceptable fixed mask, such a
    moving mask makes it raise ValueError('Moving image mask must be of
    type itk.Image').  This holds for a mask that is an image of another
    pixel type, unsigned char included.  Nothing is executed. *)
Theorem mask_must_have_the_image_type o tr :
  itk.isinstance (_fixed_itk o) (_image_type o) = true →
  itk.isinstance (_moving_itk o) (_image_type o) = true →
  let rejected (mask : itk.value) :=
    mask ≠ itk.None_
    ∧ ∀ buffer, mask ≠ itk.image (_image_type o) buffer in
  let accepted (mask : itk.value) :=
    mask = itk.None_ ∨ ∃ buffer, mask = itk.image (_image_type o) buffer in
  (rejected (_fixed_itk_mask o) →
     ∃ s',
       run (State o tr)
       = (Raise (ValueError "Fixed image mask must be of type itk.Image"),
          s')
       ∧ trace s' = tr)
  ∧ (accepted (_fixed_itk_mask o) → rejected (_moving_itk_mask o) →
     ∃ s',
       run (State o tr)
       = (Raise (ValueError "Moving image mask must be of type itk.Image"),
          s')
       ∧ trace s' = tr)
  ∧ (∀ pixel buffer,
       pixel ≠ _pixel_type o →
       _image_type o = itk.Image (_pixel_type o) (_dimension o) →
       rejected (itk.image (itk.Image pixel (_dimension o)) buffer)).
Proof.
  intros Hfixed Hmoving rejected accepted.
  assert (∀ mask, rejected mask →
    negb (itk.is_None mask) && negb (itk.isinstance mask (_image_type o))
    = true) as Hrejected.
  { intros mask [Hnone Himage]. destruct mask as [|ty buffer|cls];
      [done| |done]. cbn. case_bool_decide as Ety; [|done].
    subst ty. by destruct (Himage buffer). }
  assert (∀ mask, accepted mask →
    negb (itk.is_None mask) && negb (itk.isinstance mask (_image_type o))
    = false) as Haccepted.
  { intros mask [->|[buffer ->]]; [done|]. cbn.
    by rewrite bool_decide_eq_true_2. }
  split; [|split].
  - intros Hmask. apply run_raises. unfold run_rejection.
    by rewrite Hfixed, Hmoving, (Hrejected _ Hmask).
  - intros Hfixed_mask Hmask. apply run_raises. unfold run_rejection.
    by rewrite Hfixed, Hmoving, (Haccepted _ Hfixed_mask),
      (Hrejected _ Hmask).
  - intros pixel buffer Hpixel Htype. split; [done|].
    intros buffer'. rewrite Htype. congruence.
Qed.
End WrapItkRegistration_results.

(** ** [_run_v4] *)

Section WrapItkRegistration_v4_results.
Context `{I : ItkImports} `{!ItkImports_v4 I}.
Import WrapItkRegistration WrapItkRegistration_v4.

Lemma wp_shared {A} (m : py state A) (Q : result A → state_v4 → Prop)
    o tr :
  wp m (λ r s', Q r (State_v4 (self s') (tr ++ (as_in_v3 <$> trace s'))))
    (State o []) →
  wp (shared m) Q (State_v4 o tr).
Proof. unfold wp, shared. cbn. by destruct (m _) as [r s']. Qed.

Lemma wp_emit_v4 e (Q : result unit → state_v4 → Prop) o tr :
  Q (Ok tt) (State_v4 o (tr ++ [e])) → wp (emit_v4 e) Q (State_v4 o tr).
Proof. done. Qed.

Lemma executed_v4_app tr1 tr2 :
  executed_v4 (tr1 ++ tr2) = (executed_v4 tr1 ++ executed_v4 tr2)%list.
Proof. apply omap_app. Qed.

Lemma executed_v4_as_in_v3 (events : list event) :
  executed_v4 (as_in_v3 <$> events) = [].
Proof. by induction events. Qed.

Lemma wp_transform_type_v4 (rt : string) (d : Z) (pt : string)
    (Q : result itk.class → state_v4 → Prop) s :
  match transform_model_v4 rt d pt with
  | Some c => Q (Ok c) s
  | None =>
      Q (Raise (ValueError ("Registration type '" +:+ rt +:+ "' not known.")))
        s
  end →
  wp (if bool_decide (rt = "Rigid") then
       mret (itk.Template ("Euler" +:+ pretty d +:+ "DTransform")
               [itk.of_pixel pt])
     else if bool_decide (rt = "Affine") then
       mret (itk.Template "AffineTransform" [itk.of_pixel pt; itk.of_dim d])
     else
       raise (ValueError ("Registration type '" +:+ rt +:+ "' not known.")))
    Q s.
Proof.
  unfold transform_model_v4. by repeat case_bool_decide.
Qed.

Lemma results_attach_v4 o i s t (mask : itk.value)
    (set : itk.mask_spatial_object → itk_v4.metric → itk_v4.metric)
    (metric : itk_v4.metric) (Q : result itk_v4.metric → state_v4 → Prop)
    o0 tr :
  with_results o i s t o0 →
  (∀ o', with_results o i s t o' →
     match mask with
     | itk.object _ =>
         Q (Raise (RuntimeError "CastImageFilter: input is not an image"))
           (State_v4 o' tr)
     | _ =>
         Q (Ok (from_option (λ m, set m metric) metric (mask_object o mask)))
           (State_v4 o' tr)
     end) →
  wp (if negb (itk.is_None mask) then
        v ← shared (cast_mask mask);
        mret (set (itk.SetImage v
                     (itk.ImageMaskSpatialObject (_dimension o) None))
                metric)
      else mret metric) Q (State_v4 o0 tr).
Proof.
  intros Hres HQ. destruct mask as [|ty buffer|cls]; simpl.
  - wp_step. by apply (HQ o0).
  - wp_step. apply wp_shared.
    apply (results_cast_mask o i s t); [done|].
    intros o' Ho'. cbn [self trace fmap list_fmap]. rewrite app_nil_r.
    wp_step. by apply (HQ o').
  - wp_step. apply wp_shared.
    apply (results_cast_mask o i s t); [done|].
    intros o' Ho'. cbn [self trace fmap list_fmap]. rewrite app_nil_r.
    by apply (HQ o').
Qed.

(** [_run_v4] in full: where it stops and with what error, or which
    pipeline it executes, what it prints and what it binds. *)
Lemma run_v4_in_full o tr :
  wp _run_v4 (λ res s',
    match rejection_v4 o with
    | Some e =>
        res = Raise e ∧ trace_v4 s' = tr ∧ results_of o (self_v4 s')
    | None =>
        ∃ r,
          pipeline_v4 o = Some r
          ∧ match Update_v4 r with
            | Ok transform =>
                res = Ok tt
                ∧ trace_v4 s'
                  = (tr ++ registration_v4_Update r
                        :: (as_in_v3 <$> report_settings o
                              ++ report_result_v4 o transform))%list
                ∧ with_results o
                    (bound (Some transform))
                    (bound (Some (get_sitk_from_itk_transform transform)))
                    (_computational_time o) (self_v4 s')
            | Raise e =>
                res = Raise e
                ∧ trace_v4 s' = (tr ++ [registration_v4_Update r])%list
                ∧ results_of o (self_v4 s')
            end
    end) (State_v4 o tr).
Proof.
  pose proof (results_of_refl o) as Hres.
  pose proof (report_settings_block o) as Hsettings.
  unfold _run_v4, rejection_v4.
  wp_step. wp_step. cbv beta zeta. cbn [self_v4 trace_v4].
  match type of Hsettings with
  | ∀ o0 tr0, ?block _ = _ => set (settings := block) in *
  end.
  wp_step. apply wp_transform_type_v4.
  destruct (transform_model_v4 _ _ _) as [transform_type|] eqn:Emodel;
    [|done].
  wp_step. eapply (results_attach_v4 o); [exact Hres|]. intros o1 Ho1.
  destruct (_moving_itk_mask o) as [|mty mbuf|mcls] eqn:Emoving;
    [| |done].
  all: wp_step; eapply (results_attach_v4 o); [exact Ho1|]; intros o2 Ho2.
  all: destruct (_fixed_itk_mask o) as [|fty fbuf|fcls] eqn:Efixed;
    [| |done].
  all: cbn [is_object orb].
  all: destruct (_initializer_type o) as [initializer_type|] eqn:Einit.
  all: wp_step; apply wp_emit_v4; wp_step; wp_step.
  all: match goal with
       | |- context [Update_v4 ?r] => set (reg := r)
       end.
  all: assert (pipeline_v4 o = Some reg) as Hpipe
    by (unfold pipeline_v4, initializer_of;
        rewrite Emodel, Emoving, Efixed, Einit; reflexivity).
  all: destruct (Update_v4 reg) as [transform|e] eqn:EU;
    [|by exists reg; split; [exact Hpipe|]; rewrite EU].
  all: wp_step; apply wp_shared;
    eapply (results_bind_registration_transform_itk o); [exact Ho2|];
    intros o3 Ho3; cbn [self trace fmap list_fmap].
  all: wp_step; apply wp_shared; (eapply wp_emits; [exact Hsettings|]);
    cbn [self trace].
  all: wp_step; apply wp_shared;
    eapply (results_bind_registration_transform_sitk o); [exact Ho3|];
    intros o4 Ho4; cbn [self trace fmap list_fmap].
  all: exists reg; (split; [exact Hpipe|]); rewrite EU.
  all: unfold report_result_v4.
  all: destruct (Z.eqb (_verbose o) 0); cbn [negb when].
  all: try (apply wp_shared; apply wp_emit; cbn [self trace]).
  all: try wp_step.
  all: split; [done|]; split; [|exact Ho4].
  all: cbn [trace_v4 app]; rewrite ?app_nil_r, ?fmap_app, <- ?app_assoc;
    reflexivity.
Qed.

Lemma with_settings_v4 metric optimizer optimizer_scales multiresolution
    shrink_factors smoothing_sigmas given o :
  let o' := with_settings metric optimizer optimizer_scales multiresolution
              shrink_factors smoothing_sigmas given o in
  rejection_v4 o' = rejection_v4 o ∧ pipeline_v4 o' = pipeline_v4 o.
Proof. by destruct o. Qed.

(** X25. [_run_v4] has a transform for 'Rigid' and for 'Affine' only.  For
    any other registration type, 'Similarity' included, it raises
    ValueError("Registration type '...' not known.") at once: nothing is
    executed or printed and the instance is as it was. *)
Theorem run_v4_knows_rigid_and_affine o tr :
  _registration_type o ≠ "Rigid" →
  _registration_type o ≠ "Affine" →
  _run_v4 (State_v4 o tr)
  = (Raise (ValueError ("Registration type '" +:+ _registration_type o
                        +:+ "' not known.")),
     State_v4 o tr).
Proof.
  intros Hrigid Haffine. apply wp_run_to. unfold _run_v4.
  wp_step. wp_step. cbv beta zeta. cbn [self_v4].
  wp_step. rewrite !bool_decide_false by done. by wp_step.
Qed.

End WrapItkRegistration_v4_results.
(** ** The theorems at the reference instances *)

#[local] Existing Instance reference_niftyreg.
#[local] Existing Instance reference_itk.




Lemma temporary_files_before_registration_witness :
  paths_bound "RegAladin" aladin_instance
  ∧ ∃ fs1,
      NiftyReg._run (State aladin_instance stale_files [])
      = (Ok tt,
         State aladin_instance fs1
           [create_directory "/tmp/simplereg/RegAladin" true;
            WriteImage fixed_3d "/tmp/simplereg/RegAladin/fixed.nii.gz";
            WriteImage moving_3d "/tmp/simplereg/RegAladin/moving.nii.gz";
            WriteImage mask_3d "/tmp/simplereg/RegAladin/fixed_mask.nii.gz"])
      ∧ fs1 !! "/tmp/simplereg/RegAladin/fixed.nii.gz" = Some (Nifti fixed_3d)
      ∧ fs1 !! "/tmp/simplereg/RegAladin/warped_moving.nii.gz" = None.
Proof.
  assert (paths_bound "RegAladin" aladin_instance) as Hpaths
    by (repeat split).
  split; [exact Hpaths|].
  destruct (@temporary_files_before_registration Z Z_scalar
              reference_niftyreg "RegAladin" aladin_instance stale_files []
              0 fixed_3d moving_3d Hpaths eq_refl eq_refl)
    as [(fs1 & Erun & Hfixed & _ & _ & _ & Hclean) _].
  exists fs1. split; [exact Erun|]. split; [exact Hfixed|].
  apply Hclean; [reflexivity|].
  apply (bool_decide_unpack _). vm_compute. exact I.
Defined.


Lemma transformed_fixed_only_for_RegAladin_witness :
  let s := (RegAladin._run 0 (State aladin_instance stale_files [])).2 in
  get_registration_transform_sitk (self s)
  = Ok (AffineTransform [1; 2; -3; 4; 5; -6; -7; -8; 9] [-10; -20; 30])
  ∧ RegAladin._get_transformed_fixed_sitk s = (Ok fixed_3d, s).
Proof.
  intros s.
  assert (get_registration_transform_sitk (self s)
          = Ok (AffineTransform [1; 2; -3; 4; 5; -6; -7; -8; 9]
                  [-10; -20; 30])) as Htransform
    by (vm_compute; reflexivity).
  split; [exact Htransform|].
  destruct (transformed_fixed_only_for_RegAladin s) as (_ & _ & Haladin).
  apply (Haladin _ fixed_3d Htransform). vm_compute. reflexivity.
Defined.


#[local] Existing Instance reference_resample.

Lemma run_without_images_witness :
  WrapperRegistration._fixed_sitk (super default_aladin) = None
  ∧ ∃ e fs',
      RegAladin._run 0 (State default_aladin other_files [])
      = (Raise e,
         State default_aladin fs'
           [create_directory "/tmp/simplereg/RegAladin" true])
      ∧ fs' !! "/tmp/simplereg/RegAladin/warped_moving.nii.gz" = None.
Proof.
  split; [reflexivity|].
  destruct (@run_without_images Z Z_scalar reference_niftyreg default_aladin
              other_files [] 0 (or_introl eq_refl))
    as (e & written & fs' & Erun & _ & Hwritten & _ & Hgone).
  exists e, fs'. subst written. split; [exact Erun|].
  apply Hgone; [reflexivity|discriminate].
Defined.

Lemma second_run_repeats_the_first_witness :
  paths_bound "RegAladin" aladin_instance
  ∧ ∃ s1 res s2 rest1 rest2,
      let calls :=
        [create_directory "/tmp/simplereg/RegAladin" true;
         WriteImage fixed_3d "/tmp/simplereg/RegAladin/fixed.nii.gz";
         WriteImage moving_3d "/tmp/simplereg/RegAladin/moving.nii.gz";
         WriteImage mask_3d "/tmp/simplereg/RegAladin/fixed_mask.nii.gz";
         nreg_run
           (aladin_inputs aladin_instance
              "/tmp/simplereg/RegAladin/registration_transform.txt")] in
      RegAladin._run 0 (State aladin_instance stale_files []) = (Ok tt, s1)
      ∧ trace s1 = (calls ++ rest1)%list
      ∧ RegAladin._run 0 s1 = (res, s2)
      ∧ trace s2 = (trace s1 ++ calls ++ rest2)%list.
Proof.
  assert (paths_bound "RegAladin" aladin_instance) as Hpaths
    by (repeat split).
  split; [exact Hpaths|].
  destruct (@second_run_repeats_the_first Z Z_scalar reference_niftyreg
              "RegAladin" aladin_instance stale_files [] 0 fixed_3d moving_3d
              (RegAladin._run 0 (State aladin_instance stale_files [])).2
              Hpaths eq_refl eq_refl) as [Haladin _].
  destruct (Haladin "/tmp/simplereg/RegAladin/registration_transform.txt"
              eq_refl)
    as (res & s2 & rest1 & rest2 & Htr1 & Erun2 & Htr2 & _).
  { vm_compute. reflexivity. }
  eexists _, res, s2, rest1, rest2.
  split; [vm_compute; reflexivity|].
  split; [exact Htr1|]. split; [exact Erun2|exact Htr2].
Defined.

Lemma options_reach_the_binary_witness :
  WrapperRegistration._fixed_sitk (super aladin_instance) = Some fixed_3d
  ∧ ∃ res s' nreg,
      RegAladin._run 0
        (inherited (WrapperRegistration.set_options "-rigOnly")
           (State aladin_instance stale_files [])).2
      = (res, s')
      ∧ binary_runs (trace s') = [nreg]
      ∧ args nreg = Some "-rigOnly"
      ∧ inherited WrapperRegistration.get_options s' = (Ok "-rigOnly", s').
Proof.
  split; [reflexivity|].
  destruct (@options_reach_the_binary Z Z_scalar reference_niftyreg
              aladin_instance stale_files [] 0 "-rigOnly" fixed_3d moving_3d
              eq_refl eq_refl) as [Haladin _].
  destruct (Haladin "/tmp/simplereg/RegAladin/registration_transform.txt"
              eq_refl) as (res & s' & nreg & Erun & Hruns & _ & Hargs & Hget).
  exists res, s', nreg.
  split; [exact Erun|]. split; [exact Hruns|]. split; [exact Hargs|exact Hget].
Defined.

Lemma failed_run_and_the_results_witness :
  WrapperRegistration._fixed_sitk (super aladin_instance) = Some fixed_3d
  ∧ WrapperRegistration._moving_sitk (super aladin_instance) = Some moving_3d
  ∧ ∃ e s',
      @RegAladin._run Z Z_scalar niftyreg_without_transform 0
        (State aladin_instance stale_files [])
      = (Raise e, s')
      ∧ _warped_moving_sitk (self s') = bound moving_3d
      ∧ _registration_transform_sitk (self s') = unbound.
Proof.
  split; [reflexivity|]. split; [reflexivity|].
  destruct (@failed_run_and_the_results Z Z_scalar niftyreg_without_transform
              aladin_instance stale_files [] 0 fixed_3d moving_3d
              eq_refl eq_refl) as [Haladin _].
  destruct (Haladin "/tmp/simplereg/RegAladin/registration_transform.txt"
              eq_refl) as [_ Hmissing].
  destruct (Hmissing
              (<["/tmp/simplereg/RegAladin/warped_moving.nii.gz"
                   := Nifti moving_3d]>
                 (prepared aladin_instance fixed_3d moving_3d stale_files))
              moving_3d)
    as (e & s' & Erun & _ & Hwarped & Htransform).
  - vm_compute. reflexivity.
  - vm_compute. reflexivity.
  - vm_compute. reflexivity.
  - exists e, s'. split; [exact Erun|]. split; [exact Hwarped|exact Htransform].
Defined.








Lemma getters_after_a_run_witness :
  ∃ s' done_,
    WrapItkRegistration.run (WrapItkRegistration.State masked_instance [])
    = (Ok tt, s')
    ∧ WrapItkRegistration.get_registration_transform_itk s'
      = (Ok (itk.GetTransform done_), s')
    ∧ WrapItkRegistration.get_registration_transform_sitk s'
      = (Ok (get_sitk_from_itk_transform (itk.GetTransform done_)), s')
    ∧ WrapItkRegistration.get_computational_time s' = (Ok 1, s').
Proof.
  destruct (@getters_after_a_run reference_itk masked_instance []
              (WrapItkRegistration.run
                 (WrapItkRegistration.State masked_instance [])).2)
    as (r & done_ & _ & _ & Gi & Gs & Gt & _).
  { vm_compute. reflexivity. }
  eexists _, done_. split; [vm_compute; reflexivity|].
  split; [exact Gi|]. split; [exact Gs|exact Gt].
Defined.

Lemma failed_run_keeps_the_results_witness :
  ∃ e s2,
    WrapItkRegistration.run
      (WrapItkRegistration.State uc_mask_instance []) = (Raise e, s2)
    ∧ (WrapItkRegistration.get_registration_transform_itk s2).1
      = Raise (UnboundLocalError "Execute 'run' first.")
    ∧ (WrapItkRegistration.get_computational_time s2).1 = Ok 0.
Proof.
  destruct (@failed_run_keeps_the_results reference_itk uc_mask_instance []
              (ValueError "Fixed image mask must be of type itk.Image")
              (WrapItkRegistration.run
                 (WrapItkRegistration.State uc_mask_instance [])).2)
    as (Gi & _ & Gt & _).
  { vm_compute. reflexivity. }
  exists (ValueError "Fixed image mask must be of type itk.Image"),
    (WrapItkRegistration.run
       (WrapItkRegistration.State uc_mask_instance [])).2.
  split; [vm_compute; reflexivity|].
  split; [rewrite Gi; reflexivity|rewrite Gt; reflexivity].
Defined.

Lemma interpolator_of_the_pipeline_witness :
  ∃ r i,
    r ∈ executed
          (WrapItkRegistration.trace
             (WrapItkRegistration.run
                (WrapItkRegistration.State gaussian_instance [])).2)
    ∧ itk.Interpolator_ r = Some i
    ∧ itk.interpolator_class i
      = itk.Template "OrientedGaussianInterpolateImageFunction"
          [itk.of_image (itk.Image "D" 3); itk.of_pixel "D"]
    ∧ itk.InputImage i = Some (itk_image_D3 2).
Proof.
  assert (∃ r, executed
                 (WrapItkRegistration.trace
                    (WrapItkRegistration.run
                       (WrapItkRegistration.State gaussian_instance [])).2)
               = [r]) as [r Hr] by (eexists; vm_compute; reflexivity).
  assert (r ∈ executed
                (WrapItkRegistration.trace
                   (WrapItkRegistration.run
                      (WrapItkRegistration.State gaussian_instance [])).2))
    as Hin by (rewrite Hr; apply list_elem_of_singleton; reflexivity).
  destruct (@interpolator_of_the_pipeline reference_itk gaussian_instance []
              r Hin) as [Hold|(i & Hi & Hgiven & _ & Hmattes)].
  { by apply elem_of_nil in Hold. }
  exists r, i. split; [exact Hin|]. split; [exact Hi|].
  split; [|by apply Hmattes].
  by destruct (Hgiven _ eq_refl) as [-> _].
Defined.

Lemma initial_transform_of_the_pipeline_witness :
  ∃ r c initializer,
    r ∈ executed
          (WrapItkRegistration.trace
             (WrapItkRegistration.run
                (WrapItkRegistration.State gaussian_instance [])).2)
    ∧ itk.Transform_ r = Some (itk.Transform c (Some initializer))
    ∧ c = itk.Template "Similarity3DTransform" [itk.of_pixel "D"]
    ∧ itk.Moments initializer = false
    ∧ itk.initialized_transform initializer
      = itk.Template "VersorRigid3DTransform" [itk.of_pixel "D"].
Proof.
  assert (∃ r, executed
                 (WrapItkRegistration.trace
                    (WrapItkRegistration.run
                       (WrapItkRegistration.State gaussian_instance [])).2)
               = [r]) as [r Hr] by (eexists; vm_compute; reflexivity).
  assert (r ∈ executed
                (WrapItkRegistration.trace
                   (WrapItkRegistration.run
                      (WrapItkRegistration.State gaussian_instance [])).2))
    as Hin by (rewrite Hr; apply list_elem_of_singleton; reflexivity).
  destruct (@initial_transform_of_the_pipeline reference_itk
              gaussian_instance [] r Hin)
    as [Hold|(c & initial & Hmodel & Htransform & _ & _ & Hinit)].
  { by apply elem_of_nil in Hold. }
  destruct (Hinit "GEOMETRY" eq_refl)
    as (initializer & -> & Hmoments & _ & _ & Hclass).
  exists r, c, initializer. split; [exact Hin|]. split; [exact Htransform|].
  split; [by injection Hmodel as <-|]. split; [exact Hmoments|exact Hclass].
Defined.


Lemma mask_must_have_the_image_type_witness :
  itk.isinstance (WrapItkRegistration._fixed_itk uc_mask_instance)
    (WrapItkRegistration._image_type uc_mask_instance) = true
  ∧ WrapItkRegistration._fixed_itk_mask uc_mask_instance
    = itk.image (itk.Image "UC" 3) 3
  ∧ ∃ s',
      WrapItkRegistration.run (WrapItkRegistration.State uc_mask_instance [])
      = (Raise (ValueError "Fixed image mask must be of type itk.Image"), s')
      ∧ WrapItkRegistration.trace s' = [].
Proof.
  split; [reflexivity|]. split; [reflexivity|].
  destruct (@mask_must_have_the_image_type reference_itk uc_mask_instance []
              eq_refl eq_refl) as (Hfixed & _ & Hother).
  apply Hfixed. apply (Hother "UC" 3%N); [discriminate|reflexivity].
Defined.

#[local] Existing Instance reference_itk_v4.

Lemma run_v4_knows_rigid_and_affine_witness :
  @WrapItkRegistration._registration_type reference_itk gaussian_instance
  = "Similarity"
  ∧ (@WrapItkRegistration.run reference_itk
       (WrapItkRegistration.State gaussian_instance [])).1 = Ok tt
  ∧ (WrapItkRegistration_v4._run_v4
       (WrapItkRegistration_v4.State_v4 gaussian_instance [])).1
    = Raise (ValueError "Registration type 'Similarity' not known.").
Proof.
  split; [reflexivity|]. split; [by vm_compute|].
  by rewrite (run_v4_knows_rigid_and_affine gaussian_instance []).
Defined.


Lemma warped_moving_image_needs_a_run_witness :
  ∃ msg s' warped,
    RegAladin._get_warped_moving_sitk (State aladin_instance stale_files [])
    = (Raise (AttributeError msg), State aladin_instance stale_files [])
    ∧ RegAladin._run 0 (State aladin_instance stale_files []) = (Ok tt, s')
    ∧ files s' !! "/tmp/simplereg/RegAladin/warped_moving.nii.gz"
      = Some (Nifti warped)
    ∧ RegAladin._get_warped_moving_sitk s' = (Ok warped, s').
Proof.
  destruct (@warped_moving_image_needs_a_run Z Z_scalar reference_niftyreg
              aladin_instance stale_files [] 0)
    as (Hunbound & Haladin & _).
  destruct (Hunbound eq_refl) as (msg & Hget & _).
  destruct (Haladin (RegAladin._run 0
                       (State aladin_instance stale_files [])).2)
    as (warped & Hfile & Hwarped).
  { vm_compute. reflexivity. }
  exists msg. eexists _, warped.
  split; [exact Hget|]. split; [vm_compute; reflexivity|].
  split; [exact Hfile|exact Hwarped].
Defined.


Lemma warped_mask_of_RegAladin_witness :
  ∃ s' transform msg,
    RegAladin._run 0 (State aladin_instance stale_files []) = (Ok tt, s')
    ∧ get_registration_transform_sitk (self s') = Ok transform
    ∧ RegAladin._get_transformed_fixed_sitk_mask s'
      = (get_transformed_sitk_image (Some mask_3d) transform, s')
    ∧ RegAladin_masks._get_warped_moving_sitk_mask s'
      = (Raise (AttributeError msg), s').
Proof.
  pose proof (@warped_mask_of_RegAladin Z reference_niftyreg
                reference_resample
                (RegAladin._run 0 (State aladin_instance stale_files [])).2)
    as [_ Hbound].
  destruct (Hbound (AffineTransform [1; 2; -3; 4; 5; -6; -7; -8; 9]
                      [-10; -20; 30]))
    as (Hfixed & Hnone & _).
  { vm_compute. reflexivity. }
  destruct Hnone as (msg & Hmask); [reflexivity|].
  eexists _, _, msg.
  split; [vm_compute; reflexivity|].
  split; [vm_compute; reflexivity|].
  split; [exact Hfixed|exact Hmask].
Defined.

Lemma report_of_a_run_witness :
  (@WrapItkRegistration.run reference_itk
     (WrapItkRegistration.State gaussian_instance [])).1 = Ok tt
  ∧ WrapItkRegistration.print_info "Use Multiresolution Framework: False" true
    ∈ WrapItkRegistration.trace
        (@WrapItkRegistration.run reference_itk
           (WrapItkRegistration.State gaussian_instance [])).2.
Proof.
  assert ((@WrapItkRegistration.run reference_itk
             (WrapItkRegistration.State gaussian_instance [])).1 = Ok tt)
    as Hrun by (vm_compute; reflexivity).
  split; [exact Hrun|].
  destruct (@report_of_a_run reference_itk gaussian_instance [])
    as (events & -> & _ & _ & Hreturns).
  destruct (Hreturns Hrun) as (r & done_ & _ & ->).
  cbn. rewrite !elem_of_cons. intuition.
Defined.
